(** * AI-Summary: the webhook pipeline of [src/api/*.js]

    A shallow embedding of the three stage handlers ([summary.js],
    [actions.js], [annotate.js]) and of the two client classes they
    each carry ([AI] and [Omnivore]), followed by the properties of the
    specification that concern them.

    - JavaScript strings are sequences of UTF-16 code units.
    - Parsed JSON (webhook bodies, GraphQL replies) is a tree; property
      access follows JavaScript: reading a property of [undefined] or
      [null] throws a [TypeError].
    - The outside world (the article store, the completion provider, the
      uuid generator, the environment) is a record of oracles; a run
      threads a state holding the number of calls made to each oracle
      and the trace of observable events.
    - [async] functions are computations in a state-and-exception monad:
      a rejected promise is a [Throw], [try]/[catch] is [try_catch].
    - [console.error] lines are events of the trace. [console.log]
      lines print nothing that is observed and are left out, but for
      one effect: a template literal converts the values it holds to
      strings, and the conversion of a value read from a request or
      from a reply of the store can throw (see [converts]). *)

From Stdlib Require Import List NArith ZArith Bool String Ascii Lia.
From Stdlib Require QArith.
Import ListNotations.

Set Implicit Arguments.
Set Warnings "-register-all".

(* ================================================================== *)
(** ** Strings *)

(** A UTF-16 code unit. *)
Definition code_unit := N.

Definition jsstring := list code_unit.

(** ASCII literals of the source, as code units. *)
Definition str (s : string) : jsstring :=
  map N_of_ascii (list_ascii_of_string s).

Definition QUOTE : code_unit := 34%N.
Definition BACKSLASH : code_unit := 92%N.
Definition NEWLINE : code_unit := 10%N.

(** ECMAScript [WhiteSpace] and [LineTerminator] code points; all of
    them lie in the basic plane, so they are single code units. *)
Definition is_js_space (c : code_unit) : bool :=
  ((9 <=? c) && (c <=? 13) ||
   (c =? 32) || (c =? 160) || (c =? 5760) ||
   (8192 <=? c) && (c <=? 8202) ||
   (c =? 8232) || (c =? 8233) || (c =? 8239) || (c =? 8287) ||
   (c =? 12288) || (c =? 65279))%N.

Fixpoint trimStart (s : jsstring) : jsstring :=
  match s with
  | [] => []
  | c :: s' => if is_js_space c then trimStart s' else s
  end.

Definition trimEnd (s : jsstring) : jsstring := rev (trimStart (rev s)).

(** [String.prototype.trim] *)
Definition trim (s : jsstring) : jsstring := trimEnd (trimStart s).

(** [s.replace(/c/g, by)] for a pattern that is one literal code unit
    and a replacement without [$] patterns: every occurrence of [c],
    scanning left to right, is replaced by [by]. *)
Fixpoint replace_all (c : code_unit) (by_ : jsstring) (s : jsstring) : jsstring :=
  match s with
  | [] => []
  | d :: s' =>
      if (d =? c)%N then by_ ++ replace_all c by_ s'
      else d :: replace_all c by_ s'
  end.

(** [trimAnnotation], the same function in the three files:
    [annotation.trim().replace(/"/g, '\\"').replace(/\\/g, '\\\\')]. *)
Definition trimAnnotation (annotation : jsstring) : jsstring :=
  replace_all BACKSLASH [BACKSLASH; BACKSLASH]
    (replace_all QUOTE [BACKSLASH; QUOTE] (trim annotation)).

(** [Array.prototype.join] on an array of strings. *)
Fixpoint join (sep : jsstring) (l : list jsstring) : jsstring :=
  match l with
  | [] => []
  | [s] => s
  | s :: l' => s ++ sep ++ join sep l'
  end.

(** [String.prototype.substring(0, n)] *)
Definition substring0 (n : nat) (s : jsstring) : jsstring := firstn n s.

Fixpoint jsstring_eqb (s t : jsstring) : bool :=
  match s, t with
  | [], [] => true
  | c :: s', d :: t' => (c =? d)%N && jsstring_eqb s' t'
  | _, _ => false
  end.

(* ================================================================== *)
(** ** Values *)

(** The result of [JSON.parse] / [response.json()]. Numbers are never
    computed with; only their truthiness is observed, so a rational
    stands for the number read. *)
Inductive json : Type :=
| JNull
| JBool (b : bool)
| JNum (q : QArith_base.Q)
| JStr (s : jsstring)
| JArr (items : list json)
| JObj (fields : list (jsstring * json)).

(** [Error] objects, by the site that creates them; the constructor
    stands for the [message] text of the source. *)
Inductive js_error : Type :=
| HttpError (status : Z)
    (* `HTTP error! status: ${response.status}` *)
| GraphQLError (messages : list (option json))
    (* `GraphQL error: ${data.errors.map((e) => e.message).join(', ')}` *)
| NoCompletionError
    (* `No completion returned from OpenAI for prompt "${prompt}"` *)
| RequiredError
    (* 'Prompt, completions, and article content are required.' *)
| ApiKeyError
    (* 'API key is not defined' *)
| TypeError
    (* a property read on undefined or null, a call of a non-function *)
| SyntaxError
    (* JSON.parse or response.json() on text that is not JSON *)
| Rejection (reason : jsstring).
    (* a rejection coming from fetch or from the OpenAI client *)

(** The texts written to the console or put in a [Response] body. *)
Inductive message : Type :=
| MsgRequired
    (* 'Prompt and article content are required.' *)
| MsgCompletionError (e : js_error)
    (* `Error fetching completion from OpenAI: ${error.message}` *)
| MsgArticleError (e : js_error)
    (* `Error fetching article from Omnivore: ${error.message}` *)
| MsgRetrying (attempt : nat)
    (* `No response, retrying... Attempt ${attempts + 1}` *)
| MsgAnnotationError (e : js_error)
    (* `Error adding annotation to Omnivore article (ID: ${articleId}): ${error.message}` *)
| MsgError (e : js_error)
    (* the message of [e] alone, as addAnnotation prints before it throws *)
| MsgNoPayload (e : js_error)
    (* `No payload found: ${e.message}` *)
| MsgNoPayloadFound
    (* 'No payload found.' *)
| MsgAnnotationAdded.
    (* `Article annotation added.` *)

(** What a variable of the handlers can hold: [undefined], a JSON value,
    or (in annotate.js, whose clients return them on failure) a
    [Response] object built with [new Response(text, { status })]. *)
Inductive jsval : Type :=
| VUndefined
| VJson (j : json)
| VResponse (text : message) (status : Z).

Definition VStr (s : jsstring) : jsval := VJson (JStr s).

(** ToBoolean *)
Definition json_truthy (j : json) : bool :=
  match j with
  | JNull => false
  | JBool b => b
  | JNum q => negb (QArith_base.Qnum q =? 0)%Z
  | JStr s => match s with [] => false | _ => true end
  | JArr _ => true
  | JObj _ => true
  end.

Definition truthy (v : jsval) : bool :=
  match v with
  | VUndefined => false
  | VJson j => json_truthy j
  | VResponse _ _ => true
  end.

Fixpoint lookup (k : jsstring) (fields : list (jsstring * json)) : option json :=
  match fields with
  | [] => None
  | (k', j) :: fields' => if jsstring_eqb k k' then Some j else lookup k fields'
  end.

(** [v.k] when [v] is neither [undefined] nor [null]. None of the keys
    the handlers read ([page], [id], [errors], [data], [article],
    [content], [createHighlight], [message], [articleId],
    [articleAnnotation]) is a property of a primitive wrapper, of an
    array, of [Object.prototype] or of a [Response]. *)
Definition own_prop (v : jsval) (k : jsstring) : jsval :=
  match v with
  | VJson (JObj fields) =>
      match lookup k fields with
      | Some j => VJson j
      | None => VUndefined
      end
  | _ => VUndefined
  end.

Definition nullish (v : jsval) : bool :=
  match v with
  | VUndefined | VJson JNull => true
  | _ => false
  end.

(** Whether the conversion to a string, as a template literal or
    [Array.prototype.join] applies it, ends without a [TypeError]. A
    parsed JSON object inherits [toString] from [Object.prototype] and
    converts to "[object Object]", unless it has a key [toString] of its
    own: the value of that key is not a function, and [valueOf], its own
    or inherited, gives no primitive either. An array converts by
    joining the conversions of its elements. Primitives, [undefined]
    and [Response] objects always convert. *)
Fixpoint json_converts (j : json) : bool :=
  match j with
  | JObj fields =>
      match lookup (str "toString") fields with
      | Some _ => false
      | None => true
      end
  | JArr items => forallb json_converts items
  | _ => true
  end.

Definition converts (v : jsval) : bool :=
  match v with
  | VJson j => json_converts j
  | _ => true
  end.

(* ================================================================== *)
(** ** The outside world *)

(** The [input] variable of the [CreateHighlight] mutation, as the
    object that [addAnnotation] builds and hands to [JSON.stringify]:
    the two values are kept as given, and [stringified] tells what is
    written for them. *)
Record highlight_input : Type := {
  hl_type : jsstring;
  hl_id : jsstring;
  hl_shortId : jsstring;
  hl_articleId : jsval;
  hl_annotation : jsval;
}.

(** The JSON body posted to the next stage; [ho_id] is the [id] field,
    which only actions.js sends. *)
Record handoff : Type := {
  ho_articleId : jsval;
  ho_article : jsval;
  ho_articleAnnotation : jsstring;
  ho_id : option jsval;
}.

(** The three uses of [fetch]. The two store requests go to
    [OMNIVORE_URL] with the API key as [Authorization] header; their
    query texts ([buildGetQuery], [buildPostQuery]) are determined by the
    fields kept here. *)
Inductive fetch_request : Type :=
| ArticleQuery (authorization : jsstring) (articleId : jsval)
| CreateHighlight (authorization : jsstring) (input : highlight_input)
| NextStage (url : jsstring) (payload : handoff).

(** How a [fetch] ends: the promise rejects, or a response arrives with
    a status and a body, [None] when [response.json()] rejects. *)
Inductive fetch_outcome : Type :=
| FetchRejected (e : js_error)
| FetchResponse (status : Z) (body : option json).

(** [response.ok] *)
Definition response_ok (status : Z) : bool :=
  ((200 <=? status) && (status <=? 299))%Z.

(** The argument of [openai.chat.completions.create]: the parsed
    settings spread into the request, and the single user message
    `Instruction: ${prompt}\nArticle content: ${articleContent}`, kept
    as the two values it is made from (a [Response] object reads
    "[object Response]" in it). *)
Record chat_request : Type := {
  chat_params : json;
  chat_instruction : jsval;
  chat_article : jsval;
}.

(** A [ChatCompletion] of the client library: [content] is
    [string | null]. *)
Record chat_message : Type := { content : option jsstring }.
Record choice : Type := { message_ : option chat_message }.

Inductive chat_outcome : Type :=
| ChatRejected (e : js_error)
| ChatCompletion (choices : list choice).

Record world : Type := {
  OMNIVORE_API_KEY : option jsstring;
  OPENAI_MODEL : option jsstring;
  OPENAI_SETTINGS : option jsstring;
  OPENAI_PROMPT : option jsstring;
  (** [new OpenAI()]: [Some e] when the client library refuses to start *)
  new_OpenAI : option js_error;
  JSON_parse : jsstring -> option json;
  (** the outcome of the n-th [fetch], of the n-th completion call, and
      the n-th value of [uuidv4()] *)
  fetch_reply : nat -> fetch_request -> fetch_outcome;
  chat_reply : nat -> chat_request -> chat_outcome;
  uuid : nat -> jsstring;
}.

Inductive event : Type :=
| EFetch (r : fetch_request)
| EChat (r : chat_request)
| ETimeout (ms : N)
| EConsoleError (m : message).

Record state : Type := {
  fetches : nat;
  chats : nat;
  uuids : nat;
  trace : list event;
}.

Definition initial : state :=
  {| fetches := 0; chats := 0; uuids := 0; trace := [] |}.

(* ================================================================== *)
(** ** Computations *)

(** How a call ends. [Diverge] is the model's out-of-fuel answer;
    [getArticle] is given the fuel never to reach it (see
    [getArticle_fuel_enough]). *)
Inductive outcome (A : Type) : Type :=
| Ret (a : A)
| Throw (e : js_error)
| Diverge.

Arguments Ret {A} a.
Arguments Throw {A} e.
Arguments Diverge {A}.

Definition M (A : Type) : Type := state -> outcome A * state.

Definition ret {A} (a : A) : M A := fun st => (Ret a, st).

Definition throw {A} (e : js_error) : M A := fun st => (Throw e, st).

Definition bind {A B} (m : M A) (k : A -> M B) : M B :=
  fun st =>
    match m st with
    | (Ret a, st') => k a st'
    | (Throw e, st') => (Throw e, st')
    | (Diverge, st') => (Diverge, st')
    end.

(** [try { body } catch (error) { handler }] *)
Definition try_catch {A} (body : M A) (handler : js_error -> M A) : M A :=
  fun st =>
    match body st with
    | (Throw e, st') => handler e st'
    | r => r
    end.

Declare Scope js_scope.
Delimit Scope js_scope with js.
Notation "x <- m ;; k" := (bind m (fun x => k))
  (at level 61, m at next level, right associativity) : js_scope.
Notation "m ;; k" := (bind m (fun _ => k))
  (at level 61, right associativity) : js_scope.
Local Open Scope js_scope.

Definition emit (e : event) : M unit :=
  fun st =>
    (Ret tt, {| fetches := fetches st; chats := chats st; uuids := uuids st;
                trace := trace st ++ [e] |}).

Definition console_error (m : message) : M unit := emit (EConsoleError m).

(** [v.k]: throws on [undefined] and [null]. *)
Definition get (v : jsval) (k : jsstring) : M jsval :=
  if nullish v then throw TypeError else ret (own_prop v k).

(** `${v}` inside a template literal: the conversion of [v] to a
    string. The text itself is kept as the value it was made from (the
    [articleId] of an [ArticleQuery], the argument of a message). *)
Definition template (v : jsval) : M unit :=
  if converts v then ret tt else throw TypeError.

(** [v?.k] *)
Definition opt_get (v : jsval) (k : jsstring) : jsval :=
  if nullish v then VUndefined else own_prop v k.

(** [await fetch(...)]: the request leaves, then the promise settles. *)
Definition fetch (W : world) (r : fetch_request) : M fetch_outcome :=
  fun st =>
    (Ret (fetch_reply W (fetches st) r),
     {| fetches := S (fetches st); chats := chats st; uuids := uuids st;
        trace := trace st ++ [EFetch r] |}).

(** [openai.chat.completions.create(...)]: the request leaves; the
    outcome is what the returned promise later settles to. *)
Definition create (W : world) (r : chat_request) : M chat_outcome :=
  fun st =>
    (Ret (chat_reply W (chats st) r),
     {| fetches := fetches st; chats := S (chats st); uuids := uuids st;
        trace := trace st ++ [EChat r] |}).

Definition uuidv4 (W : world) : M jsstring :=
  fun st =>
    (Ret (uuid W (uuids st)),
     {| fetches := fetches st; chats := chats st; uuids := S (uuids st);
        trace := trace st |}).

(** [setTimeout(..., delay)] followed by the wait for it. *)
Definition setTimeout (ms : N) : M unit := emit (ETimeout ms).

(** [await response.json()] *)
Definition response_json (body : option json) : M jsval :=
  match body with
  | Some j => ret (VJson j)
  | None => throw SyntaxError
  end.

(** [l.map(f)] with an effectful [f], run in index order. *)
Fixpoint mapM {A B} (f : A -> M B) (l : list A) : M (list B) :=
  match l with
  | [] => ret []
  | a :: l' => b <- f a ;; bs <- mapM f l' ;; ret (b :: bs)
  end.

(* ================================================================== *)
(** ** What the three files share *)

(** The response a handler returns. *)
Inductive response_body : Type :=
| JsonBody (v : jsval)      (* JSON.stringify(v) *)
| TextBody (m : message).

Record http_response : Type := {
  resp_body : response_body;
  resp_status : Z;
}.

(** [process.env[...] || fallback]: an unset or empty variable is falsy. *)
Definition env_or (var : option jsstring) (fallback : jsstring) : jsstring :=
  match var with
  | Some (c :: s) => c :: s
  | _ => fallback
  end.

(** `{"model":"${this.model}", "temperature":0.5}` *)
Definition default_settings (model : jsstring) : jsstring :=
  str "{" ++ [QUOTE] ++ str "model" ++ [QUOTE] ++ str ":" ++ [QUOTE] ++ model
    ++ [QUOTE] ++ str ", " ++ [QUOTE] ++ str "temperature" ++ [QUOTE]
    ++ str ":0.5}".

Record AI : Type := {
  model : jsstring;
  settings : jsstring;
}.

(** [new AI()], called without arguments by every handler. *)
Definition new_AI (W : world) : M AI :=
  match new_OpenAI W with
  | Some e => throw e
  | None =>
      let model := env_or (OPENAI_MODEL W) (str "gpt-4o-mini") in
      ret {| model := model;
             settings := env_or (OPENAI_SETTINGS W) (default_settings model) |}
  end.

Record Omnivore : Type := { apiKey : jsstring }.

(** [new Omnivore()] *)
Definition new_Omnivore (W : world) : M Omnivore :=
  match OMNIVORE_API_KEY W with
  | Some (c :: s) => ret {| apiKey := c :: s |}
  | _ => throw ApiKeyError
  end.

(** [JSON.parse(this.settings)] *)
Definition parse_settings (W : world) (ai : AI) : M json :=
  match JSON_parse W (settings ai) with
  | Some j => ret j
  | None => throw SyntaxError
  end.

(** [await] on the promise of a completion call. *)
Definition await_chat (o : chat_outcome) : M (list choice) :=
  match o with
  | ChatRejected e => throw e
  | ChatCompletion choices => ret choices
  end.

(** [completion.choices[0]?.message?.content === ''] *)
Definition first_content_is_empty (c : choice) : bool :=
  match message_ c with
  | Some {| content := Some [] |} => true
  | _ => false
  end.

(** What follows the [await] inside the [try] of [getCompletion]: the
    emptiness test, then [trimAnnotation(completion.choices[0].message.content)],
    which throws when the message is missing or its content is [null]. *)
Definition completion_text (choices : list choice) : M jsstring :=
  match choices with
  | [] => throw NoCompletionError
  | c :: _ =>
      if first_content_is_empty c then throw NoCompletionError
      else
        match message_ c with
        | None => throw TypeError
        | Some m =>
            match content m with
            | None => throw TypeError
            | Some s => ret (trimAnnotation s)
            end
        end
  end.

Definition message_of (v : jsval) : option json :=
  match v with
  | VJson j => Some j
  | _ => None
  end.

(** The [Error] built from a truthy [data.errors]:
    [data.errors.map((e) => e.message).join(', ')] throws a [TypeError]
    of its own when [errors] is not an array or holds a [null], and when
    [join] cannot convert one of the messages to a string. *)
Definition graphql_error (errors : jsval) : M js_error :=
  match errors with
  | VJson (JArr items) =>
      msgs <- mapM (fun e => get (VJson e) (str "message")) items ;;
      if forallb converts msgs then ret (GraphQLError (map message_of msgs))
      else throw TypeError
  | _ => throw TypeError
  end.

(** [data?.data?.article?.article?.content] *)
Definition article_content_opt (data : jsval) : jsval :=
  opt_get (opt_get (opt_get (opt_get data (str "data")) (str "article"))
             (str "article")) (str "content").

(** [data.data.article.article.content] *)
Definition article_content (data : jsval) : M jsval :=
  d <- get data (str "data") ;;
  a <- get d (str "article") ;;
  a' <- get a (str "article") ;;
  get a' (str "content").

(** One pass through the [try] block of [getArticle] ends with the
    [return] of a value or with the [return] of the promise that calls
    [getArticle] again after [delay] milliseconds. *)
Inductive attempt : Type :=
| Done (v : jsval)
| RetryAfter (delay : N).

(** [await fetch(...)] followed by the tests on the response that the two
    store operations share: [!response.ok], then [response.json()]. *)
Definition await_fetch (o : fetch_outcome) : M (Z * option json) :=
  match o with
  | FetchRejected e => throw e
  | FetchResponse status body => ret (status, body)
  end.

(** [buildGetQuery(articleId)], the same in the three files, on an id
    that is a string: the text before `${articleId}` and the text after
    it in the template. On any other id the template converts it first,
    which is the [template articleId] that opens [getArticle]. *)
Definition query_head : jsstring :=
  str "query Article {" ++ [NEWLINE] ++ str "      article("
    ++ [NEWLINE] ++ str "        slug: " ++ [QUOTE].

Definition query_tail : jsstring :=
  [QUOTE] ++ [NEWLINE] ++ str "        username: " ++ [QUOTE] ++ str "."
    ++ [QUOTE] ++ [NEWLINE] ++ str "        format: " ++ [QUOTE]
    ++ str "markdown" ++ [QUOTE] ++ [NEWLINE] ++ str "        ) {"
    ++ [NEWLINE] ++ str "          ... on ArticleSuccess {" ++ [NEWLINE]
    ++ str "            article {" ++ [NEWLINE]
    ++ str "              title" ++ [NEWLINE]
    ++ str "              content" ++ [NEWLINE]
    ++ str "              labels {" ++ [NEWLINE]
    ++ str "                name" ++ [NEWLINE] ++ str "              }"
    ++ [NEWLINE] ++ str "            }" ++ [NEWLINE] ++ str "          }"
    ++ [NEWLINE] ++ str "        }" ++ [NEWLINE] ++ str "      }".

Definition buildGetQuery (articleId : jsstring) : jsstring :=
  query_head ++ articleId ++ query_tail.

(** The [try] block of [addAnnotation], the same text in the three
    files. *)
Definition addAnnotation_try (W : world) (o : Omnivore)
    (query : highlight_input) : M jsval :=
  reply <- fetch W (CreateHighlight (apiKey o) query) ;;
  response <- await_fetch reply ;;
  let '(status, body) := response in
  if negb (response_ok status)
  then console_error (MsgError (HttpError status)) ;;
       throw (HttpError status)
  else
    data <- response_json body ;;
    errors <- get data (str "errors") ;;
    if truthy errors
    then e <- graphql_error errors ;;
         console_error (MsgError e) ;;
         throw e
    else
      d <- get data (str "data") ;;
      get d (str "createHighlight").

(* ================================================================== *)
(** ** summary.js (stage 1) *)

Module Summary.

Definition REFINEMENT_PROMPT : jsstring :=
  str "Review the following completions. Select and refine the best one for clarity and Obsidian compatibility. Do not add new headings or indicate it has been refined, and do not shorten or remove the summary - just fix errors and make it more compatible with Obsidian. Make sure all names and concepts are marked up as Obsidian links and also make sure all mentions of books are formated like this:  [[<bookTitle> av <author> | <bookTitle>]] - example: [[Bilbo av Tolkien | Bilbo]].".

Definition NEXT_STAGE_URL : jsstring :=
  str "https://ai-summary-theta.vercel.app/api/actions".

(** *** class AI *)

(** A [getCompletion] call seen from its caller once the synchronous
    part has run: already settled, or waiting for the provider. *)
Inductive pending : Type :=
| Settled (r : option jsstring)
| Awaiting (o : chat_outcome).

(** The [catch] block of [getCompletion]; the function then ends without
    a [return], so the call yields [undefined] ([None]). *)
Definition getCompletion_catch (e : js_error) : M (option jsstring) :=
  console_error (MsgCompletionError e) ;; ret None.

(** [getCompletion] up to its [await]: the argument test, which only
    prints, then inside the [try] the parse of the settings and the call
    of the provider. The message of the request is a template holding
    the two arguments; no handler calls this function in summary.js, and
    where annotate.js calls its own the arguments are strings,
    [undefined] or [Response] objects, which always convert. *)
Definition getCompletion_start (W : world) (ai : AI)
    (prompt articleContent : jsval) : M pending :=
  (if negb (truthy prompt) || negb (truthy articleContent)
   then console_error MsgRequired else ret tt) ;;
  try_catch
    (params <- parse_settings W ai ;;
     o <- create W {| chat_params := params;
                      chat_instruction := prompt;
                      chat_article := articleContent |} ;;
     ret (Awaiting o))
    (fun e => r <- getCompletion_catch e ;; ret (Settled r)).

(** [getCompletion] from its [await] on, still inside the [try]. *)
Definition getCompletion_finish (p : pending) : M (option jsstring) :=
  match p with
  | Settled r => ret r
  | Awaiting o =>
      try_catch
        (choices <- await_chat o ;;
         s <- completion_text choices ;;
         ret (Some s))
        getCompletion_catch
  end.

Definition getCompletion (W : world) (ai : AI)
    (prompt articleContent : jsval) : M (option jsstring) :=
  p <- getCompletion_start W ai prompt articleContent ;;
  getCompletion_finish p.

(** An [undefined] element of the array is joined as the empty string. *)
Definition join_item (r : option jsstring) : jsstring :=
  match r with
  | Some s => s
  | None => []
  end.

(** [completions.map(() => this.getCompletion(...))] runs every call up
    to its [await], in index order; [Promise.all] then waits for all of
    them. The order in which the calls resume only decides the order of
    their [console.error] lines; index order is taken here. *)
Definition getBestCompletionOutOf (W : world) (ai : AI)
    (prompt : jsval) (completions : list json) (articleContent : jsval)
    : M (option jsstring) :=
  if negb (truthy prompt) || (List.length completions <=? 0)
     || negb (truthy articleContent)
  then throw RequiredError
  else
    ps <- mapM (fun _ => getCompletion_start W ai prompt articleContent)
               completions ;;
    completionContents <- mapM getCompletion_finish ps ;;
    getCompletion W ai (VStr REFINEMENT_PROMPT)
      (VStr (join [NEWLINE] (map join_item completionContents))).

(** *** class Omnivore *)

(** The [try] block of [getArticle]. *)
Definition getArticle_try (W : world) (o : Omnivore)
    (articleId : jsval) (attempts : nat) : M attempt :=
  reply <- fetch W (ArticleQuery (apiKey o) articleId) ;;
  response <- await_fetch reply ;;
  let '(status, body) := response in
  if negb (response_ok status) then throw (HttpError status)
  else
    data <- response_json body ;;
    errors <- get data (str "errors") ;;
    if truthy errors then (e <- graphql_error errors ;; throw e)
    else if negb (truthy (article_content_opt data)) && (attempts <? 3)
    then
      let delay := (2 ^ N.of_nat attempts * 1000)%N in
      console_error (MsgRetrying (attempts + 1)) ;;
      ret (RetryAfter delay)
    else
      content <- article_content data ;;
      ret (Done content).

(** [getArticle(articleId, attempts)]. The query text is built, and
    the id converted to a string, before the [try]. The promise returned
    for a retry leaves the [try] without being awaited, so the call it
    makes is outside the [catch] of this one. *)
Fixpoint getArticle_fuel (fuel : nat) (W : world) (o : Omnivore)
    (articleId : jsval) (attempts : nat) : M jsval :=
  match fuel with
  | 0 => fun st => (Diverge, st)
  | S fuel' =>
      template articleId ;;
      r <- try_catch (getArticle_try W o articleId attempts)
             (fun e => console_error (MsgArticleError e) ;;
                       ret (Done VUndefined)) ;;
      match r with
      | Done v => ret v
      | RetryAfter delay =>
          setTimeout delay ;;
          getArticle_fuel fuel' W o articleId (attempts + 1)
      end
  end.

Definition getArticle (W : world) (o : Omnivore)
    (articleId : jsval) (attempts : nat) : M jsval :=
  getArticle_fuel (S (3 - attempts)) W o articleId attempts.

(** [addAnnotation(articleId, annotation)]. The line printed by the
    [catch] holds `${articleId}`. *)
Definition addAnnotation (W : world) (o : Omnivore)
    (articleId annotation : jsval) : M jsval :=
  id <- uuidv4 W ;;
  let query := {| hl_type := str "NOTE";
                  hl_id := id;
                  hl_shortId := substring0 8 id;
                  hl_articleId := articleId;
                  hl_annotation := annotation |} in
  try_catch (addAnnotation_try W o query)
    (fun e => template articleId ;;
              console_error (MsgAnnotationError e) ;; ret VUndefined).

(** *** The handler *)

(** [req] is what [req.json()] gives: [None] when it rejects. *)
Definition handler (W : world) (req : option json) : M http_response :=
  body <- try_catch (response_json req)
            (fun e => console_error (MsgNoPayload e) ;; ret VUndefined) ;;
  pageCreated <- get body (str "page") ;;
  articleId <- get pageCreated (str "id") ;;
  omnivore <- new_Omnivore W ;;
  article <- getArticle W omnivore articleId 0 ;;
  ai <- new_AI W ;;
  let articleAnnotation := str "En summering av artikeln" in
  response <- addAnnotation W omnivore articleId (VStr articleAnnotation) ;;
  reply <- fetch W (NextStage NEXT_STAGE_URL
                      {| ho_articleId := articleId;
                         ho_article := article;
                         ho_articleAnnotation := [];
                         ho_id := None |}) ;;
  await_fetch reply ;;
  addAnnotation W omnivore articleId (VStr (str "test 2")) ;;
  addAnnotation W omnivore articleId (VStr (str "test 3")) ;;
  addAnnotation W omnivore articleId (VStr (str "test 4")) ;;
  ret {| resp_body := JsonBody response; resp_status := 200 |}.

End Summary.

(* ================================================================== *)
(** ** actions.js (stage 2) *)

Module Actions.

Definition NEXT_STAGE_URL : jsstring :=
  str "https://ai-summary-theta.vercel.app/api/repetition".

(** [id.substring(0, 8)]: only a string has the method. *)
Definition id_substring (id : jsval) : M (jsstring * jsstring) :=
  match id with
  | VJson (JStr s) => ret (s, substring0 8 s)
  | _ => throw TypeError
  end.

(** [addAnnotation(articleId, annotation, id)]: the call of [uuidv4] is
    commented out and the id is a third parameter. The [query] object is
    built before the [try] is entered. The line printed by the [catch]
    holds `${articleId}`. *)
Definition addAnnotation (W : world) (o : Omnivore)
    (articleId annotation id : jsval) : M jsval :=
  ids <- id_substring id ;;
  let query := {| hl_type := str "NOTE";
                  hl_id := fst ids;
                  hl_shortId := snd ids;
                  hl_articleId := articleId;
                  hl_annotation := annotation |} in
  try_catch (addAnnotation_try W o query)
    (fun e => template articleId ;;
              console_error (MsgAnnotationError e) ;; ret VUndefined).

(** The handler calls [addAnnotation] with two arguments: the third is
    [undefined]. *)
Definition handler (W : world) (req : option json) : M http_response :=
  body <- try_catch (response_json req)
            (fun e => console_error (MsgNoPayload e) ;; ret VUndefined) ;;
  articleId <- get body (str "articleId") ;;
  article <- get body (str "article") ;;
  articleAnnotation <- get body (str "articleAnnotation") ;;
  id <- get body (str "id") ;;
  omnivore <- new_Omnivore W ;;
  ai <- new_AI W ;;
  response <- addAnnotation W omnivore articleId
                (VStr (str "En Action till artikeln")) VUndefined ;;
  reply <- fetch W (NextStage NEXT_STAGE_URL
                      {| ho_articleId := articleId;
                         ho_article := article;
                         ho_articleAnnotation := [];
                         ho_id := Some id |}) ;;
  await_fetch reply ;;
  ret {| resp_body := JsonBody response; resp_status := 200 |}.

End Actions.

(* ================================================================== *)
(** ** annotate.js *)

Module Annotate.

Definition REFINEMENT_PROMPT : jsstring :=
  str "Review the following completions and select and refine the best one based upon the clarity, Obsidian compatibility, and actionability. Dont add new headings or any text marking it's a refined version of the completion.".

(** *** class AI *)

(** [getCompletion] returns the text, or a [Response] object. *)
Inductive completion : Type :=
| Text (s : jsstring)
| Failure (text : message) (status : Z).

Definition to_jsval (c : completion) : jsval :=
  match c with
  | Text s => VStr s
  | Failure text status => VResponse text status
  end.

Inductive pending : Type :=
| Settled (r : completion)
| Awaiting (o : chat_outcome).

Definition getCompletion_catch (e : js_error) : M completion :=
  console_error (MsgCompletionError e) ;;
  ret (Failure (MsgCompletionError e) 500).

(** [getCompletion] up to its [await]. The lines it prints and the
    message of the request are templates holding the two arguments; they
    reach this function as strings, [undefined] or [Response] objects
    (the handler has converted the article to a string before it passes
    it on), which always convert. *)
Definition getCompletion_start (W : world) (ai : AI)
    (prompt articleContent : jsval) : M pending :=
  if negb (truthy prompt) || negb (truthy articleContent)
  then ret (Settled (Failure MsgRequired 400))
  else
    try_catch
      (params <- parse_settings W ai ;;
       o <- create W {| chat_params := params;
                        chat_instruction := prompt;
                        chat_article := articleContent |} ;;
       ret (Awaiting o))
      (fun e => r <- getCompletion_catch e ;; ret (Settled r)).

(** [getCompletion] from its [await] on. *)
Definition getCompletion_finish (p : pending) : M completion :=
  match p with
  | Settled r => ret r
  | Awaiting o =>
      try_catch
        (choices <- await_chat o ;;
         s <- completion_text choices ;;
         ret (Text s))
        getCompletion_catch
  end.

Definition getCompletion (W : world) (ai : AI)
    (prompt articleContent : jsval) : M completion :=
  p <- getCompletion_start W ai prompt articleContent ;;
  getCompletion_finish p.

(** A [Response] element of the array is joined as its [toString()]. *)
Definition join_item (r : completion) : jsstring :=
  match r with
  | Text s => s
  | Failure _ _ => str "[object Response]"
  end.

(** As in summary.js; the lines it prints hold the instruction and
    the joined results, which always convert. *)
Definition getBestCompletionOutOf (W : world) (ai : AI)
    (prompt : jsval) (completions : list json) (articleContent : jsval)
    : M completion :=
  if negb (truthy prompt) || (List.length completions <=? 0)
     || negb (truthy articleContent)
  then throw RequiredError
  else
    ps <- mapM (fun _ => getCompletion_start W ai prompt articleContent)
               completions ;;
    completionContents <- mapM getCompletion_finish ps ;;
    getCompletion W ai (VStr REFINEMENT_PROMPT)
      (VStr (join [NEWLINE] (map join_item completionContents))).

(** *** class Omnivore *)

(** The [try] block of [getArticle]; the retry notice goes to
    [console.log] here. *)
Definition getArticle_try (W : world) (o : Omnivore)
    (articleId : jsval) (attempts : nat) : M attempt :=
  reply <- fetch W (ArticleQuery (apiKey o) articleId) ;;
  response <- await_fetch reply ;;
  let '(status, body) := response in
  if negb (response_ok status) then throw (HttpError status)
  else
    data <- response_json body ;;
    errors <- get data (str "errors") ;;
    if truthy errors then (e <- graphql_error errors ;; throw e)
    else if negb (truthy (article_content_opt data)) && (attempts <? 3)
    then
      let delay := (2 ^ N.of_nat attempts * 1000)%N in
      ret (RetryAfter delay)
    else
      content <- article_content data ;;
      ret (Done content).

(** [getArticle(articleId, attempts)]: as in summary.js, the id is
    converted to a string, for the query text, before the [try]. *)
Fixpoint getArticle_fuel (fuel : nat) (W : world) (o : Omnivore)
    (articleId : jsval) (attempts : nat) : M jsval :=
  match fuel with
  | 0 => fun st => (Diverge, st)
  | S fuel' =>
      template articleId ;;
      r <- try_catch (getArticle_try W o articleId attempts)
             (fun e => console_error (MsgArticleError e) ;;
                       ret (Done (VResponse (MsgArticleError e) 500))) ;;
      match r with
      | Done v => ret v
      | RetryAfter delay =>
          setTimeout delay ;;
          getArticle_fuel fuel' W o articleId (attempts + 1)
      end
  end.

Definition getArticle (W : world) (o : Omnivore)
    (articleId : jsval) (attempts : nat) : M jsval :=
  getArticle_fuel (S (3 - attempts)) W o articleId attempts.

(** [addAnnotation(articleId, annotation)]. Its first line prints
    `${articleId}` and `${annotation}`, before the id is drawn; the
    [catch] holds `${articleId}` twice more, in the line it prints and in
    the text of the [Response]. *)
Definition addAnnotation (W : world) (o : Omnivore)
    (articleId annotation : jsval) : M jsval :=
  template articleId ;;
  template annotation ;;
  id <- uuidv4 W ;;
  let query := {| hl_type := str "NOTE";
                  hl_id := id;
                  hl_shortId := substring0 8 id;
                  hl_articleId := articleId;
                  hl_annotation := annotation |} in
  try_catch (addAnnotation_try W o query)
    (fun e => template articleId ;;
              console_error (MsgAnnotationError e) ;;
              template articleId ;;
              ret (VResponse (MsgAnnotationError e) 500)).

(** *** The handler *)

Definition env_value (var : option jsstring) : jsval :=
  match var with
  | Some s => VStr s
  | None => VUndefined
  end.

(** The handler prints `${articleId}`, `${article}` and `${response}`
    as soon as it has each of them. *)
Definition handler (W : world) (req : option json) : M http_response :=
  parsed <- try_catch (body <- response_json req ;; ret (inl body))
              (fun e => console_error (MsgNoPayload e) ;;
                        ret (inr {| resp_body := TextBody MsgNoPayloadFound;
                                    resp_status := 400 |})) ;;
  match parsed with
  | inr response => ret response
  | inl body =>
      pageCreated <- get body (str "page") ;;
      articleId <- get pageCreated (str "id") ;;
      template articleId ;;
      omnivore <- new_Omnivore W ;;
      article <- getArticle W omnivore articleId 0 ;;
      template article ;;
      ai <- new_AI W ;;
      articleAnnotation <-
        getBestCompletionOutOf W ai (env_value (OPENAI_PROMPT W))
          [JNum (QArith_base.inject_Z 0); JNum (QArith_base.inject_Z 1);
           JNum (QArith_base.inject_Z 2)] article ;;
      response <- addAnnotation W omnivore articleId
                    (to_jsval articleAnnotation) ;;
      template response ;;
      ret {| resp_body := TextBody MsgAnnotationAdded; resp_status := 200 |}
  end.

End Annotate.

(* ================================================================== *)
(** ** Vocabulary of the statements *)

(** What the two replacements of [trimAnnotation], done one after the
    other, make of one code unit: the backslash put before a quote by
    the first is doubled by the second. *)
Definition escaped (c : code_unit) : jsstring :=
  if (c =? QUOTE)%N then [BACKSLASH; BACKSLASH; QUOTE]
  else if (c =? BACKSLASH)%N then [BACKSLASH; BACKSLASH]
  else [c].

(** [st] after [df] more fetches, [dc] more completion calls, [du] more
    uuids, and the events [evs]. *)
Definition after (st : state) (df dc du : nat) (evs : list event) : state :=
  {| fetches := fetches st + df;
     chats := chats st + dc;
     uuids := uuids st + du;
     trace := trace st ++ evs |}.

Definition is_console (e : event) : bool :=
  match e with
  | EConsoleError _ => true
  | _ => false
  end.

Definition fetch_calls (evs : list event) : list fetch_request :=
  flat_map (fun e => match e with EFetch r => [r] | _ => [] end) evs.

Definition chat_calls (evs : list event) : list chat_request :=
  flat_map (fun e => match e with EChat r => [r] | _ => [] end) evs.

Definition timeouts (evs : list event) : list N :=
  flat_map (fun e => match e with ETimeout ms => [ms] | _ => [] end) evs.

Definition is_create_highlight (r : fetch_request) : bool :=
  match r with
  | CreateHighlight _ _ => true
  | _ => false
  end.

(** The data of a successful reply of the store: a 2xx status, a JSON
    body, no truthy [errors] in it. *)
Definition success_data (o : fetch_outcome) : option json :=
  match o with
  | FetchResponse status (Some data) =>
      if response_ok status && negb (nullish (VJson data))
         && negb (truthy (own_prop (VJson data) (str "errors")))
      then Some data
      else None
  | _ => None
  end.

(** What the [try] of [addAnnotation] returns for a reply:
    [data.data.createHighlight] of a successful one, unless the read
    throws. *)
Definition created (o : fetch_outcome) : option jsval :=
  match success_data o with
  | Some data =>
      if nullish (own_prop (VJson data) (str "data")) then None
      else Some (own_prop (own_prop (VJson data) (str "data"))
                   (str "createHighlight"))
  | None => None
  end.

(** How the handler of annotate.js ends once the highlight is posted:
    it prints what [addAnnotation] returned, then answers. What
    [addAnnotation] returns after a failure always converts to a string;
    [data.data.createHighlight] of a successful reply may not, and the
    handler then raises. *)
Definition annotate_answer (reply : fetch_outcome) : outcome http_response :=
  match created reply with
  | Some v =>
      if converts v
      then Ret {| resp_body := TextBody MsgAnnotationAdded; resp_status := 200 |}
      else Throw TypeError
  | None =>
      Ret {| resp_body := TextBody MsgAnnotationAdded; resp_status := 200 |}
  end.


(** A successful reply whose article content is empty or absent. *)
Definition empty_success (o : fetch_outcome) : bool :=
  match success_data o with
  | Some data => negb (truthy (article_content_opt (VJson data)))
  | None => false
  end.

(** What a provider outcome makes [getCompletion] deliver in
    summary.js: the escaped text of the first choice when that is a
    non-empty string, [undefined] otherwise. *)
Definition delivered (o : chat_outcome) : option jsstring :=
  match o with
  | ChatCompletion ({| message_ := Some {| content := Some (c :: s) |} |} :: _) =>
      Some (trimAnnotation (c :: s))
  | _ => None
  end.

(** What [getCompletion] of summary.js prints when it is given an empty
    instruction or article content. *)
Definition notice (prompt articleContent : jsval) : list event :=
  if negb (truthy prompt) || negb (truthy articleContent)
  then [EConsoleError MsgRequired] else [].

(** The same in annotate.js, where a failure is delivered as a
    [Response] object with status 500. *)
Definition annotate_delivered (o : chat_outcome) : Annotate.completion :=
  match o with
  | ChatRejected e => Annotate.Failure (MsgCompletionError e) 500
  | ChatCompletion [] =>
      Annotate.Failure (MsgCompletionError NoCompletionError) 500
  | ChatCompletion ({| message_ := Some {| content := Some [] |} |} :: _) =>
      Annotate.Failure (MsgCompletionError NoCompletionError) 500
  | ChatCompletion ({| message_ := Some {| content := Some (c :: s) |} |} :: _) =>
      Annotate.Text (trimAnnotation (c :: s))
  | ChatCompletion _ => Annotate.Failure (MsgCompletionError TypeError) 500
  end.

(** Choices without a text: none at all, or a first one whose content
    is the empty string. *)
Definition no_text (choices : list choice) : Prop :=
  choices = []
  \/ exists rest,
       choices = {| message_ := Some {| content := Some [] |} |} :: rest.

(** The content [getArticle] returns for the reply it stops at: the
    value of [data?.data?.article?.article?.content], or [undefined]
    when the reply is a failure. *)
Definition last_content (o : fetch_outcome) : jsval :=
  match success_data o with
  | Some data => article_content_opt (VJson data)
  | None => VUndefined
  end.

(** The events of a retry round of [getArticle] in summary.js: the
    request, the notice, the wait. *)
Definition retry_round (o : Omnivore) (articleId : jsval) (attempts : nat)
    : list event :=
  [EFetch (ArticleQuery (apiKey o) articleId);
   EConsoleError (MsgRetrying (attempts + 1));
   ETimeout (2 ^ N.of_nat attempts * 1000)%N].

(** The NOTE highlight with a given id, its short id being the first
    eight code units of the id. *)
Definition note_with (id : jsstring) (articleId annotation : jsval)
    : highlight_input :=
  {| hl_type := str "NOTE";
     hl_id := id;
     hl_shortId := firstn 8 id;
     hl_articleId := articleId;
     hl_annotation := annotation |}.

(** A JSON value without the key [k]: an object that has no such field,
    or anything that is not an object. *)
Definition lacks_key (k : jsstring) (body : json) : Prop :=
  match body with
  | JObj fields => lookup k fields = None
  | _ => True
  end.

(** Reading back what [trimAnnotation] wrote, left to right: two
    backslashes and a quote are a quote, two backslashes are a
    backslash, anything else is itself. *)
Fixpoint unescape (s : jsstring) : jsstring :=
  match s with
  | a :: ((b :: r) as s') =>
      if (a =? BACKSLASH)%N && (b =? BACKSLASH)%N
      then match r with
           | c :: r' =>
               if (c =? QUOTE)%N then QUOTE :: unescape r'
               else BACKSLASH :: unescape r
           | [] => [BACKSLASH]
           end
      else a :: unescape s'
  | _ => s
  end.

(** The events of a retry round of [getArticle] in annotate.js, where
    the notice goes to [console.log]: the request and the wait. *)
Definition annotate_round (o : Omnivore) (articleId : jsval) (attempts : nat)
    : list event :=
  [EFetch (ArticleQuery (apiKey o) articleId);
   ETimeout (2 ^ N.of_nat attempts * 1000)%N].

(** The highlights posted among some events. *)
Definition posts (evs : list event) : list fetch_request :=
  filter is_create_highlight (fetch_calls evs).

(** The [Authorization] header of a request to the store. *)
Definition authorization_of (r : fetch_request) : option jsstring :=
  match r with
  | ArticleQuery key _ => Some key
  | CreateHighlight key _ => Some key
  | NextStage _ _ => None
  end.

(** A body in which [body.page.id] can be read: [body] and [body.page]
    are neither [undefined] nor [null]. *)
Definition readable_page (body : json) : bool :=
  negb (nullish (VJson body))
  && negb (nullish (own_prop (VJson body) (str "page"))).

(** [body.page.id] *)
Definition page_id (body : json) : jsval :=
  own_prop (own_prop (VJson body) (str "page")) (str "id").

(** What [getArticle] of annotate.js returns, and prints, for the reply
    it stops at: the content; or, when the path to the content is broken
    or the reply is a failure, a [Response] object with status 500. *)
Definition annotate_outcome (reply : fetch_outcome) (v : jsval)
    (logs : list event) : Prop :=
  match success_data reply with
  | Some data =>
      (v = article_content_opt (VJson data) /\ logs = [])
      \/ (article_content_opt (VJson data) = VUndefined
          /\ v = VResponse (MsgArticleError TypeError) 500
          /\ logs = [EConsoleError (MsgArticleError TypeError)])
  | None =>
      exists e,
        v = VResponse (MsgArticleError e) 500
        /\ logs = [EConsoleError (MsgArticleError e)]
  end.

(** A computation whose events all satisfy [P], and whose requests are
    all in the trace: the counters of fetches and of completion calls
    move by the number of such events. *)
Definition traced (P : event -> bool) {A} (m : M A) : Prop :=
  forall st,
    exists du evs,
      snd (m st)
      = after st (List.length (fetch_calls evs)) (List.length (chat_calls evs))
          du evs
      /\ forallb P evs = true.

(** An event that is not a call of the provider. *)
Definition not_chat (e : event) : bool :=
  match e with
  | EChat _ => false
  | _ => true
  end.

(** An event that is not a request to the store under another
    [Authorization] header than [key]; without a key, an event that is
    not a request to the store at all. *)
Definition keyed (key : option jsstring) (e : event) : bool :=
  match e with
  | EFetch r =>
      match authorization_of r, key with
      | Some k, Some k' => jsstring_eqb k k'
      | Some _, None => false
      | None, _ => true
      end
  | _ => true
  end.

(** The key that [new Omnivore()] accepts, if any. *)
Definition store_key (W : world) : option jsstring :=
  match OMNIVORE_API_KEY W with
  | Some (c :: s) => Some (c :: s)
  | _ => None
  end.

(** A world in which [new Omnivore()] accepts the key [key] and the
    OpenAI client starts. *)
Definition configured (W : world) (key : jsstring) : Prop :=
  store_key W = Some key /\ new_OpenAI W = None.

(** [P] holds of the requests made with the key that [new Omnivore()]
    reads. *)
Definition holds_for_store (P : event -> bool) (W : world) : Prop :=
  forall o st st',
    new_Omnivore W st = (Ret o, st') ->
    (forall id, P (EFetch (ArticleQuery (apiKey o) id)) = true)
    /\ (forall input, P (EFetch (CreateHighlight (apiKey o) input)) = true).

(** The object that [new AI()] builds. *)
Definition the_ai (W : world) : AI :=
  {| model := env_or (OPENAI_MODEL W) (str "gpt-4o-mini");
     settings := env_or (OPENAI_SETTINGS W)
                   (default_settings
                      (env_or (OPENAI_MODEL W) (str "gpt-4o-mini"))) |}.

(** The ways in which a request to the store fails: the transport, the
    status, an [errors] array in the body. *)
Inductive store_failure : fetch_outcome -> Prop :=
| transport_error e :
    store_failure (FetchRejected e)
| http_error status body :
    response_ok status = false ->
    store_failure (FetchResponse status body)
| graphql_errors status fields items :
    response_ok status = true ->
    lookup (str "errors") fields = Some (JArr items) ->
    store_failure (FetchResponse status (Some (JObj fields))).

(* ================================================================== *)
(** ** Sample worlds *)

Definition sample_uuids : list jsstring :=
  [str "110ec58a-a0f2-4ac4-8393-c866d813b8d1";
   str "7c9e6679-7425-40de-944b-e07fc1f90ae7";
   str "6fa459ea-ee8a-4ca4-894e-db77e160355e";
   str "16fd2706-8baf-433b-82eb-8c7fada847da"].

Definition sample_settings : json :=
  JObj [(str "model", JStr (str "gpt-4o-mini"));
        (str "temperature", JNum (QArith_base.Qmake 1 2))].

(** A world with the API key set, no other variable, the default
    settings readable, and the replies of the store and of the provider
    given in order; past the end of a script the network is down. *)
Definition scripted (fs : list fetch_outcome) (cs : list chat_outcome)
    : world :=
  {| OMNIVORE_API_KEY := Some (str "api-key");
     OPENAI_MODEL := None;
     OPENAI_SETTINGS := None;
     OPENAI_PROMPT := Some (str "Summarize");
     new_OpenAI := None;
     JSON_parse := fun s =>
       if jsstring_eqb s (default_settings (str "gpt-4o-mini"))
       then Some sample_settings else None;
     fetch_reply := fun n _ => nth n fs (FetchRejected (Rejection (str "fetch failed")));
     chat_reply := fun n _ => nth n cs (ChatRejected (Rejection (str "Connection error.")));
     uuid := fun n => nth n sample_uuids (str "00000000-0000-4000-8000-000000000000") |}.

Definition sample_omnivore : Omnivore := {| apiKey := str "api-key" |}.

Definition sample_ai : AI :=
  {| model := str "gpt-4o-mini";
     settings := default_settings (str "gpt-4o-mini") |}.

(** A reply of the store to the [Article] query. *)
Definition article_reply (article : json) : fetch_outcome :=
  FetchResponse 200
    (Some (JObj [(str "data", JObj [(str "article", article)])])).

Definition article_with (content : jsstring) : json :=
  JObj [(str "article",
         JObj [(str "title", JStr (str "A title"));
               (str "content", JStr content);
               (str "labels", JArr [])])].

(** A reply of the store to the [CreateHighlight] mutation. *)
Definition highlight_reply : fetch_outcome :=
  FetchResponse 200
    (Some (JObj [(str "data",
                  JObj [(str "createHighlight",
                         JObj [(str "highlight", JObj [])])])])).

Definition text_reply (s : jsstring) : chat_outcome :=
  ChatCompletion [{| message_ := Some {| content := Some s |} |}].

(** A body of the kind stage 1 sends to stage 2. *)
Definition handoff_body (articleId article : jsstring) : json :=
  JObj [(str "articleId", JStr articleId);
        (str "article", JStr article);
        (str "articleAnnotation", JStr [])].

(** The body of the event that starts stage 1. *)
Definition page_created (id : jsstring) : json :=
  JObj [(str "page", JObj [(str "id", JStr id)])].

(* ================================================================== *)
(** * Properties *)

(** ** Escaping *)

Lemma replace_all_flat_map c by_ s :
  replace_all c by_ s = flat_map (fun d => if (d =? c)%N then by_ else [d]) s.
Proof.
  induction s as [|d s IH]; simpl; [reflexivity|].
  destruct (d =? c)%N; simpl; now rewrite IH.
Qed.

Lemma replace_all_app c by_ s t :
  replace_all c by_ (s ++ t) = replace_all c by_ s ++ replace_all c by_ t.
Proof.
  rewrite !replace_all_flat_map. apply flat_map_app.
Qed.

Lemma escape_in_order s :
  replace_all BACKSLASH [BACKSLASH; BACKSLASH]
    (replace_all QUOTE [BACKSLASH; QUOTE] s) = flat_map escaped s.
Proof.
  induction s as [|d s IH]; simpl; [reflexivity|].
  unfold escaped at 1.
  destruct (N.eqb_spec d QUOTE) as [->|Hq].
  - simpl. now rewrite IH.
  - simpl. destruct (d =? BACKSLASH)%N; simpl; now rewrite IH.
Qed.








(** ** Running computations *)

Arguments str : simpl never.
Arguments substring0 : simpl never.
Arguments N.pow : simpl never.
Arguments N.mul : simpl never.

Lemma bind_run {A B} (m : M A) (k : A -> M B) st :
  bind m k st =
    match m st with
    | (Ret a, st') => k a st'
    | (Throw e, st') => (Throw e, st')
    | (Diverge, st') => (Diverge, st')
    end.
Proof. reflexivity. Qed.

Lemma try_catch_run {A} (body : M A) (handler : js_error -> M A) st :
  try_catch body handler st =
    match body st with
    | (Throw e, st') => handler e st'
    | r => r
    end.
Proof. reflexivity. Qed.

Lemma after_0 st : after st 0 0 0 [] = st.
Proof.
  destruct st. unfold after. cbn. rewrite !Nat.add_0_r, app_nil_r. reflexivity.
Qed.

Lemma after_after st a b c evs a' b' c' evs' :
  after (after st a b c evs) a' b' c' evs'
  = after st (a + a') (b + b') (c + c') (evs ++ evs').
Proof.
  unfold after. cbn. rewrite !Nat.add_assoc, app_assoc. reflexivity.
Qed.

Lemma fetches_after st a b c evs : fetches (after st a b c evs) = fetches st + a.
Proof. reflexivity. Qed.

Lemma chats_after st a b c evs : chats (after st a b c evs) = chats st + b.
Proof. reflexivity. Qed.

Lemma uuids_after st a b c evs : uuids (after st a b c evs) = uuids st + c.
Proof. reflexivity. Qed.

Lemma emit_run e st : emit e st = (Ret tt, after st 0 0 0 [e]).
Proof. unfold emit, after. now rewrite !Nat.add_0_r. Qed.

Lemma fetch_run W r st :
  fetch W r st = (Ret (fetch_reply W (fetches st) r), after st 1 0 0 [EFetch r]).
Proof. unfold fetch, after. now rewrite !Nat.add_0_r, Nat.add_1_r. Qed.

Lemma create_run W r st :
  create W r st = (Ret (chat_reply W (chats st) r), after st 0 1 0 [EChat r]).
Proof. unfold create, after. now rewrite !Nat.add_0_r, Nat.add_1_r. Qed.

Lemma uuidv4_run W st :
  uuidv4 W st = (Ret (uuid W (uuids st)), after st 0 0 1 []).
Proof. unfold uuidv4, after. now rewrite !Nat.add_0_r, Nat.add_1_r, app_nil_r. Qed.

(** Property reads have no effect; all they can do is throw. *)
Lemma get_run v k st :
  get v k st = if nullish v then (Throw TypeError, st) else (Ret (own_prop v k), st).
Proof. unfold get. now destruct (nullish v). Qed.

Lemma graphql_error_run errors st :
  exists r, graphql_error errors st = (r, st) /\ r <> Diverge.
Proof.
  destruct errors as [|[| | | |items|]|];
    try (eexists; split; [reflexivity|discriminate]).
  unfold graphql_error. rewrite bind_run.
  assert (H : exists r, mapM (fun e => get (VJson e) (str "message")) items st = (r, st)
                        /\ r <> Diverge).
  { induction items as [|j items [r [IH Hr]]].
    - eexists; split; [reflexivity|discriminate].
    - change (mapM ?f (j :: items))
        with (b <- f j ;; bs <- mapM f items ;; ret (b :: bs)).
      rewrite bind_run, get_run. destruct (nullish (VJson j)).
      + eexists; split; [reflexivity|discriminate].
      + rewrite bind_run, IH.
        destruct r; try contradiction;
          eexists; (split; [reflexivity|discriminate]). }
  destruct H as [r [-> Hr]].
  destruct r as [msgs|e|]; try contradiction;
    [destruct (forallb converts msgs)|];
    eexists; (split; [reflexivity|discriminate]).
Qed.

Lemma template_run v st :
  template v st = if converts v then (Ret tt, st) else (Throw TypeError, st).
Proof. unfold template. now destruct (converts v). Qed.

(** The plain chain and the optional chain agree wherever the plain one
    does not throw, and where it throws the optional one is
    [undefined]. *)
Lemma article_content_run data st :
  article_content data st = (Ret (article_content_opt data), st)
  \/ (article_content data st = (Throw TypeError, st)
      /\ article_content_opt data = VUndefined).
Proof.
  unfold article_content, article_content_opt.
  rewrite bind_run, get_run.
  destruct (nullish data) eqn:E1;
    [right; split; [reflexivity|unfold opt_get; now rewrite E1]|].
  rewrite bind_run, get_run.
  destruct (nullish (own_prop data (str "data"))) eqn:E2;
    [right; split; [reflexivity|unfold opt_get; now rewrite E1, E2]|].
  rewrite bind_run, get_run.
  destruct (nullish (own_prop (own_prop data (str "data")) (str "article")))
    eqn:E3;
    [right; split; [reflexivity|unfold opt_get; now rewrite E1, E2, E3]|].
  rewrite get_run.
  destruct (nullish (own_prop (own_prop (own_prop data (str "data"))
                                 (str "article")) (str "article"))) eqn:E4;
    [right; split; [reflexivity|unfold opt_get; now rewrite E1, E2, E3, E4]|].
  left. unfold opt_get. now rewrite E1, E2, E3, E4.
Qed.

(** ** [getArticle] *)

Arguments after : simpl never.
Arguments get : simpl never.
Arguments graphql_error : simpl never.
Arguments article_content : simpl never.
Arguments article_content_opt : simpl never.
Arguments response_ok : simpl never.
Arguments own_prop : simpl never.
Arguments nullish : simpl never.
Arguments truthy : simpl never.
Arguments bind : simpl never.
Arguments try_catch : simpl never.

Section GetArticle.

Variables (W : world) (o : Omnivore) (articleId : jsval).

Local Notation "'query'" := (ArticleQuery (apiKey o) articleId).
Local Notation "'reply_at' n" := (fetch_reply W n (ArticleQuery (apiKey o) articleId)) (at level 10).

(** What follows [response.json()] in the [try] of [getArticle] when the
    reply is not a successful one: a throw. *)
Lemma failed_reply_throws {A} (reply : fetch_outcome) (k : jsval -> M A) st :
  success_data reply = None ->
  exists e,
    (response <- await_fetch reply ;;
     let '(status, body) := response in
     if negb (response_ok status) then throw (HttpError status)
     else
       data <- response_json body ;;
       errors <- get data (str "errors") ;;
       if truthy errors then (e <- graphql_error errors ;; throw e)
       else k data) st = (Throw e, st).
Proof.
  intros H. rewrite bind_run.
  destruct reply as [e|status [data|]]; cbn in H |- *.
  - now exists e.
  - destruct (response_ok status); cbn in H |- *; [|eexists; reflexivity].
    rewrite bind_run. cbn. rewrite bind_run, get_run.
    destruct (nullish (VJson data)); cbn in H |- *; [eexists; reflexivity|].
    destruct (truthy (own_prop (VJson data) (str "errors"))); [|discriminate].
    rewrite bind_run.
    destruct (graphql_error_run (own_prop (VJson data) (str "errors")) st)
      as [r [-> Hr]].
    destruct r; try contradiction; try (eexists; reflexivity).
  - destruct (response_ok status); cbn; eexists; reflexivity.
Qed.

Lemma successful_reply_continues {A} (reply : fetch_outcome) (k : jsval -> M A)
    data st :
  success_data reply = Some data ->
  (response <- await_fetch reply ;;
   let '(status, body) := response in
   if negb (response_ok status) then throw (HttpError status)
   else
     data <- response_json body ;;
     errors <- get data (str "errors") ;;
     if truthy errors then (e <- graphql_error errors ;; throw e)
     else k data) st = k (VJson data) st.
Proof.
  intros H. rewrite bind_run.
  destruct reply as [e|status [d|]]; cbn in H; try discriminate. cbn.
  destruct (response_ok status); cbn in H |- *; [|discriminate].
  rewrite bind_run. cbn. rewrite bind_run, get_run.
  destruct (nullish (VJson d)); cbn in H; [discriminate|].
  destruct (truthy (own_prop (VJson d) (str "errors"))); cbn in H;
    [discriminate|].
  now injection H as ->.
Qed.

Lemma summary_try_failed attempts st :
  success_data (fetch_reply W (fetches st) query) = None ->
  exists e,
    Summary.getArticle_try W o articleId attempts st
    = (Throw e, after st 1 0 0 [EFetch query]).
Proof.
  intros H. unfold Summary.getArticle_try.
  rewrite bind_run, fetch_run.
  apply failed_reply_throws. exact H.
Qed.

Lemma summary_try_retry attempts st :
  empty_success (fetch_reply W (fetches st) query) = true ->
  attempts < 3 ->
  Summary.getArticle_try W o articleId attempts st
  = (Ret (RetryAfter (2 ^ N.of_nat attempts * 1000)),
     after st 1 0 0 [EFetch query; EConsoleError (MsgRetrying (attempts + 1))]).
Proof.
  unfold empty_success. intros H Ha.
  destruct (success_data _) as [data|] eqn:Hd; [|discriminate].
  unfold Summary.getArticle_try.
  rewrite bind_run, fetch_run.
  erewrite successful_reply_continues by exact Hd.
  rewrite H. apply Nat.ltb_lt in Ha. rewrite Ha. cbn.
  rewrite bind_run. unfold console_error. rewrite emit_run, after_after.
  reflexivity.
Qed.

Lemma summary_try_done attempts data st :
  success_data (fetch_reply W (fetches st) query) = Some data ->
  truthy (article_content_opt (VJson data)) = true \/ 3 <= attempts ->
  Summary.getArticle_try W o articleId attempts st
  = (Ret (Done (article_content_opt (VJson data))),
     after st 1 0 0 [EFetch query])
  \/ (Summary.getArticle_try W o articleId attempts st
      = (Throw TypeError, after st 1 0 0 [EFetch query])
      /\ article_content_opt (VJson data) = VUndefined).
Proof.
  intros Hd Hc. unfold Summary.getArticle_try.
  rewrite bind_run, fetch_run.
  erewrite successful_reply_continues by exact Hd.
  assert (E : negb (truthy (article_content_opt (VJson data)))
              && (attempts <? 3) = false).
  { destruct Hc as [-> | Ha]; [reflexivity|].
    apply Nat.ltb_ge in Ha. rewrite Ha. apply andb_false_r. }
  rewrite E, bind_run.
  destruct (article_content_run (VJson data) (after st 1 0 0 [EFetch query]))
    as [-> | [-> Hu]]; [now left | right; now split].
Qed.


(** An id that does not convert to a string ends the call before
    anything is sent. *)
Lemma summary_getArticle_unconverted fuel attempts st :
  converts articleId = false ->
  Summary.getArticle_fuel (S fuel) W o articleId attempts st
  = (Throw TypeError, st).
Proof.
  intros H. cbn [Summary.getArticle_fuel]. now rewrite bind_run, template_run, H.
Qed.

Hypothesis Hid : converts articleId = true.

Lemma summary_fuel_unfold fuel attempts st :
  Summary.getArticle_fuel (S fuel) W o articleId attempts st
  = (r <- try_catch (Summary.getArticle_try W o articleId attempts)
            (fun e => console_error (MsgArticleError e) ;;
                      ret (Done VUndefined)) ;;
     match r with
     | Done v => ret v
     | RetryAfter delay =>
         setTimeout delay ;;
         Summary.getArticle_fuel fuel W o articleId (attempts + 1)
     end) st.
Proof.
  cbn [Summary.getArticle_fuel]. now rewrite bind_run, template_run, Hid.
Qed.

Lemma summary_getArticle_retry fuel attempts st :
  empty_success (reply_at (fetches st)) = true ->
  attempts < 3 ->
  Summary.getArticle_fuel (S fuel) W o articleId attempts st
  = Summary.getArticle_fuel fuel W o articleId (attempts + 1)
      (after st 1 0 0 (retry_round o articleId attempts)).
Proof.
  intros H Ha.
  rewrite summary_fuel_unfold, bind_run, try_catch_run,
    (@summary_try_retry attempts st H Ha).
  rewrite bind_run. unfold setTimeout. rewrite emit_run, after_after.
  reflexivity.
Qed.

(** The attempt at which [getArticle] stops: the reply is a failure, or
    has content, or three retries have been made. *)
Lemma summary_last_attempt attempts st :
  empty_success (reply_at (fetches st)) = false \/ 3 <= attempts ->
  exists logs,
    try_catch (Summary.getArticle_try W o articleId attempts)
      (fun e => console_error (MsgArticleError e) ;; ret (Done VUndefined)) st
    = (Ret (Done (last_content (reply_at (fetches st)))),
       after st 1 0 0 (EFetch query :: logs))
    /\ forallb is_console logs = true
    /\ (success_data (reply_at (fetches st)) = None ->
        exists e, logs = [EConsoleError (MsgArticleError e)]).
Proof.
  intros H.
  rewrite try_catch_run. unfold last_content, empty_success in *.
  destruct (success_data (reply_at (fetches st))) as [data|] eqn:Hd.
  - assert (Hc : truthy (article_content_opt (VJson data)) = true
                 \/ 3 <= attempts).
    { destruct H as [H|H]; [left|now right]. now apply negb_false_iff. }
    destruct (@summary_try_done attempts data st Hd Hc) as [-> | [-> Hu]].
    + exists []. repeat split; discriminate.
    + exists [EConsoleError (MsgArticleError TypeError)].
      rewrite bind_run. unfold console_error.
      rewrite emit_run, after_after, Hu. repeat split; discriminate.
  - destruct (@summary_try_failed attempts st Hd) as [e ->].
    exists [EConsoleError (MsgArticleError e)].
    rewrite bind_run. unfold console_error.
    rewrite emit_run, after_after. repeat split. now exists e.
Qed.

Lemma summary_getArticle_final fuel attempts st :
  empty_success (reply_at (fetches st)) = false \/ 3 <= attempts ->
  exists logs,
    Summary.getArticle_fuel (S fuel) W o articleId attempts st
    = (Ret (last_content (reply_at (fetches st))),
       after st 1 0 0 (EFetch query :: logs))
    /\ forallb is_console logs = true.
Proof.
  intros H. destruct (@summary_last_attempt attempts st H) as [logs [E [L _]]].
  exists logs. rewrite summary_fuel_unfold, bind_run, E. now split.
Qed.

(** A reply with content ends the call at once: the content is
    returned, nothing is printed, nothing is waited for. *)
Lemma summary_getArticle_content fuel attempts data st :
  success_data (reply_at (fetches st)) = Some data ->
  truthy (article_content_opt (VJson data)) = true ->
  Summary.getArticle_fuel (S fuel) W o articleId attempts st
  = (Ret (article_content_opt (VJson data)), after st 1 0 0 [EFetch query]).
Proof.
  intros Hd Hc.
  rewrite summary_fuel_unfold, bind_run, try_catch_run.
  destruct (@summary_try_done attempts data st Hd (or_introl Hc))
    as [-> | [_ Hu]]; [reflexivity|].
  rewrite Hu in Hc. discriminate.
Qed.

(** Fuel beyond the four calls that [attempts < 3] allows changes
    nothing, and [getArticle] always ends. *)
Lemma getArticle_fuel_enough fuel :
  forall attempts st,
    3 - attempts < fuel ->
    Summary.getArticle_fuel fuel W o articleId attempts st
    = Summary.getArticle W o articleId attempts st.
Proof.
  unfold Summary.getArticle.
  induction fuel as [|fuel IH]; intros attempts st Hf; [lia|].
  destruct (empty_success (reply_at (fetches st))) eqn:He;
    [destruct (Nat.lt_ge_cases attempts 3) as [Ha|Ha]|].
  - rewrite !summary_getArticle_retry by assumption.
    rewrite IH by lia. f_equal. f_equal. lia.
  - destruct (@summary_last_attempt attempts st (or_intror Ha)) as [logs [E _]].
    now rewrite !summary_fuel_unfold, !bind_run, E.
  - destruct (@summary_last_attempt attempts st (or_introl He))
      as [logs [E _]].
    now rewrite !summary_fuel_unfold, !bind_run, E.
Qed.

Lemma summary_getArticle_rounds n :
  forall attempts st,
    attempts + n = 3 ->
    exists k logs,
      k <= n
      /\ Summary.getArticle_fuel (S n) W o articleId attempts st
         = (Ret (last_content (reply_at (fetches st + k))),
            after st (k + 1) 0 0
              (flat_map (retry_round o articleId) (seq attempts k)
                 ++ EFetch query :: logs))
      /\ forallb is_console logs = true
      /\ (forall i, i < k -> empty_success (reply_at (fetches st + i)) = true)
      /\ (k < n -> empty_success (reply_at (fetches st + k)) = false).
Proof.
  induction n as [|n IH]; intros attempts st Hn.
  - destruct (@summary_getArticle_final 0 attempts st) as [logs [E L]];
      [right; lia|].
    exists 0, logs. rewrite Nat.add_0_r.
    split; [lia|]. split; [exact E|]. split; [exact L|].
    split; intros; lia.
  - destruct (empty_success (reply_at (fetches st))) eqn:He.
    + rewrite summary_getArticle_retry by (auto; lia).
      destruct (IH (attempts + 1) (after st 1 0 0 (retry_round o articleId attempts)))
        as [k [logs [Hk [E [L [Hi Hl]]]]]]; [lia|].
      exists (S k), logs. rewrite E, after_after.
      rewrite fetches_after in Hi, Hl |- *.
      split; [lia|]. split; [|split; [exact L|split]].
      * f_equal.
        -- f_equal. f_equal. f_equal. lia.
        -- replace (attempts + 1) with (S attempts) by lia.
           cbn [seq flat_map]. rewrite <- app_assoc.
           f_equal; lia.
      * intros [|i] Hlt; [now rewrite Nat.add_0_r|].
        replace (fetches st + S i) with (fetches st + 1 + i) by lia.
        apply Hi. lia.
      * intros Hlt. replace (fetches st + S k) with (fetches st + 1 + k) by lia.
        apply Hl. lia.
    + destruct (@summary_getArticle_final (S n) attempts st) as [logs [E L]];
        [now left|].
      exists 0, logs. rewrite Nat.add_0_r.
      split; [lia|]. split; [exact E|]. split; [exact L|].
      split; [intros; lia|now intros _].
Qed.

End GetArticle.

Lemma console_only logs :
  forallb is_console logs = true ->
  fetch_calls logs = [] /\ chat_calls logs = [] /\ timeouts logs = [].
Proof.
  induction logs as [|e logs IH]; cbn; [now repeat split|].
  destruct e; cbn; try discriminate. exact IH.
Qed.

Lemma fetch_calls_app evs evs' :
  fetch_calls (evs ++ evs') = fetch_calls evs ++ fetch_calls evs'.
Proof. apply flat_map_app. Qed.

Lemma chat_calls_app evs evs' :
  chat_calls (evs ++ evs') = chat_calls evs ++ chat_calls evs'.
Proof. apply flat_map_app. Qed.

Lemma timeouts_app evs evs' :
  timeouts (evs ++ evs') = timeouts evs ++ timeouts evs'.
Proof. apply flat_map_app. Qed.

(** C2. [getArticle(articleId)] in summary.js, for an id that converts
    to a string (as every string does) and whatever the store answers:
    it ends with a value and does not raise; it makes [k] retries
    for some [k <= 3], one for each of the first [k] replies, all of them
    successful with empty or absent content, so at most four requests in
    all; before retry number [i] it waits [2^i] seconds (1 s, 2 s, 4 s);
    it stops at the first reply that is not such a reply, or at the
    fourth, and returns the content of the reply it stops at, empty or
    not ([undefined] when that reply is a failure). For an id whose
    conversion throws, the query cannot be written: the call raises a
    [TypeError], no request is sent and no reply is received. *)
Theorem getArticle_retry_schedule (W : world) (o : Omnivore)
    (articleId : jsval) (st : state) :
  if converts articleId
  then
    exists k logs evs,
      k <= 3
      /\ evs = flat_map (retry_round o articleId) (seq 0 k)
               ++ EFetch (ArticleQuery (apiKey o) articleId) :: logs
      /\ Summary.getArticle W o articleId 0 st
         = (Ret (last_content
                   (fetch_reply W (fetches st + k)
                      (ArticleQuery (apiKey o) articleId))),
            after st (k + 1) 0 0 evs)
      /\ fetch_calls evs = repeat (ArticleQuery (apiKey o) articleId) (k + 1)
      /\ timeouts evs = firstn k [1000; 2000; 4000]%N
      /\ forallb is_console logs = true
      /\ (forall i, i < k ->
            empty_success (fetch_reply W (fetches st + i)
                             (ArticleQuery (apiKey o) articleId)) = true)
      /\ (k < 3 ->
            empty_success (fetch_reply W (fetches st + k)
                             (ArticleQuery (apiKey o) articleId)) = false)
  else Summary.getArticle W o articleId 0 st = (Throw TypeError, st).
Proof.
  destruct (converts articleId) eqn:Hid;
    [|now apply summary_getArticle_unconverted].
  destruct (@summary_getArticle_rounds W o articleId Hid 3 0 st eq_refl)
    as [k [logs [Hk [E [L [Hi Hl]]]]]].
  exists k, logs. eexists. split; [exact Hk|]. split; [reflexivity|].
  split; [exact E|].
  destruct (console_only logs L) as [Lf [_ Lt]].
  rewrite fetch_calls_app, timeouts_app. cbn [fetch_calls timeouts flat_map].
  fold (fetch_calls logs). fold (timeouts logs). rewrite Lf, Lt.
  repeat split; auto.
  - destruct k as [|[|[|[|k]]]]; try lia; reflexivity.
  - destruct k as [|[|[|[|k]]]]; try lia; reflexivity.
Qed.

(** The scenario of the specification: empty content twice, then
    content; the content is returned after exactly two retries. *)
Example getArticle_third_reply :
  let W := scripted [article_reply (article_with []);
                     article_reply (JObj []);
                     article_reply (article_with (str "# Title"))] [] in
  let q := ArticleQuery (str "api-key") (VStr (str "abc123")) in
  Summary.getArticle W sample_omnivore (VStr (str "abc123")) 0 initial
  = (Ret (VStr (str "# Title")),
     {| fetches := 3; chats := 0; uuids := 0;
        trace := [EFetch q; EConsoleError (MsgRetrying 1); ETimeout 1000;
                  EFetch q; EConsoleError (MsgRetrying 2); ETimeout 2000;
                  EFetch q] |}).
Proof. reflexivity. Qed.

(** Four replies without content: three retries, then the last value
    fetched, here the empty string, is returned. *)
Example getArticle_gives_up :
  let W := scripted [article_reply (JObj []);
                     article_reply (article_with []);
                     article_reply (JObj []);
                     article_reply (article_with []);
                     article_reply (article_with (str "too late"))] [] in
  let q := ArticleQuery (str "api-key") (VStr (str "abc123")) in
  Summary.getArticle W sample_omnivore (VStr (str "abc123")) 0 initial
  = (Ret (VStr []),
     {| fetches := 4; chats := 0; uuids := 0;
        trace := [EFetch q; EConsoleError (MsgRetrying 1); ETimeout 1000;
                  EFetch q; EConsoleError (MsgRetrying 2); ETimeout 2000;
                  EFetch q; EConsoleError (MsgRetrying 3); ETimeout 4000;
                  EFetch q] |}).
Proof. reflexivity. Qed.

(** ** [addAnnotation] and the failures of the store *)

Lemma store_failure_no_data reply :
  store_failure reply -> success_data reply = None.
Proof.
  intros [e|status body H|status fields items H He]; cbn.
  - reflexivity.
  - rewrite H. now destruct body.
  - rewrite H. unfold own_prop. rewrite He. reflexivity.
Qed.

(** The [try] block of [addAnnotation] sends one request and prints at
    most one line; a reply that is a failure makes it throw. *)
Lemma addAnnotation_try_run W o query st :
  exists r logs,
    addAnnotation_try W o query st
    = (r, after st 1 0 0 (EFetch (CreateHighlight (apiKey o) query) :: logs))
    /\ r <> Diverge
    /\ forallb is_console logs = true
    /\ (success_data (fetch_reply W (fetches st)
                        (CreateHighlight (apiKey o) query)) = None ->
        exists e, r = Throw e)
    /\ match created (fetch_reply W (fetches st)
                        (CreateHighlight (apiKey o) query)) with
       | Some v => r = Ret v
       | None => exists e, r = Throw e
       end.
Proof.
  unfold addAnnotation_try, created. rewrite bind_run, fetch_run, bind_run.
  destruct (fetch_reply W (fetches st) (CreateHighlight (apiKey o) query))
    as [e|status body]; cbn [await_fetch success_data].
  { exists (Throw e), []. unfold throw.
    repeat split; try discriminate; eauto. }
  unfold ret at 1. cbv beta iota.
  destruct (response_ok status) eqn:Hok; cbn [negb andb].
  2:{ rewrite bind_run. unfold console_error. rewrite emit_run, after_after.
      exists (Throw (HttpError status)),
        [EConsoleError (MsgError (HttpError status))].
      unfold throw. destruct body; repeat split; try discriminate; eauto. }
  destruct body as [data|]; rewrite bind_run; cbn [response_json].
  2:{ exists (Throw SyntaxError), []. unfold throw.
      repeat split; try discriminate; eauto. }
  unfold ret at 1. cbv beta iota. rewrite bind_run, get_run.
  destruct (nullish (VJson data)) eqn:Hn; cbn [negb andb].
  { exists (Throw TypeError), []. repeat split; try discriminate; eauto. }
  destruct (truthy (own_prop (VJson data) (str "errors"))) eqn:Ht;
    cbn [negb andb].
  - rewrite bind_run.
    destruct (graphql_error_run (own_prop (VJson data) (str "errors"))
                (after st 1 0 0 [EFetch (CreateHighlight (apiKey o) query)]))
      as [r [-> Hr]].
    destruct r as [e|e|]; try contradiction.
    + rewrite bind_run. unfold console_error. rewrite emit_run, after_after.
      exists (Throw e), [EConsoleError (MsgError e)].
      unfold throw. repeat split; try discriminate; eauto.
    + exists (Throw e), []. repeat split; try discriminate; eauto.
  - rewrite bind_run, get_run, Hn, get_run.
    destruct (nullish (own_prop (VJson data) (str "data"))).
    { exists (Throw TypeError), []. repeat split; try discriminate; eauto. }
    eexists _, []. repeat split; discriminate.
Qed.

Lemma created_success reply v :
  created reply = Some v -> success_data reply <> None.
Proof. unfold created. destruct (success_data reply); discriminate. Qed.

(** [addAnnotation] of summary.js, for an id that converts to a string:
    it returns what the [try] returned, or [undefined]. *)
Lemma summary_addAnnotation_run W o articleId annotation st :
  converts articleId = true ->
  exists v logs,
    Summary.addAnnotation W o articleId annotation st
    = (Ret v,
       after st 1 0 1
         (EFetch (CreateHighlight (apiKey o)
                    (note_with (uuid W (uuids st)) articleId annotation))
            :: logs))
    /\ forallb is_console logs = true
    /\ (success_data
          (fetch_reply W (fetches st)
             (CreateHighlight (apiKey o)
                (note_with (uuid W (uuids st)) articleId annotation))) = None ->
        v = VUndefined
        /\ exists e logs', logs = logs' ++ [EConsoleError (MsgAnnotationError e)]).
Proof.
  intros Hid. unfold Summary.addAnnotation.
  rewrite bind_run, uuidv4_run, try_catch_run.
  destruct (addAnnotation_try_run W o
              (note_with (uuid W (uuids st)) articleId annotation)
              (after st 0 0 1 []))
    as [r [logs [E [Hr [L [F _]]]]]].
  rewrite fetches_after, Nat.add_0_r in F.
  unfold note_with, substring0 in *. rewrite E.
  destruct r as [v|e|]; try contradiction.
  - exists v, logs. rewrite after_after.
    split; [reflexivity|]. split; [exact L|].
    intros H. destruct (F H) as [e He]. discriminate.
  - rewrite bind_run, template_run, Hid, bind_run. unfold console_error.
    rewrite emit_run, !after_after.
    exists VUndefined, (logs ++ [EConsoleError (MsgAnnotationError e)]).
    rewrite forallb_app, L.
    split; [reflexivity|]. split; [reflexivity|]. intros _. eauto.
Qed.

(** For an id that does not convert, the [catch] of [addAnnotation] in
    summary.js raises in its turn: a failed request is then not
    swallowed. *)
Lemma summary_addAnnotation_unconverted W o articleId annotation st :
  converts articleId = false ->
  exists r logs,
    Summary.addAnnotation W o articleId annotation st
    = (r,
       after st 1 0 1
         (EFetch (CreateHighlight (apiKey o)
                    (note_with (uuid W (uuids st)) articleId annotation))
            :: logs))
    /\ forallb is_console logs = true
    /\ match created
               (fetch_reply W (fetches st)
                  (CreateHighlight (apiKey o)
                     (note_with (uuid W (uuids st)) articleId annotation))) with
       | Some v => r = Ret v
       | None => r = Throw TypeError
       end.
Proof.
  intros Hid. unfold Summary.addAnnotation.
  rewrite bind_run, uuidv4_run, try_catch_run.
  destruct (addAnnotation_try_run W o
              (note_with (uuid W (uuids st)) articleId annotation)
              (after st 0 0 1 []))
    as [r [logs [E [Hr [L [_ C]]]]]].
  rewrite fetches_after, Nat.add_0_r in C.
  unfold note_with, substring0 in *. rewrite E.
  destruct (created _) as [v|].
  - subst r. exists (Ret v), logs. now rewrite after_after.
  - destruct C as [e ->]. rewrite bind_run, template_run, Hid.
    exists (Throw TypeError), logs. now rewrite after_after.
Qed.

(** [addAnnotation] of annotate.js, for an id and an annotation that
    convert to strings: it returns what the [try] returned, or a
    [Response] object. *)
Lemma annotate_addAnnotation_run W o articleId annotation st :
  converts articleId = true ->
  converts annotation = true ->
  exists v logs,
    Annotate.addAnnotation W o articleId annotation st
    = (Ret v,
       after st 1 0 1
         (EFetch (CreateHighlight (apiKey o)
                    (note_with (uuid W (uuids st)) articleId annotation))
            :: logs))
    /\ forallb is_console logs = true
    /\ (success_data
          (fetch_reply W (fetches st)
             (CreateHighlight (apiKey o)
                (note_with (uuid W (uuids st)) articleId annotation))) = None ->
        exists e logs',
          v = VResponse (MsgAnnotationError e) 500
          /\ logs = logs' ++ [EConsoleError (MsgAnnotationError e)])
    /\ match created
               (fetch_reply W (fetches st)
                  (CreateHighlight (apiKey o)
                     (note_with (uuid W (uuids st)) articleId annotation))) with
       | Some v' => v = v'
       | None => converts v = true
       end.
Proof.
  intros Hid Ha. unfold Annotate.addAnnotation.
  rewrite bind_run, template_run, Hid, bind_run, template_run, Ha.
  rewrite bind_run, uuidv4_run, try_catch_run.
  destruct (addAnnotation_try_run W o
              (note_with (uuid W (uuids st)) articleId annotation)
              (after st 0 0 1 []))
    as [r [logs [E [Hr [L [F C]]]]]].
  rewrite fetches_after, Nat.add_0_r in F, C.
  unfold note_with, substring0 in *. rewrite E.
  destruct r as [v|e|]; try contradiction.
  - exists v, logs. rewrite after_after.
    split; [reflexivity|]. split; [exact L|]. split.
    + intros H. destruct (F H) as [e He]. discriminate.
    + destruct (created _) as [v'|]; [now injection C|].
      destruct C as [e He]. discriminate.
  - rewrite bind_run, template_run, Hid, bind_run. unfold console_error.
    rewrite emit_run, bind_run, template_run, Hid, !after_after.
    exists (VResponse (MsgAnnotationError e) 500),
      (logs ++ [EConsoleError (MsgAnnotationError e)]).
    rewrite forallb_app, L.
    split; [reflexivity|]. split; [reflexivity|]. split; [intros _; eauto|].
    destruct (created _) as [v'|]; [discriminate|reflexivity].
Qed.


Lemma annotate_fuel_unfold W o articleId fuel attempts st :
  converts articleId = true ->
  Annotate.getArticle_fuel (S fuel) W o articleId attempts st
  = (r <- try_catch (Annotate.getArticle_try W o articleId attempts)
            (fun e => console_error (MsgArticleError e) ;;
                      ret (Done (VResponse (MsgArticleError e) 500))) ;;
     match r with
     | Done v => ret v
     | RetryAfter delay =>
         setTimeout delay ;;
         Annotate.getArticle_fuel fuel W o articleId (attempts + 1)
     end) st.
Proof.
  intros H. cbn [Annotate.getArticle_fuel].
  now rewrite bind_run, template_run, H.
Qed.

Lemma summary_getArticle_failed W o articleId fuel attempts st :
  converts articleId = true ->
  success_data (fetch_reply W (fetches st) (ArticleQuery (apiKey o) articleId))
  = None ->
  exists e,
    Summary.getArticle_fuel (S fuel) W o articleId attempts st
    = (Ret VUndefined,
       after st 1 0 0 [EFetch (ArticleQuery (apiKey o) articleId);
                       EConsoleError (MsgArticleError e)]).
Proof.
  intros Hid H.
  assert (He : empty_success
                 (fetch_reply W (fetches st) (ArticleQuery (apiKey o) articleId))
               = false) by (unfold empty_success; now rewrite H).
  destruct (@summary_last_attempt W o articleId attempts st (or_introl He))
    as [logs [E [_ F]]].
  destruct (F H) as [e ->]. exists e.
  rewrite (@summary_fuel_unfold W o articleId Hid), bind_run, E.
  unfold last_content. now rewrite H.
Qed.

Lemma annotate_getArticle_failed W o articleId fuel attempts st :
  converts articleId = true ->
  success_data (fetch_reply W (fetches st) (ArticleQuery (apiKey o) articleId))
  = None ->
  exists e,
    Annotate.getArticle_fuel (S fuel) W o articleId attempts st
    = (Ret (VResponse (MsgArticleError e) 500),
       after st 1 0 0 [EFetch (ArticleQuery (apiKey o) articleId);
                       EConsoleError (MsgArticleError e)]).
Proof.
  intros Hid H.
  rewrite annotate_fuel_unfold by exact Hid. rewrite bind_run, try_catch_run.
  unfold Annotate.getArticle_try. rewrite bind_run, fetch_run.
  destruct (@failed_reply_throws _
              (fetch_reply W (fetches st) (ArticleQuery (apiKey o) articleId))
              (fun data =>
                 if negb (truthy (article_content_opt data)) && (attempts <? 3)
                 then ret (RetryAfter (2 ^ N.of_nat attempts * 1000))
                 else content <- article_content data ;; ret (Done content))
              (after st 1 0 0 [EFetch (ArticleQuery (apiKey o) articleId)]) H)
    as [e ->].
  exists e. rewrite bind_run. unfold console_error.
  rewrite emit_run, after_after. reflexivity.
Qed.

(** [addAnnotation] of actions.js, given a string as id: one request;
    what the [try] returned is returned; when the [try] threw, the
    [catch] prints and returns [undefined], or raises in its turn for an
    article id that does not convert. *)
Lemma actions_addAnnotation_run W o articleId annotation s st :
  let request :=
    CreateHighlight (apiKey o) (note_with s articleId annotation) in
  exists r logs,
    Actions.addAnnotation W o articleId annotation (VStr s) st
    = (r, after st 1 0 0 (EFetch request :: logs))
    /\ forallb is_console logs = true
    /\ match created (fetch_reply W (fetches st) request) with
       | Some v => r = Ret v
       | None =>
           if converts articleId
           then r = Ret VUndefined
                /\ exists e logs',
                     logs = logs' ++ [EConsoleError (MsgAnnotationError e)]
                     /\ forallb is_console logs' = true
           else r = Throw TypeError
       end.
Proof.
  cbv zeta. unfold Actions.addAnnotation, VStr. rewrite bind_run.
  cbn [Actions.id_substring]. unfold ret at 1. cbv beta iota.
  rewrite try_catch_run. cbn [fst snd].
  change {| hl_type := str "NOTE"; hl_id := s; hl_shortId := substring0 8 s;
            hl_articleId := articleId; hl_annotation := annotation |}
    with (note_with s articleId annotation).
  destruct (addAnnotation_try_run W o (note_with s articleId annotation) st)
    as [r [logs [E [Hr [L [_ C]]]]]].
  rewrite E. destruct (created _) as [v|].
  - subst r. exists (Ret v), logs. now split.
  - destruct C as [e ->]. rewrite bind_run, template_run.
    destruct (converts articleId).
    + rewrite bind_run. unfold console_error. rewrite emit_run, after_after.
      exists (Ret VUndefined), (logs ++ [EConsoleError (MsgAnnotationError e)]).
      split; [reflexivity|]. split; [now rewrite forallb_app, L|].
      split; [reflexivity|]. now exists e, logs.
    + exists (Throw TypeError), logs. now split.
Qed.

(** C5, as stated, fails in annotate.js: on a reply with status 500 its
    [getArticle] returns a [Response] object, not [undefined]. *)
Lemma annotate_getArticle_returns_a_response :
  exists v,
    fst (Annotate.getArticle (scripted [FetchResponse 500 None] [])
           sample_omnivore (VStr (str "abc123")) 0 initial) = Ret v
    /\ v = VResponse (MsgArticleError (HttpError 500)) 500
    /\ v <> VUndefined.
Proof.
  eexists. split; [reflexivity|]. split; [reflexivity|discriminate].
Qed.

(** C5, amended. For an article id that converts to a string, as every
    string does: when its request to the store fails (transport error,
    status outside 2xx, or an [errors] array in the reply), whatever the
    store does with any other request, [getArticle] and [addAnnotation]
    print the error and return to their caller without raising. They
    return [undefined] in summary.js, as does [addAnnotation] of
    actions.js when it is given a string as id, and a [Response] object
    with status 500 and the text of the error in annotate.js, whose
    [addAnnotation] also converts the annotation before anything else. *)
Theorem store_failures_are_swallowed (W : world) (o : Omnivore)
    (articleId annotation : jsval) (id : jsstring) (attempts : nat)
    (st : state) :
  converts articleId = true ->
  let query := ArticleQuery (apiKey o) articleId in
  let post i := CreateHighlight (apiKey o) (note_with i articleId annotation) in
  (store_failure (fetch_reply W (fetches st) query) ->
   (exists e,
      Summary.getArticle W o articleId attempts st
      = (Ret VUndefined,
         after st 1 0 0 [EFetch query; EConsoleError (MsgArticleError e)]))
   /\ (exists e,
         Annotate.getArticle W o articleId attempts st
         = (Ret (VResponse (MsgArticleError e) 500),
            after st 1 0 0 [EFetch query; EConsoleError (MsgArticleError e)])))
  /\ (store_failure (fetch_reply W (fetches st) (post (uuid W (uuids st)))) ->
      (exists e logs,
         Summary.addAnnotation W o articleId annotation st
         = (Ret VUndefined,
            after st 1 0 1
              (EFetch (post (uuid W (uuids st)))
                 :: logs ++ [EConsoleError (MsgAnnotationError e)]))
         /\ forallb is_console logs = true)
      /\ (converts annotation = true ->
          exists e logs,
            Annotate.addAnnotation W o articleId annotation st
            = (Ret (VResponse (MsgAnnotationError e) 500),
               after st 1 0 1
                 (EFetch (post (uuid W (uuids st)))
                    :: logs ++ [EConsoleError (MsgAnnotationError e)]))
            /\ forallb is_console logs = true))
  /\ (store_failure (fetch_reply W (fetches st) (post id)) ->
      exists e logs,
        Actions.addAnnotation W o articleId annotation (VStr id) st
        = (Ret VUndefined,
           after st 1 0 0
             (EFetch (post id)
                :: logs ++ [EConsoleError (MsgAnnotationError e)]))
        /\ forallb is_console logs = true).
Proof.
  intros Hid query post. split; [|split].
  - intros H. apply store_failure_no_data in H. split.
    + now apply summary_getArticle_failed.
    + now apply annotate_getArticle_failed.
  - intros H. apply store_failure_no_data in H. split.
    + destruct (summary_addAnnotation_run W o articleId annotation st Hid)
        as [v [logs [E [L F]]]].
      destruct (F H) as [-> [e [logs' ->]]].
      exists e, logs'. split; [exact E|].
      rewrite forallb_app in L. now apply andb_prop in L.
    + intros Ha.
      destruct (annotate_addAnnotation_run W o articleId annotation st Hid Ha)
        as [v [logs [E [L [F _]]]]].
      destruct (F H) as [e [logs' [-> ->]]].
      exists e, logs'. split; [exact E|].
      rewrite forallb_app in L. now apply andb_prop in L.
  - intros H. apply store_failure_no_data in H.
    destruct (actions_addAnnotation_run W o articleId annotation id st)
      as [r [logs [E [L C]]]].
    cbv zeta in C. fold (post id) in C, E. unfold created in C.
    rewrite H, Hid in C. destruct C as [-> [e [logs' [-> L']]]].
    now exists e, logs'.
Qed.

Lemma store_failures_are_swallowed_witness :
  let W := scripted [FetchResponse 503 None; highlight_reply] [] in
  let id := VStr (str "abc123") in
  (exists e,
     Summary.getArticle W sample_omnivore id 0 initial
     = (Ret VUndefined,
        after initial 1 0 0
          [EFetch (ArticleQuery (apiKey sample_omnivore) id);
           EConsoleError (MsgArticleError e)]))
  /\ (exists e,
        Annotate.getArticle W sample_omnivore id 0 initial
        = (Ret (VResponse (MsgArticleError e) 500),
           after initial 1 0 0
             [EFetch (ArticleQuery (apiKey sample_omnivore) id);
              EConsoleError (MsgArticleError e)])).
Proof.
  intros W id.
  exact (proj1 (@store_failures_are_swallowed W sample_omnivore id VUndefined
                  [] 0 initial eq_refl)
           (http_error 503 None eq_refl)).
Defined.

(** ** The ids of the highlights *)

(** In summary.js and annotate.js every call of [addAnnotation], on
    arguments that convert to strings, draws the next value of the
    generator as the id of the highlight it posts, and posts the first
    eight code units of that id as the short id. *)
Lemma addAnnotation_draws_an_id (W : world) (o : Omnivore)
    (articleId annotation : jsval) (st : state) :
  converts articleId = true ->
  converts annotation = true ->
  let input := note_with (uuid W (uuids st)) articleId annotation in
  (exists v logs,
     Summary.addAnnotation W o articleId annotation st
     = (Ret v, after st 1 0 1 (EFetch (CreateHighlight (apiKey o) input) :: logs)))
  /\ (exists v logs,
        Annotate.addAnnotation W o articleId annotation st
        = (Ret v, after st 1 0 1 (EFetch (CreateHighlight (apiKey o) input) :: logs)))
  /\ hl_shortId input = firstn 8 (hl_id input)
  /\ (8 <= List.length (hl_id input) -> List.length (hl_shortId input) = 8).
Proof.
  intros Hid Ha. cbn zeta. split; [|split; [|split; [reflexivity|]]].
  - destruct (summary_addAnnotation_run W o articleId annotation st Hid)
      as [v [logs [E _]]]. eauto.
  - destruct (annotate_addAnnotation_run W o articleId annotation st Hid Ha)
      as [v [logs [E _]]]. eauto.
  - cbn [note_with hl_id hl_shortId]. intros H. rewrite length_firstn. lia.
Qed.

(** C7 fails in actions.js. There [addAnnotation] never draws an id from
    the generator, whatever it is given: it reads the id from a third
    parameter. The handler of the file leaves that parameter out, and
    the call then raises at [id.substring(0, 8)], with nothing sent and
    nothing printed. *)
Theorem actions_addAnnotation_draws_no_id (W : world) (o : Omnivore)
    (articleId annotation id : jsval) (st : state) :
  uuids (snd (Actions.addAnnotation W o articleId annotation id st)) = uuids st
  /\ Actions.addAnnotation W o articleId annotation VUndefined st
     = (Throw TypeError, st).
Proof.
  split; [|reflexivity].
  destruct id as [|[| | |s| |]|]; try reflexivity.
  destruct (actions_addAnnotation_run W o articleId annotation s st)
    as [r [logs [E _]]].
  unfold VStr in E. rewrite E.
  cbv beta iota delta [snd]. unfold after. cbn [uuids]. apply Nat.add_0_r.
Qed.

(** ** The handlers *)

(** C8. In stage 1 a body that cannot be read as JSON is reported on
    the console, and neither that case nor a JSON body without the key
    [page] is guarded: the handler raises a [TypeError] at the reads of
    [body.page] and [pageCreated.id], before any request is made. *)
Theorem summary_handler_malformed_body (W : world) (req : option json)
    (st : state) :
  match req with
  | None => True
  | Some body => lacks_key (str "page") body
  end ->
  Summary.handler W req st
  = (Throw TypeError,
     after st 0 0 0
       match req with
       | None => [EConsoleError (MsgNoPayload SyntaxError)]
       | Some _ => []
       end).
Proof.
  intros H. unfold Summary.handler.
  rewrite bind_run, try_catch_run.
  destruct req as [body|]; cbn [response_json].
  - unfold ret at 1. rewrite bind_run, get_run, after_0.
    destruct (nullish (VJson body)) eqn:Hn; [reflexivity|].
    rewrite bind_run, get_run.
    assert (E : own_prop (VJson body) (str "page") = VUndefined).
    { unfold own_prop. destruct body; try reflexivity.
      cbn in H. now rewrite H. }
    rewrite E. reflexivity.
  - unfold throw at 1. rewrite bind_run. unfold console_error.
    rewrite emit_run. unfold ret at 1. rewrite bind_run, get_run.
    reflexivity.
Qed.

Lemma summary_handler_malformed_body_witness :
  Summary.handler (scripted [] [])
    (Some (JObj [(str "event", JStr (str "PAGE_CREATED"))])) initial
  = (Throw TypeError, after initial 0 0 0 []).
Proof.
  apply (@summary_handler_malformed_body (scripted [] [])
           (Some (JObj [(str "event", JStr (str "PAGE_CREATED"))])) initial).
  reflexivity.
Defined.

(** C9, as stated, fails: on a well-formed body, with the store ready to
    accept the highlight, the stage-2 handler gives no response at all;
    it raises, and nothing is printed. *)
Lemma actions_handler_gives_no_response :
  Actions.handler (scripted [highlight_reply; FetchResponse 200 None] [])
    (Some (handoff_body (str "abc123") (str "some text"))) initial
  = (Throw TypeError, initial)
  /\ forall response st,
       Actions.handler (scripted [highlight_reply; FetchResponse 200 None] [])
         (Some (handoff_body (str "abc123") (str "some text"))) initial
       <> (Ret response, st).
Proof.
  split; [reflexivity|]. intros response st. discriminate.
Qed.

(** C9, amended. In actions.js [addAnnotation] takes the id as a
    parameter and the handler calls it without one. The read
    [id.substring(0, 8)] comes before the [try]: the [TypeError] is not
    caught by [addAnnotation], which raises with nothing sent and nothing
    printed; the handler does not catch it either. So every invocation
    of the stage-2 handler ends in an error: no request leaves (no
    highlight, no next stage) and no response is returned. *)
Theorem actions_handler_always_raises (W : world) (req : option json)
    (st : state) :
  (forall o articleId annotation st0,
     Actions.addAnnotation W o articleId annotation VUndefined st0
     = (Throw TypeError, st0))
  /\ exists e logs,
       Actions.handler W req st = (Throw e, after st 0 0 0 logs)
       /\ forallb is_console logs = true
       /\ fetch_calls logs = [].
Proof.
  split; [reflexivity|].
  unfold Actions.handler. rewrite bind_run, try_catch_run.
  destruct req as [body|]; cbn [response_json].
  - unfold ret at 1.
    destruct (nullish (VJson body)) eqn:Hn.
    { exists TypeError, []. rewrite after_0, bind_run, get_run, Hn.
      now repeat split. }
    do 4 (rewrite bind_run, get_run, Hn).
    rewrite bind_run. unfold new_Omnivore.
    destruct (OMNIVORE_API_KEY W) as [[|c s]|];
      try (exists ApiKeyError, []; rewrite after_0; now repeat split).
    unfold ret at 1. rewrite bind_run. unfold new_AI.
    destruct (new_OpenAI W) as [e|].
    { exists e, []. rewrite after_0. now repeat split. }
    exists TypeError, []. rewrite after_0. now repeat split.
  - unfold throw at 1. rewrite bind_run. unfold console_error.
    rewrite emit_run. unfold ret at 1. rewrite bind_run, get_run.
    exists TypeError, [EConsoleError (MsgNoPayload SyntaxError)].
    now repeat split.
Qed.

(** C6 fails in summary.js. On the event of a new page, with the store
    and the next stage answering, the stage-1 handler posts four
    highlights on the article, not one: the summary before the next
    stage is triggered, then "test 2", "test 3" and "test 4" after it. *)
Theorem summary_handler_posts_four_highlights :
  let W := scripted [article_reply (article_with (str "some text"));
                     highlight_reply;
                     FetchResponse 200 None;
                     highlight_reply; highlight_reply; highlight_reply] [] in
  let id := VStr (str "abc123") in
  let post n text :=
    CreateHighlight (str "api-key")
      (note_with (nth n sample_uuids []) id (VStr (str text))) in
  let run := Summary.handler W (Some (page_created (str "abc123"))) initial in
  fst run
  = Ret {| resp_body := JsonBody (VJson (JObj [(str "highlight", JObj [])]));
           resp_status := 200 |}
  /\ fetch_calls (trace (snd run))
     = [ArticleQuery (str "api-key") id;
          post 0 "En summering av artikeln"%string;
          NextStage Summary.NEXT_STAGE_URL
            {| ho_articleId := id;
               ho_article := VStr (str "some text");
               ho_articleAnnotation := [];
               ho_id := None |};
          post 1 "test 2"%string;
          post 2 "test 3"%string;
          post 3 "test 4"%string]
  /\ List.length (filter is_create_highlight (fetch_calls (trace (snd run))))
     = 4.
Proof.
  cbn zeta. split; [reflexivity|]. split; reflexivity.
Qed.

(** The handler of annotate.js, in a world of the same kind, posts one
    highlight: the text that best-of-three delivered. *)
Example annotate_handler_posts_one_highlight :
  let W := scripted [article_reply (article_with (str "some text"));
                     highlight_reply]
             [text_reply (str "A"); text_reply (str "B");
              text_reply (str "C"); text_reply (str "B-refined")] in
  let run := Annotate.handler W (Some (page_created (str "abc123"))) initial in
  fst run
  = Ret {| resp_body := TextBody MsgAnnotationAdded; resp_status := 200 |}
  /\ filter is_create_highlight (fetch_calls (trace (snd run)))
     = [CreateHighlight (str "api-key")
          (note_with (nth 0 sample_uuids []) (VStr (str "abc123"))
             (VStr (str "B-refined")))].
Proof.
  cbn zeta. split; reflexivity.
Qed.

(** The number of highlights posted among some events. *)
Lemma posts_app evs evs' :
  filter is_create_highlight (fetch_calls (evs ++ evs'))
  = filter is_create_highlight (fetch_calls evs)
    ++ filter is_create_highlight (fetch_calls evs').
Proof. now rewrite fetch_calls_app, filter_app. Qed.

Lemma summary_getArticle_posts_nothing W o articleId st :
  converts articleId = true ->
  exists v df evs,
    Summary.getArticle W o articleId 0 st = (Ret v, after st df 0 0 evs)
    /\ filter is_create_highlight (fetch_calls evs) = [].
Proof.
  intros Hid.
  destruct (@summary_getArticle_rounds W o articleId Hid 3 0 st eq_refl)
    as [k [logs [_ [E [L _]]]]].
  eexists _, _, _. split; [exact E|].
  destruct (console_only logs L) as [Lf _].
  rewrite posts_app. cbn [fetch_calls flat_map app].
  fold (fetch_calls logs). rewrite Lf, app_nil_r. clear.
  induction (seq 0 k) as [|i l IH]; [reflexivity|exact IH].
Qed.

Lemma summary_addAnnotation_posts_one W o articleId annotation st :
  converts articleId = true ->
  exists v evs,
    Summary.addAnnotation W o articleId annotation st
    = (Ret v, after st 1 0 1 evs)
    /\ List.length (filter is_create_highlight (fetch_calls evs)) = 1.
Proof.
  intros Hid.
  destruct (summary_addAnnotation_run W o articleId annotation st Hid)
    as [v [logs [E [L _]]]].
  eexists _, _. split; [exact E|].
  destruct (console_only logs L) as [Lf _].
  cbn [fetch_calls flat_map app]. fold (fetch_calls logs). now rewrite Lf.
Qed.

(** Whatever the world, a run of the stage-1 handler that ends with a
    response has posted four highlights. *)
Lemma summary_handler_four_posts W req st response st' :
  Summary.handler W req st = (Ret response, st') ->
  exists evs,
    trace st' = trace st ++ evs
    /\ List.length (filter is_create_highlight (fetch_calls evs)) = 4.
Proof.
  unfold Summary.handler. rewrite bind_run, try_catch_run.
  destruct req as [body|]; cbn [response_json].
  2:{ unfold throw at 1. rewrite bind_run. unfold console_error.
      rewrite emit_run. unfold ret at 1. rewrite bind_run, get_run.
      discriminate. }
  unfold ret at 1. rewrite bind_run, get_run.
  destruct (nullish (VJson body)); [discriminate|].
  rewrite bind_run, get_run.
  destruct (nullish (own_prop (VJson body) (str "page"))); [discriminate|].
  rewrite bind_run.
  destruct (new_Omnivore W st) as [[o|e|] s0] eqn:Eo; try discriminate.
  assert (s0 = st) as ->.
  { unfold new_Omnivore in Eo.
    destruct (OMNIVORE_API_KEY W) as [[|c s]|]; now inversion Eo. }
  rewrite bind_run.
  destruct (converts (own_prop (own_prop (VJson body) (str "page")) (str "id")))
    eqn:Hid.
  2:{ unfold Summary.getArticle.
      now rewrite (@summary_getArticle_unconverted W o _ _ _ st Hid). }
  destruct (summary_getArticle_posts_nothing W o
              (own_prop (own_prop (VJson body) (str "page")) (str "id")) st Hid)
    as [article [df [evs0 [-> P0]]]].
  rewrite bind_run.
  destruct (new_AI W (after st df 0 0 evs0)) as [[ai|e|] s1] eqn:Ea;
    try discriminate.
  assert (s1 = after st df 0 0 evs0) as ->.
  { unfold new_AI in Ea. destruct (new_OpenAI W); now inversion Ea. }
  cbn zeta. rewrite bind_run.
  match goal with |- context [Summary.addAnnotation W o ?i ?a ?s] =>
    destruct (summary_addAnnotation_posts_one W o i a s Hid)
      as [r1 [evs1 [-> P1]]]
  end.
  rewrite bind_run, fetch_run, bind_run.
  match goal with |- context [await_fetch ?r] => destruct r; cbn [await_fetch] end;
    [discriminate|].
  unfold ret at 1.
  rewrite bind_run.
  match goal with |- context [Summary.addAnnotation W o ?i ?a ?s] =>
    destruct (summary_addAnnotation_posts_one W o i a s Hid)
      as [r2 [evs2 [-> P2]]]
  end.
  rewrite bind_run.
  match goal with |- context [Summary.addAnnotation W o ?i ?a ?s] =>
    destruct (summary_addAnnotation_posts_one W o i a s Hid)
      as [r3 [evs3 [-> P3]]]
  end.
  rewrite bind_run.
  match goal with |- context [Summary.addAnnotation W o ?i ?a ?s] =>
    destruct (summary_addAnnotation_posts_one W o i a s Hid)
      as [r4 [evs4 [-> P4]]]
  end.
  intros H. inversion H; subst; clear H.
  rewrite !after_after. cbn [trace after].
  eexists. split; [reflexivity|].
  rewrite !posts_app, !length_app, P0, P1, P2, P3, P4. reflexivity.
Qed.

(** ** [getCompletion] *)

Section Completion.

Variables (W : world) (ai : AI).

Lemma completion_text_run choices st :
  completion_text choices st
  = (match delivered (ChatCompletion choices) with
     | Some s => Ret s
     | None =>
         match annotate_delivered (ChatCompletion choices) with
         | Annotate.Failure (MsgCompletionError e) _ => Throw e
         | _ => Throw TypeError
         end
     end, st).
Proof.
  destruct choices as [|[[[[[|c s]|]]|]] rest]; reflexivity.
Qed.

Lemma summary_finish_run p st :
  exists logs,
    Summary.getCompletion_finish p st
    = (Ret match p with
           | Summary.Settled r => r
           | Summary.Awaiting o => delivered o
           end,
       after st 0 0 0 logs)
    /\ forallb is_console logs = true
    /\ (forall choices,
          p = Summary.Awaiting (ChatCompletion choices) -> no_text choices ->
          logs = [EConsoleError (MsgCompletionError NoCompletionError)]).
Proof.
  destruct p as [r|[e|choices]]; cbn [Summary.getCompletion_finish].
  - exists []. rewrite after_0. repeat split. discriminate.
  - exists [EConsoleError (MsgCompletionError e)].
    rewrite try_catch_run, bind_run. cbn [await_chat]. unfold throw at 1.
    unfold Summary.getCompletion_catch, console_error.
    rewrite bind_run, emit_run. repeat split. discriminate.
  - rewrite try_catch_run, bind_run. cbn [await_chat]. unfold ret at 1.
    rewrite bind_run, completion_text_run.
    destruct choices as [|[[[[[|c s]|]]|]] rest]; cbn;
      unfold Summary.getCompletion_catch, console_error;
      try rewrite bind_run, emit_run;
      try (eexists [_]; split; [reflexivity|]; split; [reflexivity|];
           intros ch [= <-] [H|[r H]]; (reflexivity || discriminate)).
    exists []. rewrite after_0. split; [reflexivity|]. split; [reflexivity|].
    intros ch [= <-] [H|[r H]]; discriminate.
Qed.

Lemma annotate_finish_run p st :
  exists logs,
    Annotate.getCompletion_finish p st
    = (Ret match p with
           | Annotate.Settled r => r
           | Annotate.Awaiting o => annotate_delivered o
           end,
       after st 0 0 0 logs)
    /\ forallb is_console logs = true
    /\ (forall choices,
          p = Annotate.Awaiting (ChatCompletion choices) -> no_text choices ->
          logs = [EConsoleError (MsgCompletionError NoCompletionError)]).
Proof.
  destruct p as [r|[e|choices]]; cbn [Annotate.getCompletion_finish].
  - exists []. rewrite after_0. repeat split. discriminate.
  - exists [EConsoleError (MsgCompletionError e)].
    rewrite try_catch_run, bind_run. cbn [await_chat]. unfold throw at 1.
    unfold Annotate.getCompletion_catch, console_error.
    rewrite bind_run, emit_run. repeat split. discriminate.
  - rewrite try_catch_run, bind_run. cbn [await_chat]. unfold ret at 1.
    rewrite bind_run, completion_text_run.
    destruct choices as [|[[[[[|c s]|]]|]] rest]; cbn;
      unfold Annotate.getCompletion_catch, console_error;
      try rewrite bind_run, emit_run;
      try (eexists [_]; split; [reflexivity|]; split; [reflexivity|];
           intros ch [= <-] [H|[r H]]; (reflexivity || discriminate)).
    exists []. rewrite after_0. split; [reflexivity|]. split; [reflexivity|].
    intros ch [= <-] [H|[r H]]; discriminate.
Qed.

(** The events of the synchronous part of [getCompletion] in summary.js. *)
Lemma summary_start_run prompt articleContent st :
  let notice :=
    if negb (truthy prompt) || negb (truthy articleContent)
    then [EConsoleError MsgRequired] else [] in
  Summary.getCompletion_start W ai prompt articleContent st
  = match JSON_parse W (settings ai) with
    | Some params =>
        let request := {| chat_params := params;
                          chat_instruction := prompt;
                          chat_article := articleContent |} in
        (Ret (Summary.Awaiting (chat_reply W (chats st) request)),
         after st 0 1 0 (notice ++ [EChat request]))
    | None =>
        (Ret (Summary.Settled None),
         after st 0 0 0
           (notice ++ [EConsoleError (MsgCompletionError SyntaxError)]))
    end.
Proof.
  cbn zeta. unfold Summary.getCompletion_start.
  rewrite bind_run.
  assert (E : (if negb (truthy prompt) || negb (truthy articleContent)
               then console_error MsgRequired else ret tt) st
              = (Ret tt,
                 after st 0 0 0
                   (if negb (truthy prompt) || negb (truthy articleContent)
                    then [EConsoleError MsgRequired] else []))).
  { destruct (negb (truthy prompt) || negb (truthy articleContent)).
    - apply emit_run.
    - now rewrite after_0. }
  rewrite E, try_catch_run, bind_run. unfold parse_settings.
  destruct (JSON_parse W (settings ai)) as [params|].
  - unfold ret at 1.
    rewrite bind_run, create_run, after_after, chats_after, Nat.add_0_r.
    reflexivity.
  - unfold throw at 1. rewrite bind_run.
    unfold Summary.getCompletion_catch, console_error.
    rewrite bind_run, emit_run, after_after. reflexivity.
Qed.

Lemma annotate_start_run prompt articleContent st :
  Annotate.getCompletion_start W ai prompt articleContent st
  = if negb (truthy prompt) || negb (truthy articleContent)
    then (Ret (Annotate.Settled (Annotate.Failure MsgRequired 400)), st)
    else
      match JSON_parse W (settings ai) with
      | Some params =>
          let request := {| chat_params := params;
                            chat_instruction := prompt;
                            chat_article := articleContent |} in
          (Ret (Annotate.Awaiting (chat_reply W (chats st) request)),
           after st 0 1 0 [EChat request])
      | None =>
          (Ret (Annotate.Settled
                  (Annotate.Failure (MsgCompletionError SyntaxError) 500)),
           after st 0 0 0 [EConsoleError (MsgCompletionError SyntaxError)])
      end.
Proof.
  unfold Annotate.getCompletion_start.
  destruct (negb (truthy prompt) || negb (truthy articleContent));
    [reflexivity|].
  rewrite try_catch_run, bind_run. unfold parse_settings.
  destruct (JSON_parse W (settings ai)) as [params|].
  - unfold ret at 1. rewrite bind_run, create_run. reflexivity.
  - unfold throw at 1.
    unfold Annotate.getCompletion_catch, console_error.
    rewrite bind_run, bind_run, emit_run. reflexivity.
Qed.



Lemma summary_getCompletion_run params prompt articleContent st :
  JSON_parse W (settings ai) = Some params ->
  let request := {| chat_params := params;
                    chat_instruction := prompt;
                    chat_article := articleContent |} in
  exists logs,
    Summary.getCompletion W ai prompt articleContent st
    = (Ret (delivered (chat_reply W (chats st) request)),
       after st 0 1 0 (notice prompt articleContent ++ EChat request :: logs))
    /\ forallb is_console logs = true
    /\ (forall choices,
          chat_reply W (chats st) request = ChatCompletion choices ->
          no_text choices ->
          logs = [EConsoleError (MsgCompletionError NoCompletionError)]).
Proof.
  intros Hp request. unfold Summary.getCompletion.
  rewrite bind_run, summary_start_run, Hp. cbn zeta. fold request.
  destruct (summary_finish_run
              (Summary.Awaiting (chat_reply W (chats st) request))
              (after st 0 1 0
                 ((if negb (truthy prompt) || negb (truthy articleContent)
                   then [EConsoleError MsgRequired] else [])
                    ++ [EChat request])))
    as [logs [-> [L F]]].
  exists logs. rewrite after_after, <- app_assoc. unfold notice.
  split; [reflexivity|]. split; [exact L|].
  intros choices E. apply F. now rewrite E.
Qed.

(** In summary.js [getCompletion] ends with a value whatever it is
    given and whatever the provider does. *)
Lemma summary_getCompletion_returns prompt articleContent st :
  exists r dc evs,
    Summary.getCompletion W ai prompt articleContent st
    = (Ret r, after st 0 dc 0 evs).
Proof.
  destruct (JSON_parse W (settings ai)) as [params|] eqn:Hp.
  - destruct (@summary_getCompletion_run params prompt articleContent st Hp)
      as [logs [E _]].
    eauto.
  - unfold Summary.getCompletion.
    rewrite bind_run, summary_start_run, Hp.
    cbn [Summary.getCompletion_finish]. unfold ret. eauto.
Qed.

Lemma annotate_getCompletion_run prompt articleContent st :
  exists logs,
    Annotate.getCompletion W ai prompt articleContent st
    = (if negb (truthy prompt) || negb (truthy articleContent)
       then (Ret (Annotate.Failure MsgRequired 400), st)
       else
         match JSON_parse W (settings ai) with
         | Some params =>
             let request := {| chat_params := params;
                               chat_instruction := prompt;
                               chat_article := articleContent |} in
             (Ret (annotate_delivered (chat_reply W (chats st) request)),
              after st 0 1 0 (EChat request :: logs))
         | None =>
             (Ret (Annotate.Failure (MsgCompletionError SyntaxError) 500),
              after st 0 0 0 [EConsoleError (MsgCompletionError SyntaxError)])
         end)
    /\ forallb is_console logs = true
    /\ (forall params choices,
          JSON_parse W (settings ai) = Some params ->
          chat_reply W (chats st)
            {| chat_params := params;
               chat_instruction := prompt;
               chat_article := articleContent |} = ChatCompletion choices ->
          no_text choices ->
          logs = [EConsoleError (MsgCompletionError NoCompletionError)]
          \/ negb (truthy prompt) || negb (truthy articleContent) = true).
Proof.
  unfold Annotate.getCompletion. rewrite bind_run, annotate_start_run.
  destruct (negb (truthy prompt) || negb (truthy articleContent)).
  { exists []. repeat split. intros. now right. }
  destruct (JSON_parse W (settings ai)) as [params|].
  - cbv beta iota zeta.
    match goal with |- context [Annotate.getCompletion_finish ?p ?s] =>
      destruct (annotate_finish_run p s) as [logs [-> [L F]]]
    end.
    exists logs. rewrite after_after. split; [reflexivity|]. split; [exact L|].
    intros params' choices [= <-] Hr Hn. left. apply (F choices); [|exact Hn].
    now rewrite Hr.
  - exists []. cbn [Annotate.getCompletion_finish]. repeat split.
    discriminate.
Qed.



(** The result of a [map] whose function ignores the element depends on
    the length of the array only. *)
Lemma mapM_ignores_elements {A B} (m : M B) (l1 l2 : list A) :
  List.length l1 = List.length l2 ->
  mapM (fun _ => m) l1 = mapM (fun _ => m) l2.
Proof.
  revert l2. induction l1 as [|a l1 IH]; intros [|b l2] H;
    try discriminate; [reflexivity|].
  cbn [mapM]. now rewrite (IH l2) by (now injection H).
Qed.

End Completion.


(** ** Best of n *)




(** C10. [getBestCompletionOutOf] reads the length of its array and not
    the elements: on two arrays of the same length, all else equal, it
    makes the same requests and gives the same result, in summary.js and
    in annotate.js. *)
Theorem getBestCompletionOutOf_reads_length_only (W : world) (ai : AI)
    (prompt articleContent : jsval) (completions completions' : list json)
    (st : state) :
  List.length completions = List.length completions' ->
  Summary.getBestCompletionOutOf W ai prompt completions articleContent st
  = Summary.getBestCompletionOutOf W ai prompt completions' articleContent st
  /\ Annotate.getBestCompletionOutOf W ai prompt completions articleContent st
     = Annotate.getBestCompletionOutOf W ai prompt completions' articleContent st.
Proof.
  intros H.
  unfold Summary.getBestCompletionOutOf, Annotate.getBestCompletionOutOf.
  rewrite H.
  rewrite (mapM_ignores_elements
             (Summary.getCompletion_start W ai prompt articleContent)
             completions completions' H).
  rewrite (mapM_ignores_elements
             (Annotate.getCompletion_start W ai prompt articleContent)
             completions completions' H).
  split; reflexivity.
Qed.

Lemma getBestCompletionOutOf_reads_length_only_witness :
  let W := scripted [] [text_reply (str "A"); text_reply (str "B")] in
  Summary.getBestCompletionOutOf W sample_ai (VStr (str "Summarize"))
    [JNull; JBool true] (VStr (str "some text")) initial
  = Summary.getBestCompletionOutOf W sample_ai (VStr (str "Summarize"))
      [JStr (str "x"); JArr []] (VStr (str "some text")) initial.
Proof.
  exact (proj1 (@getBestCompletionOutOf_reads_length_only
                  (scripted [] [text_reply (str "A"); text_reply (str "B")])
                  sample_ai (VStr (str "Summarize")) (VStr (str "some text"))
                  [JNull; JBool true] [JStr (str "x"); JArr []] initial
                  eq_refl)).
Defined.

(** ** What [getCompletion] delivers *)






(* ================================================================== *)
(** * Further properties *)

(** ** The text of an annotation *)

Lemma escaped_head_not_quote s :
  match flat_map escaped s with
  | c :: _ => (c =? QUOTE)%N = false
  | [] => True
  end.
Proof.
  destruct s as [|d s]; [exact I|]. cbn [flat_map]. unfold escaped.
  destruct (N.eqb_spec d QUOTE) as [->|Hq]; [reflexivity|].
  destruct (N.eqb_spec d BACKSLASH) as [->|Hb]; [reflexivity|].
  cbn [app]. now apply N.eqb_neq.
Qed.

Lemma unescape_escaped s : unescape (flat_map escaped s) = s.
Proof.
  induction s as [|d s IH]; [reflexivity|].
  cbn [flat_map]. unfold escaped at 1.
  destruct (N.eqb_spec d QUOTE) as [->|Hq].
  { cbn [app unescape]. rewrite !N.eqb_refl. cbn [andb]. now rewrite IH. }
  destruct (N.eqb_spec d BACKSLASH) as [->|Hb].
  - pose proof (escaped_head_not_quote s) as H.
    cbn [app]. destruct (flat_map escaped s) as [|c r] eqn:E.
    + cbn [unescape]. rewrite !N.eqb_refl. cbn [andb]. now rewrite <- IH.
    + change (unescape (BACKSLASH :: BACKSLASH :: c :: r))
        with (if (BACKSLASH =? BACKSLASH)%N && (BACKSLASH =? BACKSLASH)%N
              then if (c =? QUOTE)%N then QUOTE :: unescape r
                   else BACKSLASH :: unescape (c :: r)
              else BACKSLASH :: unescape (BACKSLASH :: c :: r)).
      rewrite !N.eqb_refl, H. cbn [andb]. now rewrite IH.
  - cbn [app]. destruct (flat_map escaped s) as [|c r] eqn:E.
    + now rewrite <- IH.
    + change (unescape (d :: c :: r))
        with (if (d =? BACKSLASH)%N && (c =? BACKSLASH)%N
              then match r with
                   | c' :: r' =>
                       if (c' =? QUOTE)%N then QUOTE :: unescape r'
                       else BACKSLASH :: unescape r
                   | [] => [BACKSLASH]
                   end
              else d :: unescape (c :: r)).
      apply N.eqb_neq in Hb. rewrite Hb. cbn [andb]. now rewrite IH.
Qed.

(** X1. [trimAnnotation] loses nothing of the trimmed text: read back
    from left to right, its result gives the trimmed text again, so two
    texts that differ after trimming never get the same annotation. *)
Theorem trimAnnotation_loses_nothing :
  (forall s, unescape (trimAnnotation s) = trim s)
  /\ (forall s t, trimAnnotation s = trimAnnotation t -> trim s = trim t).
Proof.
  assert (H : forall s, unescape (trimAnnotation s) = trim s).
  { intros s. unfold trimAnnotation. now rewrite escape_in_order, unescape_escaped. }
  split; [exact H|].
  intros s t E. now rewrite <- (H s), <- (H t), E.
Qed.

Lemma trimAnnotation_loses_nothing_witness :
  trim (str "  a b ") = trim (str "a b").
Proof.
  exact (proj2 trimAnnotation_loses_nothing (str "  a b ") (str "a b") eq_refl).
Defined.

(** X2. The annotation is longer than the trimmed text by two code units
    for every double quote in it and by one for every backslash; it is
    the trimmed text itself exactly when that holds neither. *)
Theorem trimAnnotation_length (s : jsstring) :
  List.length (trimAnnotation s)
  = List.length (trim s)
    + 2 * count_occ N.eq_dec (trim s) QUOTE
    + count_occ N.eq_dec (trim s) BACKSLASH
  /\ (trimAnnotation s = trim s
      <-> ~ In QUOTE (trim s) /\ ~ In BACKSLASH (trim s)).
Proof.
  unfold trimAnnotation. rewrite escape_in_order.
  assert (L : forall l,
             List.length (flat_map escaped l)
             = List.length l + 2 * count_occ N.eq_dec l QUOTE
               + count_occ N.eq_dec l BACKSLASH).
  { induction l as [|d l IH]; [reflexivity|].
    cbn [flat_map count_occ]. rewrite length_app, IH. unfold escaped.
    destruct (N.eqb_spec d QUOTE) as [->|Hq].
    - destruct (N.eq_dec QUOTE QUOTE) as [_|C]; [|contradiction].
      destruct (N.eq_dec QUOTE BACKSLASH) as [C|_]; [discriminate|].
      cbn [List.length]. lia.
    - destruct (N.eq_dec d QUOTE) as [C|_]; [contradiction|].
      destruct (N.eqb_spec d BACKSLASH) as [->|Hb].
      + destruct (N.eq_dec BACKSLASH BACKSLASH) as [_|C]; [|contradiction].
        cbn [List.length]. lia.
      + destruct (N.eq_dec d BACKSLASH) as [C|_]; [contradiction|].
        cbn [List.length]. lia. }
  split; [apply L|]. split.
  - intros E. apply (f_equal (@List.length _)) in E. rewrite L in E.
    split; intros I.
    + apply (count_occ_In N.eq_dec) in I. lia.
    + apply (count_occ_In N.eq_dec) in I. lia.
  - intros [Hq Hb]. induction (trim s) as [|d l IH]; [reflexivity|].
    cbn [flat_map]. unfold escaped.
    destruct (N.eqb_spec d QUOTE) as [->|Hd]; [exfalso; apply Hq; now left|].
    destruct (N.eqb_spec d BACKSLASH) as [->|Hd'];
      [exfalso; apply Hb; now left|].
    cbn [app]. f_equal. apply IH; intros I; [apply Hq|apply Hb]; now right.
Qed.

Lemma trimAnnotation_length_witness :
  ~ In QUOTE (trim (str " abc ")) /\ ~ In BACKSLASH (trim (str " abc ")).
Proof.
  exact (proj1 (proj2 (trimAnnotation_length (str " abc "))) eq_refl).
Defined.

(** [buildGetQuery] puts the id between the same two texts, so two
    different ids never give the same query: the request for an article
    is known by its id. *)
Lemma buildGetQuery_injective (a b : jsstring) :
  buildGetQuery a = buildGetQuery b -> a = b.
Proof.
  unfold buildGetQuery. intros E.
  apply app_inv_head in E. now apply app_inv_tail in E.
Qed.

(** ** More on [getCompletion] *)





(** X4. [getCompletion] of summary.js makes up no text: when it returns
    a string, the settings were readable, a request went to the provider,
    and the string is [trimAnnotation] of the non-empty text of the
    first choice of the reply. *)
Theorem getCompletion_text_comes_from_provider (W : world) (ai : AI)
    (prompt articleContent : jsval) (st : state) (t : jsstring) :
  fst (Summary.getCompletion W ai prompt articleContent st) = Ret (Some t) ->
  exists params text rest,
    JSON_parse W (settings ai) = Some params
    /\ chat_reply W (chats st)
         {| chat_params := params;
            chat_instruction := prompt;
            chat_article := articleContent |}
       = ChatCompletion
           ({| message_ := Some {| content := Some text |} |} :: rest)
    /\ text <> []
    /\ t = trimAnnotation text
    /\ chats (snd (Summary.getCompletion W ai prompt articleContent st))
       = chats st + 1.
Proof.
  intros H.
  destruct (JSON_parse W (settings ai)) as [params|] eqn:Hp.
  - destruct (@summary_getCompletion_run W ai params prompt articleContent
                st Hp) as [logs [E _]].
    rewrite E in H |- *. cbn [fst snd] in H |- *.
    exists params.
    destruct (chat_reply W (chats st) _) as [e|choices]; [discriminate|].
    destruct choices as [|[[[[[|c s]|]]|]] rest]; try discriminate.
    cbn [delivered] in H. injection H as <-.
    exists (c :: s), rest. repeat split. discriminate.
  - unfold Summary.getCompletion in H.
    rewrite bind_run, summary_start_run, Hp in H. discriminate.
Qed.

Lemma getCompletion_text_comes_from_provider_witness :
  exists params text rest,
    JSON_parse (scripted [] [text_reply (str " A ")]) (settings sample_ai)
    = Some params
    /\ chat_reply (scripted [] [text_reply (str " A ")]) (chats initial)
         {| chat_params := params;
            chat_instruction := VStr (str "Summarize");
            chat_article := VStr (str "some text") |}
       = ChatCompletion
           ({| message_ := Some {| content := Some text |} |} :: rest)
    /\ text <> []
    /\ str "A" = trimAnnotation text
    /\ chats (snd (Summary.getCompletion (scripted [] [text_reply (str " A ")])
                     sample_ai (VStr (str "Summarize"))
                     (VStr (str "some text")) initial))
       = chats initial + 1.
Proof.
  exact (@getCompletion_text_comes_from_provider
           (scripted [] [text_reply (str " A ")]) sample_ai
           (VStr (str "Summarize")) (VStr (str "some text")) initial
           (str "A") eq_refl).
Defined.

(** ** More on best of n *)

Lemma join_two_or_more sep (a b : jsstring) l :
  sep <> [] -> join sep (a :: b :: l) <> [].
Proof.
  intros Hs H. cbn [join] in H.
  apply app_eq_nil in H. destruct H as [_ H].
  apply app_eq_nil in H. destruct H as [H _]. contradiction.
Qed.

Section MoreCompletion.

Variables (W : world) (ai : AI).

Lemma summary_start_unreadable prompt articleContent :
  JSON_parse W (settings ai) = None ->
  truthy prompt = true -> truthy articleContent = true ->
  forall (completions : list json) st,
    mapM (fun _ => Summary.getCompletion_start W ai prompt articleContent)
      completions st
    = (Ret (repeat (Summary.Settled None) (List.length completions)),
       after st 0 0 0
         (repeat (EConsoleError (MsgCompletionError SyntaxError))
            (List.length completions))).
Proof.
  intros Hp Ht Hc completions.
  induction completions as [|c completions IH]; intros st.
  - cbn. now rewrite after_0.
  - change (mapM ?f (c :: completions))
      with (b <- f c ;; bs <- mapM f completions ;; ret (b :: bs)).
    rewrite bind_run, summary_start_run, Hp, Ht, Hc. cbn [negb orb app].
    rewrite bind_run, IH, after_after. reflexivity.
Qed.

Lemma summary_finish_settled n st :
  mapM Summary.getCompletion_finish (repeat (Summary.Settled None) n) st
  = (Ret (repeat None n), st).
Proof.
  induction n as [|n IH]; [reflexivity|].
  cbn [repeat].
  change (mapM ?f (?p :: ?ps))
    with (b <- f p ;; bs <- mapM f ps ;; ret (b :: bs)).
  rewrite bind_run. cbn [Summary.getCompletion_finish]. unfold ret at 1.
  now rewrite bind_run, IH.
Qed.

Lemma annotate_start_all params prompt articleContent :
  JSON_parse W (settings ai) = Some params ->
  truthy prompt = true -> truthy articleContent = true ->
  let request := {| chat_params := params;
                    chat_instruction := prompt;
                    chat_article := articleContent |} in
  forall (completions : list json) st,
    mapM (fun _ => Annotate.getCompletion_start W ai prompt articleContent)
      completions st
    = (Ret (map (fun i => Annotate.Awaiting
                            (chat_reply W (chats st + i) request))
              (seq 0 (List.length completions))),
       after st 0 (List.length completions) 0
         (repeat (EChat request) (List.length completions))).
Proof.
  intros Hp Ht Hc request completions.
  induction completions as [|c completions IH]; intros st.
  - cbn. now rewrite after_0.
  - change (mapM ?f (c :: completions))
      with (b <- f c ;; bs <- mapM f completions ;; ret (b :: bs)).
    rewrite bind_run, annotate_start_run, Hp, Ht, Hc.
    cbn [negb orb]. cbv zeta. fold request.
    rewrite bind_run, IH, after_after, chats_after.
    cbn [List.length seq map repeat]. unfold ret. f_equal.
    f_equal. rewrite Nat.add_0_r. f_equal.
    rewrite <- seq_shift, map_map. apply map_ext. intros i.
    do 2 f_equal. lia.
Qed.

Lemma annotate_finish_all ps :
  forall st,
    exists logs,
      mapM Annotate.getCompletion_finish ps st
      = (Ret (map (fun p => match p with
                            | Annotate.Settled r => r
                            | Annotate.Awaiting o => annotate_delivered o
                            end) ps),
         after st 0 0 0 logs)
      /\ forallb is_console logs = true.
Proof.
  induction ps as [|p ps IH]; intros st.
  - exists []. cbn. now rewrite after_0.
  - change (mapM ?f (p :: ps))
      with (b <- f p ;; bs <- mapM f ps ;; ret (b :: bs)).
    destruct (annotate_finish_run p st) as [logs [E [L _]]].
    rewrite bind_run, E.
    destruct (IH (after st 0 0 0 logs)) as [logs' [E' L']].
    rewrite bind_run, E', after_after.
    exists (logs ++ logs'). rewrite forallb_app, L, L'. now split.
Qed.

End MoreCompletion.

(** X5. When the settings cannot be read as JSON,
    [getBestCompletionOutOf] of summary.js, given [n >= 1] elements and
    non-empty arguments, sends nothing to the provider: each of the
    [n + 1] calls of [getCompletion] prints the error of the parse, and
    the result is [undefined]. For [n = 1] the joined text is empty, and
    the last call first prints that its arguments are required. *)
Theorem getBestCompletionOutOf_unreadable_settings (W : world) (ai : AI)
    (prompt articleContent : jsval) (completions : list json) (n : nat)
    (st : state) :
  JSON_parse W (settings ai) = None ->
  List.length completions = n -> 1 <= n ->
  truthy prompt = true -> truthy articleContent = true ->
  let failed := EConsoleError (MsgCompletionError SyntaxError) in
  Summary.getBestCompletionOutOf W ai prompt completions articleContent st
  = (Ret None,
     after st 0 0 0
       (repeat failed n
          ++ (if n =? 1 then [EConsoleError MsgRequired] else [])
          ++ [failed])).
Proof.
  intros Hp Hn H1 Ht Hc failed.
  unfold Summary.getBestCompletionOutOf. rewrite Hn, Ht, Hc.
  destruct n as [|n']; [lia|]. cbn [negb orb Nat.leb].
  rewrite bind_run,
    (@summary_start_unreadable W ai prompt articleContent Hp Ht Hc
       completions st), Hn.
  rewrite bind_run, summary_finish_settled.
  unfold Summary.getCompletion.
  rewrite bind_run, summary_start_run, Hp.
  cbn [Summary.getCompletion_finish]. unfold ret. rewrite !after_after.
  f_equal. f_equal. f_equal. f_equal.
  destruct n' as [|n'']; [reflexivity|].
  assert (E : truthy (VStr (join [NEWLINE]
                              (map Summary.join_item (repeat None (S (S n''))))))
              = true).
  { cbn [repeat map Summary.join_item].
    pose proof (@join_two_or_more [NEWLINE] [] []
                  (map Summary.join_item (repeat None n''))) as J.
    destruct (join [NEWLINE]
                ([] :: [] :: map Summary.join_item (repeat None n'')))
      eqn:Ej.
    - exfalso. apply J; [discriminate|exact Ej].
    - reflexivity. }
  rewrite E. reflexivity.
Qed.

Lemma getBestCompletionOutOf_unreadable_settings_witness :
  Summary.getBestCompletionOutOf (scripted [] [text_reply (str "A")])
    {| model := str "gpt-4o-mini"; settings := str "{model: gpt-4o-mini}" |}
    (VStr (str "Summarize")) [JNull] (VStr (str "some text")) initial
  = (Ret None,
     after initial 0 0 0
       [EConsoleError (MsgCompletionError SyntaxError);
        EConsoleError MsgRequired;
        EConsoleError (MsgCompletionError SyntaxError)]).
Proof.
  exact (@getBestCompletionOutOf_unreadable_settings
           (scripted [] [text_reply (str "A")])
           {| model := str "gpt-4o-mini";
              settings := str "{model: gpt-4o-mini}" |}
           (VStr (str "Summarize")) (VStr (str "some text")) [JNull] 1 initial
           eq_refl eq_refl (le_n 1) eq_refl eq_refl).
Defined.

(** [getBestCompletionOutOf] of annotate.js, step by step. *)
Lemma annotate_getBest_run (W : world) (ai : AI)
    (params : json) (prompt articleContent : jsval)
    (completions : list json) (n : nat) (st : state) :
  JSON_parse W (settings ai) = Some params ->
  List.length completions = n -> 1 <= n ->
  truthy prompt = true -> truthy articleContent = true ->
  let request := {| chat_params := params;
                    chat_instruction := prompt;
                    chat_article := articleContent |} in
  let results :=
    map (fun i => annotate_delivered (chat_reply W (chats st + i) request))
      (seq 0 n) in
  let joined := join [NEWLINE] (map Annotate.join_item results) in
  let refinement :=
    {| chat_params := params;
       chat_instruction := VStr Annotate.REFINEMENT_PROMPT;
       chat_article := VStr joined |} in
  exists logs logs',
    forallb is_console logs = true
    /\ forallb is_console logs' = true
    /\ Annotate.getBestCompletionOutOf W ai prompt completions articleContent st
       = match joined with
         | [] =>
             (Ret (Annotate.Failure MsgRequired 400),
              after st 0 n 0 (repeat (EChat request) n ++ logs))
         | _ :: _ =>
             (Ret (annotate_delivered (chat_reply W (chats st + n) refinement)),
              after st 0 (n + 1) 0
                (repeat (EChat request) n ++ logs
                   ++ EChat refinement :: logs'))
         end.
Proof.
  intros Hp Hn H1 Ht Hc request results joined refinement.
  unfold Annotate.getBestCompletionOutOf. rewrite Hn, Ht, Hc.
  destruct n as [|n']; [lia|]. cbn [negb orb Nat.leb].
  set (n := S n') in *.
  rewrite bind_run, (@annotate_start_all W ai params prompt articleContent
                       Hp Ht Hc completions st), Hn.
  fold request.
  destruct (annotate_finish_all
              (map (fun i => Annotate.Awaiting
                               (chat_reply W (chats st + i) request))
                 (seq 0 n))
              (after st 0 n 0 (repeat (EChat request) n)))
    as [logs [E L]].
  rewrite bind_run, E. cbv beta iota.
  match goal with |- context [join [NEWLINE] ?l] =>
    replace l with (map Annotate.join_item results)
      by (unfold results; rewrite !map_map; reflexivity)
  end.
  fold joined.
  destruct (annotate_getCompletion_run W ai
              (VStr Annotate.REFINEMENT_PROMPT) (VStr joined)
              (after (after st 0 n 0 (repeat (EChat request) n)) 0 0 0 logs))
    as [logs' [E' [L' _]]].
  rewrite E', Hp. clear E'.
  change (truthy (VStr Annotate.REFINEMENT_PROMPT)) with true.
  cbn [negb orb].
  exists logs, logs'. split; [exact L|]. split; [exact L'|].
  destruct joined as [|c j] eqn:Ej.
  - change (truthy (VStr [])) with false. cbn [negb].
    rewrite after_after. f_equal. f_equal; lia.
  - change (truthy (VStr (c :: j))) with true. cbn [negb].
    cbv zeta. rewrite !after_after, !chats_after, !Nat.add_0_r.
    fold refinement. rewrite <- app_assoc. reflexivity.
Qed.



(** ** [getArticle] in annotate.js *)

Section AnnotateGetArticle.

Variables (W : world) (o : Omnivore) (articleId : jsval).

Local Notation "'query'" := (ArticleQuery (apiKey o) articleId).
Local Notation "'reply_at' n" := (fetch_reply W n (ArticleQuery (apiKey o) articleId)) (at level 10).

Lemma annotate_try_failed attempts st :
  success_data (reply_at (fetches st)) = None ->
  exists e,
    Annotate.getArticle_try W o articleId attempts st
    = (Throw e, after st 1 0 0 [EFetch query]).
Proof.
  intros H. unfold Annotate.getArticle_try.
  rewrite bind_run, fetch_run.
  apply failed_reply_throws. exact H.
Qed.

Lemma annotate_try_retry attempts st :
  empty_success (reply_at (fetches st)) = true ->
  attempts < 3 ->
  Annotate.getArticle_try W o articleId attempts st
  = (Ret (RetryAfter (2 ^ N.of_nat attempts * 1000)),
     after st 1 0 0 [EFetch query]).
Proof.
  unfold empty_success. intros H Ha.
  destruct (success_data _) as [data|] eqn:Hd; [|discriminate].
  unfold Annotate.getArticle_try.
  rewrite bind_run, fetch_run.
  erewrite successful_reply_continues by exact Hd.
  rewrite H. apply Nat.ltb_lt in Ha. rewrite Ha. reflexivity.
Qed.

Lemma annotate_try_done attempts data st :
  success_data (reply_at (fetches st)) = Some data ->
  truthy (article_content_opt (VJson data)) = true \/ 3 <= attempts ->
  Annotate.getArticle_try W o articleId attempts st
  = (Ret (Done (article_content_opt (VJson data))),
     after st 1 0 0 [EFetch query])
  \/ (Annotate.getArticle_try W o articleId attempts st
      = (Throw TypeError, after st 1 0 0 [EFetch query])
      /\ article_content_opt (VJson data) = VUndefined).
Proof.
  intros Hd Hc. unfold Annotate.getArticle_try.
  rewrite bind_run, fetch_run.
  erewrite successful_reply_continues by exact Hd.
  assert (E : negb (truthy (article_content_opt (VJson data)))
              && (attempts <? 3) = false).
  { destruct Hc as [-> | Ha]; [reflexivity|].
    apply Nat.ltb_ge in Ha. rewrite Ha. apply andb_false_r. }
  rewrite E, bind_run.
  destruct (article_content_run (VJson data) (after st 1 0 0 [EFetch query]))
    as [-> | [-> Hu]]; [now left | right; now split].
Qed.

Hypothesis Hid : converts articleId = true.

Lemma annotate_getArticle_retry fuel attempts st :
  empty_success (reply_at (fetches st)) = true ->
  attempts < 3 ->
  Annotate.getArticle_fuel (S fuel) W o articleId attempts st
  = Annotate.getArticle_fuel fuel W o articleId (attempts + 1)
      (after st 1 0 0 (annotate_round o articleId attempts)).
Proof.
  intros H Ha.
  rewrite annotate_fuel_unfold by exact Hid.
  rewrite bind_run, try_catch_run, (@annotate_try_retry attempts st H Ha).
  rewrite bind_run. unfold setTimeout. rewrite emit_run, after_after.
  reflexivity.
Qed.

Lemma annotate_getArticle_final fuel attempts st :
  empty_success (reply_at (fetches st)) = false \/ 3 <= attempts ->
  exists v logs,
    Annotate.getArticle_fuel (S fuel) W o articleId attempts st
    = (Ret v, after st 1 0 0 (EFetch query :: logs))
    /\ forallb is_console logs = true
    /\ annotate_outcome (reply_at (fetches st)) v logs.
Proof.
  intros H.
  rewrite annotate_fuel_unfold by exact Hid.
  rewrite bind_run, try_catch_run.
  unfold annotate_outcome, empty_success in *.
  destruct (success_data (reply_at (fetches st))) as [data|] eqn:Hd.
  - assert (Hc : truthy (article_content_opt (VJson data)) = true
                 \/ 3 <= attempts).
    { destruct H as [H|H]; [left|now right]. now apply negb_false_iff. }
    destruct (@annotate_try_done attempts data st Hd Hc) as [-> | [-> Hu]].
    + eexists _, []. repeat split. now left.
    + eexists _, [_].
      rewrite bind_run. unfold console_error.
      rewrite emit_run, after_after. repeat split. right. now repeat split.
  - destruct (@annotate_try_failed attempts st Hd) as [e ->].
    eexists _, [_].
    rewrite bind_run. unfold console_error.
    rewrite emit_run, after_after. repeat split. now exists e.
Qed.

Lemma annotate_getArticle_rounds n :
  forall attempts st,
    attempts + n = 3 ->
    exists k v logs,
      k <= n
      /\ Annotate.getArticle_fuel (S n) W o articleId attempts st
         = (Ret v,
            after st (k + 1) 0 0
              (flat_map (annotate_round o articleId) (seq attempts k)
                 ++ EFetch query :: logs))
      /\ forallb is_console logs = true
      /\ annotate_outcome (reply_at (fetches st + k)) v logs
      /\ (forall i, i < k -> empty_success (reply_at (fetches st + i)) = true)
      /\ (k < n -> empty_success (reply_at (fetches st + k)) = false).
Proof.
  induction n as [|n IH]; intros attempts st Hn.
  - destruct (@annotate_getArticle_final 0 attempts st)
      as [v [logs [E [L O]]]]; [right; lia|].
    exists 0, v, logs. rewrite Nat.add_0_r.
    split; [lia|]. split; [exact E|]. split; [exact L|]. split; [exact O|].
    split; intros; lia.
  - destruct (empty_success (reply_at (fetches st))) eqn:He.
    + rewrite annotate_getArticle_retry by (auto; lia).
      destruct (IH (attempts + 1)
                  (after st 1 0 0 (annotate_round o articleId attempts)))
        as [k [v [logs [Hk [E [L [O [Hi Hl]]]]]]]]; [lia|].
      exists (S k), v, logs. rewrite E, after_after.
      rewrite fetches_after in O, Hi, Hl.
      split; [lia|]. split; [|split; [exact L|split; [|split]]].
      * f_equal.
        replace (attempts + 1) with (S attempts) by lia.
        cbn [seq flat_map]. rewrite <- app_assoc.
        f_equal; lia.
      * replace (fetches st + S k) with (fetches st + 1 + k) by lia. exact O.
      * intros [|i] Hlt; [now rewrite Nat.add_0_r|].
        replace (fetches st + S i) with (fetches st + 1 + i) by lia.
        apply Hi. lia.
      * intros Hlt. replace (fetches st + S k) with (fetches st + 1 + k) by lia.
        apply Hl. lia.
    + destruct (@annotate_getArticle_final (S n) attempts st)
        as [v [logs [E [L O]]]]; [now left|].
      exists 0, v, logs. rewrite Nat.add_0_r.
      split; [lia|]. split; [exact E|]. split; [exact L|]. split; [exact O|].
      split; [intros; lia|now intros _].
Qed.

End AnnotateGetArticle.


(** ** What a computation sends *)

Section Traced.

Variable P : event -> bool.
Hypothesis P_console : forall m, P (EConsoleError m) = true.
Hypothesis P_timeout : forall ms, P (ETimeout ms) = true.

Lemma traced_ret {A} (a : A) : traced P (ret a).
Proof. intros st. exists 0, []. cbn. now rewrite after_0. Qed.

Lemma traced_throw {A} e : traced P (@throw A e).
Proof. intros st. exists 0, []. cbn. now rewrite after_0. Qed.

Lemma traced_after {A} (m : M A) st du evs du' evs' :
  snd (m (after st (List.length (fetch_calls evs))
            (List.length (chat_calls evs)) du evs))
  = after (after st (List.length (fetch_calls evs))
             (List.length (chat_calls evs)) du evs)
      (List.length (fetch_calls evs')) (List.length (chat_calls evs'))
      du' evs' ->
  snd (m (after st (List.length (fetch_calls evs))
            (List.length (chat_calls evs)) du evs))
  = after st (List.length (fetch_calls (evs ++ evs')))
      (List.length (chat_calls (evs ++ evs'))) (du + du') (evs ++ evs').
Proof.
  intros ->. rewrite after_after, fetch_calls_app, chat_calls_app, !length_app.
  reflexivity.
Qed.

Lemma traced_bind {A B} (m : M A) (k : A -> M B) :
  traced P m -> (forall a, traced P (k a)) -> traced P (bind m k).
Proof.
  intros Hm Hk st. destruct (Hm st) as [du [evs [E F]]].
  rewrite bind_run. destruct (m st) as [[a|e|] st']; cbn [snd] in E; subst st'.
  - destruct (Hk a (after st (List.length (fetch_calls evs))
                      (List.length (chat_calls evs)) du evs))
      as [du' [evs' [E' F']]].
    exists (du + du'), (evs ++ evs'). split.
    + now apply traced_after.
    + now rewrite forallb_app, F, F'.
  - now exists du, evs.
  - now exists du, evs.
Qed.

(** The same, where the continuation is looked at only for the values
    that the first computation can return. *)
Lemma traced_bind_ret {A B} (m : M A) (k : A -> M B) :
  traced P m ->
  (forall a st st', m st = (Ret a, st') -> traced P (k a)) ->
  traced P (bind m k).
Proof.
  intros Hm Hk st. destruct (Hm st) as [du [evs [E F]]].
  rewrite bind_run.
  destruct (m st) as [[a|e|] st'] eqn:Em; cbn [snd] in E; subst st'.
  - destruct (Hk a _ _ Em (after st (List.length (fetch_calls evs))
                             (List.length (chat_calls evs)) du evs))
      as [du' [evs' [E' F']]].
    exists (du + du'), (evs ++ evs'). split.
    + now apply traced_after.
    + now rewrite forallb_app, F, F'.
  - now exists du, evs.
  - now exists du, evs.
Qed.

Lemma traced_try_catch {A} (body : M A) (handler : js_error -> M A) :
  traced P body -> (forall e, traced P (handler e)) ->
  traced P (try_catch body handler).
Proof.
  intros Hm Hk st. destruct (Hm st) as [du [evs [E F]]].
  rewrite try_catch_run.
  destruct (body st) as [[a|e|] st']; cbn [snd] in E; subst st'.
  - now exists du, evs.
  - destruct (Hk e (after st (List.length (fetch_calls evs))
                      (List.length (chat_calls evs)) du evs))
      as [du' [evs' [E' F']]].
    exists (du + du'), (evs ++ evs'). split.
    + now apply traced_after.
    + now rewrite forallb_app, F, F'.
  - now exists du, evs.
Qed.

Lemma traced_get v k : traced P (get v k).
Proof.
  intros st. rewrite get_run. exists 0, [].
  destruct (nullish v); cbn; now rewrite after_0.
Qed.

Lemma traced_console m : traced P (console_error m).
Proof.
  intros st. unfold console_error. rewrite emit_run.
  exists 0, [EConsoleError m]. cbn [forallb]. now rewrite P_console.
Qed.

Lemma traced_setTimeout ms : traced P (setTimeout ms).
Proof.
  intros st. unfold setTimeout. rewrite emit_run.
  exists 0, [ETimeout ms]. cbn [forallb]. now rewrite P_timeout.
Qed.

Lemma traced_fetch W r : P (EFetch r) = true -> traced P (fetch W r).
Proof.
  intros H st. rewrite fetch_run. exists 0, [EFetch r].
  cbn [forallb]. now rewrite H.
Qed.

Lemma traced_create W r : P (EChat r) = true -> traced P (create W r).
Proof.
  intros H st. rewrite create_run. exists 0, [EChat r].
  cbn [forallb]. now rewrite H.
Qed.

Lemma traced_uuidv4 W : traced P (uuidv4 W).
Proof. intros st. rewrite uuidv4_run. now exists 1, []. Qed.

Lemma traced_await_fetch reply : traced P (await_fetch reply).
Proof. destruct reply; [apply traced_throw|apply traced_ret]. Qed.

Lemma traced_response_json body : traced P (response_json body).
Proof. destruct body; [apply traced_ret|apply traced_throw]. Qed.

Lemma traced_mapM {A B} (f : A -> M B) l :
  (forall a, traced P (f a)) -> traced P (mapM f l).
Proof.
  intros H. induction l as [|a l IH]; [apply traced_ret|].
  cbn [mapM]. apply traced_bind; [apply H|]. intros b.
  apply traced_bind; [exact IH|]. intros bs. apply traced_ret.
Qed.

Lemma traced_template v : traced P (template v).
Proof.
  unfold template. destruct (converts v); [apply traced_ret|apply traced_throw].
Qed.

Lemma traced_graphql_error errors : traced P (graphql_error errors).
Proof.
  unfold graphql_error.
  destruct errors as [|[| | | |items|]|]; try apply traced_throw.
  apply traced_bind.
  - apply traced_mapM. intros a. apply traced_get.
  - intros msgs.
    destruct (forallb converts msgs); [apply traced_ret|apply traced_throw].
Qed.

Lemma traced_article_content data : traced P (article_content data).
Proof.
  unfold article_content.
  repeat (apply traced_bind; [apply traced_get|intros ?]).
  apply traced_get.
Qed.

Lemma traced_new_Omnivore W : traced P (new_Omnivore W).
Proof.
  unfold new_Omnivore.
  destruct (OMNIVORE_API_KEY W) as [[|c s]|];
    (apply traced_ret || apply traced_throw).
Qed.

Lemma traced_new_AI W : traced P (new_AI W).
Proof.
  unfold new_AI. destruct (new_OpenAI W); [apply traced_throw|apply traced_ret].
Qed.

(** The [try] block of [addAnnotation] sends its request and no other. *)
Lemma traced_addAnnotation_try W o query :
  P (EFetch (CreateHighlight (apiKey o) query)) = true ->
  traced P (addAnnotation_try W o query).
Proof.
  intros H. unfold addAnnotation_try.
  apply traced_bind; [now apply traced_fetch|]. intros reply.
  apply traced_bind; [apply traced_await_fetch|]. intros [status body].
  destruct (negb (response_ok status)).
  { apply traced_bind; [apply traced_console|]. intros _. apply traced_throw. }
  apply traced_bind; [apply traced_response_json|]. intros data.
  apply traced_bind; [apply traced_get|]. intros errors.
  destruct (truthy errors).
  - apply traced_bind; [apply traced_graphql_error|]. intros e.
    apply traced_bind; [apply traced_console|]. intros _. apply traced_throw.
  - apply traced_bind; [apply traced_get|]. intros d. apply traced_get.
Qed.

Lemma traced_summary_addAnnotation W o articleId annotation :
  (forall input, P (EFetch (CreateHighlight (apiKey o) input)) = true) ->
  traced P (Summary.addAnnotation W o articleId annotation).
Proof.
  intros H. unfold Summary.addAnnotation.
  apply traced_bind; [apply traced_uuidv4|]. intros id.
  apply traced_try_catch; [apply traced_addAnnotation_try, H|]. intros e.
  apply traced_bind; [apply traced_template|]. intros _.
  apply traced_bind; [apply traced_console|]. intros _. apply traced_ret.
Qed.

Lemma traced_annotate_addAnnotation W o articleId annotation :
  (forall input, P (EFetch (CreateHighlight (apiKey o) input)) = true) ->
  traced P (Annotate.addAnnotation W o articleId annotation).
Proof.
  intros H. unfold Annotate.addAnnotation.
  apply traced_bind; [apply traced_template|]. intros _.
  apply traced_bind; [apply traced_template|]. intros _.
  apply traced_bind; [apply traced_uuidv4|]. intros id.
  apply traced_try_catch; [apply traced_addAnnotation_try, H|]. intros e.
  apply traced_bind; [apply traced_template|]. intros _.
  apply traced_bind; [apply traced_console|]. intros _.
  apply traced_bind; [apply traced_template|]. intros _. apply traced_ret.
Qed.

Lemma traced_actions_addAnnotation W o articleId annotation id :
  (forall input, P (EFetch (CreateHighlight (apiKey o) input)) = true) ->
  traced P (Actions.addAnnotation W o articleId annotation id).
Proof.
  intros H. unfold Actions.addAnnotation.
  apply traced_bind.
  { unfold Actions.id_substring.
    destruct id as [|[| | |s| |]|]; (apply traced_ret || apply traced_throw). }
  intros ids.
  apply traced_try_catch; [apply traced_addAnnotation_try, H|]. intros e.
  apply traced_bind; [apply traced_template|]. intros _.
  apply traced_bind; [apply traced_console|]. intros _. apply traced_ret.
Qed.

Lemma traced_summary_getArticle_try W o articleId attempts :
  P (EFetch (ArticleQuery (apiKey o) articleId)) = true ->
  traced P (Summary.getArticle_try W o articleId attempts).
Proof.
  intros H. unfold Summary.getArticle_try.
  apply traced_bind; [now apply traced_fetch|]. intros reply.
  apply traced_bind; [apply traced_await_fetch|]. intros [status body].
  destruct (negb (response_ok status)); [apply traced_throw|].
  apply traced_bind; [apply traced_response_json|]. intros data.
  apply traced_bind; [apply traced_get|]. intros errors.
  destruct (truthy errors).
  { apply traced_bind; [apply traced_graphql_error|]. intros e.
    apply traced_throw. }
  destruct (negb (truthy (article_content_opt data)) && (attempts <? 3)).
  - apply traced_bind; [apply traced_console|]. intros _. apply traced_ret.
  - apply traced_bind; [apply traced_article_content|]. intros c.
    apply traced_ret.
Qed.

Lemma traced_annotate_getArticle_try W o articleId attempts :
  P (EFetch (ArticleQuery (apiKey o) articleId)) = true ->
  traced P (Annotate.getArticle_try W o articleId attempts).
Proof.
  intros H. unfold Annotate.getArticle_try.
  apply traced_bind; [now apply traced_fetch|]. intros reply.
  apply traced_bind; [apply traced_await_fetch|]. intros [status body].
  destruct (negb (response_ok status)); [apply traced_throw|].
  apply traced_bind; [apply traced_response_json|]. intros data.
  apply traced_bind; [apply traced_get|]. intros errors.
  destruct (truthy errors).
  { apply traced_bind; [apply traced_graphql_error|]. intros e.
    apply traced_throw. }
  destruct (negb (truthy (article_content_opt data)) && (attempts <? 3)).
  - apply traced_ret.
  - apply traced_bind; [apply traced_article_content|]. intros c.
    apply traced_ret.
Qed.

Lemma traced_diverge {A} : traced P (fun st => (@Diverge A, st)).
Proof. intros st. exists 0, []. cbn. now rewrite after_0. Qed.

Lemma traced_summary_getArticle_fuel W o articleId fuel :
  P (EFetch (ArticleQuery (apiKey o) articleId)) = true ->
  forall attempts,
    traced P (Summary.getArticle_fuel fuel W o articleId attempts).
Proof.
  intros H. induction fuel as [|fuel IH]; intros attempts.
  - apply traced_diverge.
  - cbn [Summary.getArticle_fuel].
    apply traced_bind; [apply traced_template|]. intros _.
    apply traced_bind.
    + apply traced_try_catch; [now apply traced_summary_getArticle_try|].
      intros e. apply traced_bind; [apply traced_console|]. intros _.
      apply traced_ret.
    + intros [v|delay]; [apply traced_ret|].
      apply traced_bind; [apply traced_setTimeout|]. intros _. apply IH.
Qed.

Lemma traced_annotate_getArticle_fuel W o articleId fuel :
  P (EFetch (ArticleQuery (apiKey o) articleId)) = true ->
  forall attempts,
    traced P (Annotate.getArticle_fuel fuel W o articleId attempts).
Proof.
  intros H. induction fuel as [|fuel IH]; intros attempts.
  - apply traced_diverge.
  - cbn [Annotate.getArticle_fuel].
    apply traced_bind; [apply traced_template|]. intros _.
    apply traced_bind.
    + apply traced_try_catch; [now apply traced_annotate_getArticle_try|].
      intros e. apply traced_bind; [apply traced_console|]. intros _.
      apply traced_ret.
    + intros [v|delay]; [apply traced_ret|].
      apply traced_bind; [apply traced_setTimeout|]. intros _. apply IH.
Qed.

Hypothesis P_next : forall url payload, P (EFetch (NextStage url payload)) = true.

Lemma traced_summary_handler W req :
  holds_for_store P W -> traced P (Summary.handler W req).
Proof.
  intros H. unfold Summary.handler.
  apply traced_bind.
  { apply traced_try_catch; [apply traced_response_json|]. intros e.
    apply traced_bind; [apply traced_console|]. intros _. apply traced_ret. }
  intros body.
  apply traced_bind; [apply traced_get|]. intros pageCreated.
  apply traced_bind; [apply traced_get|]. intros articleId.
  apply traced_bind_ret; [apply traced_new_Omnivore|]. intros o st st' Eo.
  destruct (H o st st' Eo) as [Hq Hc].
  apply traced_bind; [apply traced_summary_getArticle_fuel, Hq|].
  intros article.
  apply traced_bind; [apply traced_new_AI|]. intros ai. cbv zeta.
  apply traced_bind; [now apply traced_summary_addAnnotation|].
  intros response.
  apply traced_bind; [apply traced_fetch, P_next|]. intros reply.
  apply traced_bind; [apply traced_await_fetch|]. intros _.
  do 3 (apply traced_bind; [now apply traced_summary_addAnnotation|];
        intros _).
  apply traced_ret.
Qed.

Lemma traced_actions_handler W req :
  holds_for_store P W -> traced P (Actions.handler W req).
Proof.
  intros H. unfold Actions.handler.
  apply traced_bind.
  { apply traced_try_catch; [apply traced_response_json|]. intros e.
    apply traced_bind; [apply traced_console|]. intros _. apply traced_ret. }
  intros body.
  do 4 (apply traced_bind; [apply traced_get|]; intros ?).
  apply traced_bind_ret; [apply traced_new_Omnivore|]. intros o st st' Eo.
  destruct (H o st st' Eo) as [Hq Hc].
  apply traced_bind; [apply traced_new_AI|]. intros ai.
  apply traced_bind; [now apply traced_actions_addAnnotation|].
  intros response.
  apply traced_bind; [apply traced_fetch, P_next|]. intros reply.
  apply traced_bind; [apply traced_await_fetch|]. intros _.
  apply traced_ret.
Qed.

Hypothesis P_chat : forall r, P (EChat r) = true.

Lemma traced_annotate_start W ai prompt articleContent :
  traced P (Annotate.getCompletion_start W ai prompt articleContent).
Proof.
  unfold Annotate.getCompletion_start.
  destruct (negb (truthy prompt) || negb (truthy articleContent));
    [apply traced_ret|].
  apply traced_try_catch.
  - apply traced_bind.
    { unfold parse_settings.
      destruct (JSON_parse W (settings ai)); [apply traced_ret|apply traced_throw]. }
    intros params.
    apply traced_bind; [apply traced_create, P_chat|]. intros o.
    apply traced_ret.
  - intros e. apply traced_bind; [|intros; apply traced_ret].
    unfold Annotate.getCompletion_catch.
    apply traced_bind; [apply traced_console|]. intros _. apply traced_ret.
Qed.

Lemma traced_annotate_finish p : traced P (Annotate.getCompletion_finish p).
Proof.
  destruct p as [r|o]; cbn [Annotate.getCompletion_finish];
    [apply traced_ret|].
  apply traced_try_catch.
  - apply traced_bind.
    { destruct o; [apply traced_throw|apply traced_ret]. }
    intros choices. apply traced_bind; [|intros; apply traced_ret].
    intros st. rewrite completion_text_run. exists 0, [].
    cbn [snd]. now rewrite after_0.
  - intros e. unfold Annotate.getCompletion_catch.
    apply traced_bind; [apply traced_console|]. intros _. apply traced_ret.
Qed.

Lemma traced_annotate_getBest W ai prompt completions articleContent :
  traced P
    (Annotate.getBestCompletionOutOf W ai prompt completions articleContent).
Proof.
  unfold Annotate.getBestCompletionOutOf.
  destruct (_ || _); [apply traced_throw|].
  apply traced_bind.
  { apply traced_mapM. intros _. apply traced_annotate_start. }
  intros ps. apply traced_bind.
  { apply traced_mapM. intros p. apply traced_annotate_finish. }
  intros rs. unfold Annotate.getCompletion.
  apply traced_bind; [apply traced_annotate_start|]. intros p.
  apply traced_annotate_finish.
Qed.

Lemma traced_annotate_handler W req :
  holds_for_store P W -> traced P (Annotate.handler W req).
Proof.
  intros H. unfold Annotate.handler.
  apply traced_bind.
  { apply traced_try_catch.
    - apply traced_bind; [apply traced_response_json|]. intros b.
      apply traced_ret.
    - intros e. apply traced_bind; [apply traced_console|]. intros _.
      apply traced_ret. }
  intros [body|response]; [|apply traced_ret].
  apply traced_bind; [apply traced_get|]. intros pageCreated.
  apply traced_bind; [apply traced_get|]. intros articleId.
  apply traced_bind; [apply traced_template|]. intros _.
  apply traced_bind_ret; [apply traced_new_Omnivore|]. intros o st st' Eo.
  destruct (H o st st' Eo) as [Hq Hc].
  apply traced_bind; [apply traced_annotate_getArticle_fuel, Hq|].
  intros article.
  apply traced_bind; [apply traced_template|]. intros _.
  apply traced_bind; [apply traced_new_AI|]. intros ai.
  apply traced_bind; [apply traced_annotate_getBest|]. intros annotation.
  apply traced_bind; [now apply traced_annotate_addAnnotation|].
  intros response.
  apply traced_bind; [apply traced_template|]. intros _. apply traced_ret.
Qed.

End Traced.

(** ** What the handlers send *)

Lemma not_chat_calls evs : forallb not_chat evs = true -> chat_calls evs = [].
Proof.
  induction evs as [|e evs IH]; [reflexivity|]. cbn [forallb].
  intros H. apply andb_prop in H. destruct H as [He H].
  destruct e; try discriminate; now apply IH.
Qed.

Lemma jsstring_eqb_eq s t : jsstring_eqb s t = true -> s = t.
Proof.
  revert t. induction s as [|c s IH]; intros [|d t] H; try discriminate;
    [reflexivity|].
  cbn [jsstring_eqb] in H. apply andb_prop in H. destruct H as [Hc H].
  apply N.eqb_eq in Hc. subst d. f_equal. now apply IH.
Qed.

Lemma jsstring_eqb_refl s : jsstring_eqb s s = true.
Proof.
  induction s as [|c s IH]; [reflexivity|].
  cbn [jsstring_eqb]. now rewrite N.eqb_refl, IH.
Qed.

Lemma in_fetch_calls r evs : In r (fetch_calls evs) -> In (EFetch r) evs.
Proof.
  induction evs as [|e evs IH]; [contradiction|].
  cbn [fetch_calls flat_map]. fold (fetch_calls evs). intros H.
  apply in_app_or in H. destruct H as [H|H]; [|right; now apply IH].
  destruct e; try contradiction. destruct H as [<-|[]]. now left.
Qed.

Lemma holds_for_store_not_chat W : holds_for_store not_chat W.
Proof. intros o st st' _. now split. Qed.

Lemma holds_for_store_keyed W : holds_for_store (keyed (store_key W)) W.
Proof.
  intros o st st' E. unfold new_Omnivore, store_key in *.
  destruct (OMNIVORE_API_KEY W) as [[|c s]|]; try discriminate.
  injection E as <- _. cbn [keyed authorization_of apiKey].
  split; intros; apply jsstring_eqb_refl.
Qed.

(** X8. The handlers of summary.js and actions.js build the [AI] object
    and never use it: whatever the request and whatever the world, no
    run of either sends anything to the provider. *)
Theorem stages_never_call_the_provider (W : world) (req : option json)
    (st : state) :
  (exists du evs,
     snd (Summary.handler W req st)
     = after st (List.length (fetch_calls evs)) 0 du evs
     /\ chat_calls evs = [])
  /\ (exists du evs,
        snd (Actions.handler W req st)
        = after st (List.length (fetch_calls evs)) 0 du evs
        /\ chat_calls evs = []).
Proof.
  split.
  - destruct (@traced_summary_handler not_chat (fun _ => eq_refl)
                (fun _ => eq_refl) (fun _ _ => eq_refl) W req
                (holds_for_store_not_chat W) st) as [du [evs [E F]]].
    exists du, evs. apply not_chat_calls in F. rewrite F in E. now split.
  - destruct (@traced_actions_handler not_chat (fun _ => eq_refl)
                (fun _ _ => eq_refl) W req
                (holds_for_store_not_chat W) st) as [du [evs [E F]]].
    exists du, evs. apply not_chat_calls in F. rewrite F in E. now split.
Qed.

Lemma keyed_requests W evs :
  forallb (keyed (store_key W)) evs = true ->
  forall r k,
    In r (fetch_calls evs) -> authorization_of r = Some k ->
    OMNIVORE_API_KEY W = Some k /\ k <> [].
Proof.
  intros F r k Hr Hk. apply in_fetch_calls in Hr.
  rewrite forallb_forall in F. specialize (F _ Hr).
  cbn [keyed] in F. rewrite Hk in F. unfold store_key in F.
  destruct (OMNIVORE_API_KEY W) as [[|c s]|]; try discriminate.
  apply jsstring_eqb_eq in F. subst k. split; [reflexivity|discriminate].
Qed.

(** X9. Every request that a run of a handler sends to the store, in
    any of the three files, carries as [Authorization] header the
    non-empty value of [OMNIVORE_API_KEY]; when the variable is unset or
    empty, no request goes to the store. All the requests made are in
    the trace. *)
Theorem store_requests_carry_the_key (W : world) (req : option json)
    (st : state) :
  let keyed_run (st' : state) :=
    exists evs,
      trace st' = trace st ++ evs
      /\ fetches st' = fetches st + List.length (fetch_calls evs)
      /\ forall r k,
           In r (fetch_calls evs) -> authorization_of r = Some k ->
           OMNIVORE_API_KEY W = Some k /\ k <> [] in
  keyed_run (snd (Summary.handler W req st))
  /\ keyed_run (snd (Actions.handler W req st))
  /\ keyed_run (snd (Annotate.handler W req st)).
Proof.
  cbv zeta. split; [|split].
  - destruct (@traced_summary_handler (keyed (store_key W))
                (fun _ => eq_refl) (fun _ => eq_refl) (fun _ _ => eq_refl)
                W req (holds_for_store_keyed W) st) as [du [evs [E F]]].
    exists evs. rewrite E. split; [reflexivity|]. split; [reflexivity|].
    exact (@keyed_requests W evs F).
  - destruct (@traced_actions_handler (keyed (store_key W))
                (fun _ => eq_refl) (fun _ _ => eq_refl)
                W req (holds_for_store_keyed W) st) as [du [evs [E F]]].
    exists evs. rewrite E. split; [reflexivity|]. split; [reflexivity|].
    exact (@keyed_requests W evs F).
  - destruct (@traced_annotate_handler (keyed (store_key W))
                (fun _ => eq_refl) (fun _ => eq_refl)
                (fun _ => eq_refl) W req (holds_for_store_keyed W) st)
      as [du [evs [E F]]].
    exists evs. rewrite E. split; [reflexivity|]. split; [reflexivity|].
    exact (@keyed_requests W evs F).
Qed.

(** ** Stage 1, step by step *)

Lemma posts_console logs : forallb is_console logs = true -> posts logs = [].
Proof.
  intros L. unfold posts. destruct (console_only logs L) as [-> _].
  reflexivity.
Qed.

Lemma posts_append evs evs' : posts (evs ++ evs') = posts evs ++ posts evs'.
Proof. apply posts_app. Qed.

Lemma key_omnivore W key st :
  store_key W = Some key -> new_Omnivore W st = (Ret {| apiKey := key |}, st).
Proof.
  intros Hk. unfold store_key in Hk. unfold new_Omnivore.
  destruct (OMNIVORE_API_KEY W) as [[|c s]|]; try discriminate.
  now inversion Hk.
Qed.

Lemma configured_omnivore W key st :
  configured W key -> new_Omnivore W st = (Ret {| apiKey := key |}, st).
Proof. intros [Hk _]. now apply key_omnivore. Qed.

Lemma configured_ai W key st :
  configured W key -> new_AI W st = (Ret (the_ai W), st).
Proof. intros [_ Hn]. unfold new_AI. now rewrite Hn. Qed.

(** The start of the handlers of summary.js and annotate.js on a body in
    which [body.page.id] can be read. *)
Lemma read_page {A} (k : jsval -> M A) body st :
  readable_page body = true ->
  (pageCreated <- get (VJson body) (str "page") ;;
   articleId <- get pageCreated (str "id") ;;
   k articleId) st
  = k (page_id body) st.
Proof.
  unfold readable_page. intros H. apply andb_prop in H.
  destruct H as [H1 H2]. apply negb_true_iff in H1, H2.
  now rewrite bind_run, get_run, H1, bind_run, get_run, H2.
Qed.

Lemma retry_rounds_requests o articleId l :
  fetch_calls (flat_map (retry_round o articleId) l)
  = repeat (ArticleQuery (apiKey o) articleId) (List.length l).
Proof.
  induction l as [|i l IH]; [reflexivity|].
  cbn [flat_map List.length repeat retry_round app fetch_calls].
  f_equal. exact IH.
Qed.

Lemma summary_handler_run W body key st :
  readable_page body = true ->
  configured W key ->
  converts (page_id body) = true ->
  exists k evs0 r1 logs1 logs2 logs3 logs4,
    let id := page_id body in
    let article :=
      last_content (fetch_reply W (fetches st + k) (ArticleQuery key id)) in
    let next :=
      NextStage Summary.NEXT_STAGE_URL
        {| ho_articleId := id;
           ho_article := article;
           ho_articleAnnotation := [];
           ho_id := None |} in
    let sent :=
      evs0
        ++ EFetch (CreateHighlight key
                     (note_with (uuid W (uuids st)) id
                        (VStr (str "En summering av artikeln"))))
        :: logs1 ++ [EFetch next] in
    k <= 3
    /\ posts evs0 = []
    /\ fetch_calls evs0 = repeat (ArticleQuery key id) (k + 1)
    /\ forallb is_console logs1 = true
    /\ forallb is_console logs2 = true
    /\ forallb is_console logs3 = true
    /\ forallb is_console logs4 = true
    /\ Summary.handler W (Some body) st
       = match fetch_reply W (fetches st + (k + 2)) next with
         | FetchRejected e => (Throw e, after st (k + 3) 0 1 sent)
         | FetchResponse _ _ =>
             (Ret {| resp_body := JsonBody r1; resp_status := 200 |},
              after st (k + 6) 0 4
                (sent
                   ++ EFetch (CreateHighlight key
                                (note_with (uuid W (uuids st + 1)) id
                                   (VStr (str "test 2"))))
                   :: logs2
                   ++ EFetch (CreateHighlight key
                                (note_with (uuid W (uuids st + 2)) id
                                   (VStr (str "test 3"))))
                   :: logs3
                   ++ EFetch (CreateHighlight key
                                (note_with (uuid W (uuids st + 3)) id
                                   (VStr (str "test 4"))))
                   :: logs4))
         end.
Proof.
  intros Hb Hc Hid. unfold Summary.handler.
  rewrite bind_run, try_catch_run. cbn [response_json]. unfold ret at 1.
  cbv beta iota. rewrite (read_page _ _ _ Hb).
  rewrite bind_run, (configured_omnivore st Hc). cbv beta iota.
  rewrite bind_run.
  destruct (@summary_getArticle_rounds W {| apiKey := key |} (page_id body)
              Hid 3 0 st eq_refl) as [k [logs0 [Hk [E [L0 _]]]]].
  unfold Summary.getArticle. cbn [Nat.sub]. rewrite E. cbv beta iota.
  cbn [apiKey] in *.
  set (evs0 := flat_map (retry_round {| apiKey := key |} (page_id body))
                 (seq 0 k)
                 ++ EFetch (ArticleQuery key (page_id body)) :: logs0) in *.
  rewrite bind_run, (configured_ai _ Hc). cbv beta iota zeta.
  rewrite bind_run.
  match goal with |- context [Summary.addAnnotation W ?o ?i ?a ?s] =>
    destruct (summary_addAnnotation_run W o i a s Hid)
      as [r1 [logs1 [E1 [L1 _]]]]
  end.
  rewrite E1, uuids_after, Nat.add_0_r. cbv beta iota. cbn [apiKey].
  rewrite after_after.
  replace (k + 1 + 1) with (k + 2) by lia. cbn [Nat.add].
  rewrite bind_run, fetch_run, fetches_after, bind_run.
  match goal with |- context [after ?a 1 0 0 [EFetch ?n]] =>
    set (s3 := after a 1 0 0 [EFetch n])
  end.
  destruct (summary_addAnnotation_run W {| apiKey := key |} (page_id body)
              (VStr (str "test 2")) s3 Hid) as [r2 [logs2 [E2 [L2 _]]]].
  match type of E2 with _ = (_, ?s) => set (s4 := s) in * end.
  destruct (summary_addAnnotation_run W {| apiKey := key |} (page_id body)
              (VStr (str "test 3")) s4 Hid) as [r3 [logs3 [E3 [L3 _]]]].
  match type of E3 with _ = (_, ?s) => set (s5 := s) in * end.
  destruct (summary_addAnnotation_run W {| apiKey := key |} (page_id body)
              (VStr (str "test 4")) s5 Hid) as [r4 [logs4 [E4 [L4 _]]]].
  exists k, evs0, r1, logs1, logs2, logs3, logs4.
  cbv zeta.
  split; [exact Hk|]. split.
  { unfold evs0. rewrite posts_append.
    replace (posts (flat_map (retry_round {| apiKey := key |} (page_id body))
                      (seq 0 k))) with (@nil fetch_request)
      by (clear; induction (seq 0 k) as [|i l IH]; [reflexivity|exact IH]).
    unfold posts. cbn [fetch_calls flat_map app filter is_create_highlight].
    fold (fetch_calls logs0). fold (posts logs0). now apply posts_console. }
  split.
  { unfold evs0. destruct (console_only logs0 L0) as [Lf _].
    rewrite fetch_calls_app, retry_rounds_requests, length_seq.
    cbn [fetch_calls flat_map app apiKey].
    fold (fetch_calls logs0). rewrite Lf.
    now rewrite repeat_app. }
  split; [exact L1|]. split; [exact L2|]. split; [exact L3|].
  split; [exact L4|].
  destruct (fetch_reply W (fetches st + (k + 2)) _) as [e|status b].
  - cbn [await_fetch]. unfold throw, s3.
    rewrite after_after. f_equal. f_equal; [lia|].
    now rewrite <- app_assoc.
  - cbn [await_fetch]. unfold ret at 1. cbv beta iota.
    rewrite bind_run, E2. cbv beta iota.
    rewrite bind_run, E3. cbv beta iota.
    rewrite bind_run, E4. cbv beta iota.
    unfold ret, s5, s4, s3.
    rewrite !uuids_after, !after_after. cbn [apiKey Nat.add].
    f_equal. f_equal; try lia.
    + rewrite <- !app_assoc. cbn [app]. rewrite <- !app_assoc. cbn [app].
      replace (uuids st + 1 + 0) with (uuids st + 1) by lia.
      replace (uuids st + 1 + 1) with (uuids st + 2) by lia.
      replace (uuids st + 2 + 1) with (uuids st + 3) by lia.
      reflexivity.
Qed.

Lemma fetch_calls_fetch r evs :
  fetch_calls (EFetch r :: evs) = r :: fetch_calls evs.
Proof. reflexivity. Qed.

Lemma fetch_calls_logs logs evs :
  forallb is_console logs = true ->
  fetch_calls (logs ++ evs) = fetch_calls evs.
Proof.
  intros L. destruct (console_only logs L) as [F _].
  now rewrite fetch_calls_app, F.
Qed.

(** X10. Stage 1 on a body in which [body.page.id] can be read, the API
    key being set and the OpenAI client starting. If the id does not
    convert to a string, the handler raises a [TypeError] with nothing
    sent. Otherwise, whatever the store answers, the handler asks for
    the article (one to four requests), posts the highlight "En
    summering av artikeln" and sends the content of the last reply to
    the next stage. When that request is rejected the handler raises its
    error, and the highlight already posted stays. When it gets a
    response, of whatever status, the handler posts the three other
    highlights and answers with status 200. Each highlight takes the
    next value of the id generator. *)
Theorem summary_handler_outcome (W : world) (body : json) (key : jsstring)
    (st : state) :
  readable_page body = true ->
  configured W key ->
  let run := Summary.handler W (Some body) st in
  let id := page_id body in
  let post i text :=
    CreateHighlight key
      (note_with (uuid W (uuids st + i)) id (VStr (str text))) in
  if converts id
  then
    exists k evs,
      let next :=
        NextStage Summary.NEXT_STAGE_URL
          {| ho_articleId := id;
             ho_article :=
               last_content
                 (fetch_reply W (fetches st + k) (ArticleQuery key id));
             ho_articleAnnotation := [];
             ho_id := None |} in
      k <= 3
      /\ snd run
         = after st (List.length (fetch_calls evs)) 0
             (List.length (posts evs)) evs
      /\ match fetch_reply W (fetches st + (k + 2)) next with
         | FetchRejected e =>
             fst run = Throw e
             /\ fetch_calls evs
                = repeat (ArticleQuery key id) (k + 1)
                  ++ [post 0 "En summering av artikeln"%string; next]
         | FetchResponse _ _ =>
             (exists r,
                fst run
                = Ret {| resp_body := JsonBody r; resp_status := 200 |})
             /\ fetch_calls evs
                = repeat (ArticleQuery key id) (k + 1)
                  ++ [post 0 "En summering av artikeln"%string; next;
                      post 1 "test 2"%string; post 2 "test 3"%string;
                      post 3 "test 4"%string]
         end
  else run = (Throw TypeError, st).
Proof.
  intros Hb Hc run id post.
  destruct (converts id) eqn:Hid.
  2:{ unfold run, Summary.handler.
      rewrite bind_run, try_catch_run. cbn [response_json]. unfold ret at 1.
      cbv beta iota. rewrite (read_page _ _ _ Hb).
      rewrite bind_run, (configured_omnivore st Hc). cbv beta iota.
      rewrite bind_run. unfold Summary.getArticle.
      now rewrite (@summary_getArticle_unconverted W _ _ _ _ st Hid). }
  destruct (summary_handler_run body st Hb Hc Hid)
    as [k [evs0 [r1 [logs1 [logs2 [logs3 [logs4
         [Hk [P0 [F0 [L1 [L2 [L3 [L4 E]]]]]]]]]]]]]].
  cbv zeta in E. fold id in E, F0.
  destruct (console_only logs4 L4) as [F4 _].
  unfold post. rewrite Nat.add_0_r.
  match type of E with
  | context [match ?r with FetchRejected _ => _ | FetchResponse _ _ => _ end] =>
      destruct r as [e|status b] eqn:R
  end.
  - exists k. eexists. cbv zeta. split; [exact Hk|].
    unfold run. rewrite E, R.
    cbv beta iota delta [fst snd].
    match goal with |- after _ _ _ _ ?l = _ /\ _ =>
      assert (F : fetch_calls l
                  = repeat (ArticleQuery key id) (k + 1)
                    ++ [CreateHighlight key
                          (note_with (uuid W (uuids st)) id
                             (VStr (str "En summering av artikeln")));
                        NextStage Summary.NEXT_STAGE_URL
                          {| ho_articleId := id;
                             ho_article :=
                               last_content
                                 (fetch_reply W (fetches st + k)
                                    (ArticleQuery key id));
                             ho_articleAnnotation := [];
                             ho_id := None |}])
    end.
    { rewrite fetch_calls_app, F0. f_equal.
      rewrite !fetch_calls_fetch, (@fetch_calls_logs logs1 _ L1).
      reflexivity. }
    split; [|split; [reflexivity|exact F]].
    unfold posts. rewrite F, filter_app.
    replace (filter is_create_highlight (repeat (ArticleQuery key id) (k + 1)))
      with (@nil fetch_request)
      by (clear; induction (k + 1) as [|n IH]; [reflexivity|exact IH]).
    rewrite length_app, repeat_length.
    cbn [filter is_create_highlight List.length app Nat.add].
    f_equal; lia.
  - exists k. eexists. cbv zeta. split; [exact Hk|].
    unfold run. rewrite E, R.
    cbv beta iota delta [fst snd].
    match goal with |- after _ _ _ _ ?l = _ /\ _ =>
      assert (F : fetch_calls l
                  = repeat (ArticleQuery key id) (k + 1)
                    ++ [CreateHighlight key
                          (note_with (uuid W (uuids st)) id
                             (VStr (str "En summering av artikeln")));
                        NextStage Summary.NEXT_STAGE_URL
                          {| ho_articleId := id;
                             ho_article :=
                               last_content
                                 (fetch_reply W (fetches st + k)
                                    (ArticleQuery key id));
                             ho_articleAnnotation := [];
                             ho_id := None |};
                        CreateHighlight key
                          (note_with (uuid W (uuids st + 1)) id
                             (VStr (str "test 2")));
                        CreateHighlight key
                          (note_with (uuid W (uuids st + 2)) id
                             (VStr (str "test 3")));
                        CreateHighlight key
                          (note_with (uuid W (uuids st + 3)) id
                             (VStr (str "test 4")))])
    end.
    { rewrite <- !app_assoc. cbn [app]. rewrite <- !app_assoc. cbn [app].
      rewrite fetch_calls_app, F0. f_equal.
      rewrite !fetch_calls_fetch, (@fetch_calls_logs logs1 _ L1).
      rewrite !fetch_calls_fetch, (@fetch_calls_logs logs2 _ L2).
      rewrite !fetch_calls_fetch, (@fetch_calls_logs logs3 _ L3).
      rewrite !fetch_calls_fetch, F4. reflexivity. }
    split; [|split; [eexists; reflexivity|exact F]].
    unfold posts. rewrite F, filter_app.
    replace (filter is_create_highlight (repeat (ArticleQuery key id) (k + 1)))
      with (@nil fetch_request)
      by (clear; induction (k + 1) as [|n IH]; [reflexivity|exact IH]).
    rewrite length_app, repeat_length.
    cbn [filter is_create_highlight List.length app Nat.add].
    f_equal; lia.
Qed.

Lemma summary_handler_outcome_witness :
  exists k evs,
    k <= 3
    /\ snd (Summary.handler
              (scripted [article_reply (article_with (str "some text"));
                         highlight_reply] [])
              (Some (page_created (str "abc123"))) initial)
       = after initial (List.length (fetch_calls evs)) 0
           (List.length (posts evs)) evs.
Proof.
  destruct (@summary_handler_outcome
              (scripted [article_reply (article_with (str "some text"));
                         highlight_reply] [])
              (page_created (str "abc123")) (str "api-key") initial
              eq_refl (conj eq_refl eq_refl))
    as [k [evs [Hk [E _]]]].
  exists k, evs. exact (conj Hk E).
Defined.

(** The same on an id whose conversion throws. *)
Example summary_handler_unconverted_id :
  Summary.handler
    (scripted [article_reply (article_with (str "some text"));
               highlight_reply; FetchResponse 200 None;
               highlight_reply; highlight_reply; highlight_reply] [])
    (Some (JObj [(str "page",
                  JObj [(str "id",
                         JObj [(str "toString", JNum (QArith_base.inject_Z 1))])])]))
    initial
  = (Throw TypeError, initial).
Proof. reflexivity. Qed.

(** ** What the handlers need *)

Lemma no_key_omnivore W st :
  store_key W = None -> new_Omnivore W st = (Throw ApiKeyError, st).
Proof.
  unfold store_key, new_Omnivore.
  destruct (OMNIVORE_API_KEY W) as [[|c s]|]; try discriminate; reflexivity.
Qed.

Lemma unreadable_page {A} (k : jsval -> M A) body st :
  nullish (VJson body) = false ->
  readable_page body = false ->
  (pageCreated <- get (VJson body) (str "page") ;;
   articleId <- get pageCreated (str "id") ;;
   k articleId) st
  = (Throw TypeError, st).
Proof.
  unfold readable_page. intros H1 H2. rewrite H1 in H2. cbn [negb andb] in H2.
  apply negb_false_iff in H2.
  now rewrite bind_run, get_run, H1, bind_run, get_run, H2.
Qed.

(** X11. The API key of the store is looked up after the body has been
    read and before anything is sent. Without the key (unset or empty),
    on a body that is not [null], each of the three handlers raises
    with nothing sent and no error printed: stage 2 the error of the
    missing key; stage 1 that error when [body.page.id] can be read, and
    the [TypeError] of that read otherwise; annotate.js, which prints
    the id before it looks the key up, that error when [body.page.id]
    can be read and converts to a string, and a [TypeError] otherwise. *)
Theorem handlers_need_the_key (W : world) (body : json) (st : state) :
  store_key W = None ->
  nullish (VJson body) = false ->
  let e := if readable_page body then ApiKeyError else TypeError in
  let e' :=
    if readable_page body && converts (page_id body) then ApiKeyError
    else TypeError in
  Summary.handler W (Some body) st = (Throw e, st)
  /\ Annotate.handler W (Some body) st = (Throw e', st)
  /\ Actions.handler W (Some body) st = (Throw ApiKeyError, st).
Proof.
  intros Hk Hn e e'. split; [|split].
  - unfold Summary.handler. rewrite bind_run, try_catch_run.
    cbn [response_json]. unfold ret at 1. cbv beta iota.
    unfold e. destruct (readable_page body) eqn:Hb.
    + rewrite (read_page _ _ _ Hb), bind_run, (@no_key_omnivore W _ Hk).
      reflexivity.
    + now rewrite (@unreadable_page _ _ body _ Hn Hb).
  - unfold Annotate.handler. rewrite bind_run, try_catch_run, bind_run.
    cbn [response_json]. unfold ret at 1 2. cbv beta iota.
    unfold e'. destruct (readable_page body) eqn:Hb; cbn [andb].
    + rewrite (read_page _ _ _ Hb), bind_run, template_run.
      destruct (converts (page_id body)); [|reflexivity].
      now rewrite bind_run, (@no_key_omnivore W _ Hk).
    + now rewrite (@unreadable_page _ _ body _ Hn Hb).
  - unfold Actions.handler. rewrite bind_run, try_catch_run.
    cbn [response_json]. unfold ret at 1. cbv beta iota.
    do 4 (rewrite bind_run, get_run, Hn).
    now rewrite bind_run, (@no_key_omnivore W _ Hk).
Qed.

Lemma handlers_need_the_key_witness :
  let W := {| OMNIVORE_API_KEY := Some [];
              OPENAI_MODEL := None;
              OPENAI_SETTINGS := None;
              OPENAI_PROMPT := Some (str "Summarize");
              new_OpenAI := None;
              JSON_parse := fun _ => None;
              fetch_reply := fun _ _ => highlight_reply;
              chat_reply := fun _ _ => text_reply (str "A");
              uuid := fun _ => str "110ec58a-a0f2-4ac4-8393-c866d813b8d1" |} in
  Summary.handler W (Some (page_created (str "abc123"))) initial
  = (Throw ApiKeyError, initial)
  /\ Annotate.handler W (Some (page_created (str "abc123"))) initial
     = (Throw ApiKeyError, initial)
  /\ Actions.handler W (Some (page_created (str "abc123"))) initial
     = (Throw ApiKeyError, initial).
Proof.
  intros W.
  exact (@handlers_need_the_key W (page_created (str "abc123")) initial
           eq_refl eq_refl).
Defined.

Lemma annotate_rounds_requests o articleId l :
  fetch_calls (flat_map (annotate_round o articleId) l)
  = repeat (ArticleQuery (apiKey o) articleId) (List.length l).
Proof.
  induction l as [|i l IH]; [reflexivity|].
  cbn [flat_map List.length repeat annotate_round app fetch_calls].
  f_equal. exact IH.
Qed.

Lemma no_client W e st :
  new_OpenAI W = Some e -> new_AI W st = (Throw e, st).
Proof. intros H. unfold new_AI. now rewrite H. Qed.

(** X12. The OpenAI client is built after the article has been asked
    for. When its construction fails, the API key being set and
    [body.page.id] readable, stage 2 raises the error of the constructor
    with nothing sent. Stage 1 and annotate.js, for an id that converts
    to a string, have already made their one to four requests for the
    article, and waited between them, when they raise; nothing else is
    sent. Stage 1 raises the error of the constructor; annotate.js,
    which prints the article first, raises it when the article converts
    to a string and a [TypeError] otherwise. For an id that does not
    convert, both raise a [TypeError] with nothing sent. *)
Theorem handlers_need_the_client (W : world) (body : json) (key : jsstring)
    (e : js_error) (st : state) :
  store_key W = Some key ->
  new_OpenAI W = Some e ->
  readable_page body = true ->
  let id := page_id body in
  Actions.handler W (Some body) st = (Throw e, st)
  /\ if converts id
     then
       (exists k evs,
          k <= 3
          /\ Summary.handler W (Some body) st
             = (Throw e, after st (k + 1) 0 0 evs)
          /\ fetch_calls evs = repeat (ArticleQuery key id) (k + 1)
          /\ timeouts evs = firstn k [1000; 2000; 4000]%N)
       /\ (exists k article evs,
             k <= 3
             /\ Annotate.getArticle W {| apiKey := key |} id 0 st
                = (Ret article, after st (k + 1) 0 0 evs)
             /\ Annotate.handler W (Some body) st
                = (Throw (if converts article then e else TypeError),
                   after st (k + 1) 0 0 evs)
             /\ fetch_calls evs = repeat (ArticleQuery key id) (k + 1)
             /\ timeouts evs = firstn k [1000; 2000; 4000]%N)
     else
       Summary.handler W (Some body) st = (Throw TypeError, st)
       /\ Annotate.handler W (Some body) st = (Throw TypeError, st).
Proof.
  intros Hk He Hb id. split.
  { assert (Hn : nullish (VJson body) = false).
    { unfold readable_page in Hb. apply andb_prop in Hb.
      now apply negb_true_iff. }
    unfold Actions.handler. rewrite bind_run, try_catch_run.
    cbn [response_json]. unfold ret at 1. cbv beta iota.
    do 4 (rewrite bind_run, get_run, Hn).
    rewrite bind_run, (@key_omnivore W key _ Hk). cbv beta iota.
    now rewrite bind_run, (@no_client W e _ He). }
  destruct (converts id) eqn:Hid.
  - split.
    + unfold Summary.handler. rewrite bind_run, try_catch_run.
      cbn [response_json]. unfold ret at 1. cbv beta iota.
      rewrite (read_page _ _ _ Hb), bind_run, (@key_omnivore W key _ Hk).
      cbv beta iota. rewrite bind_run.
      destruct (@summary_getArticle_rounds W {| apiKey := key |} (page_id body)
                  Hid 3 0 st eq_refl) as [k [logs [Hk3 [E [L _]]]]].
      unfold Summary.getArticle. cbn [Nat.sub]. rewrite E. cbv beta iota.
      rewrite bind_run, (@no_client W e _ He).
      exists k. eexists. split; [exact Hk3|]. split; [reflexivity|].
      destruct (console_only logs L) as [Lf [_ Lt]].
      rewrite fetch_calls_app, timeouts_app, retry_rounds_requests, length_seq.
      cbn [fetch_calls timeouts flat_map app apiKey].
      fold (fetch_calls logs). fold (timeouts logs). rewrite Lf, Lt.
      split; [now rewrite repeat_app|].
      destruct k as [|[|[|[|k]]]]; try lia; reflexivity.
    + unfold Annotate.handler. rewrite bind_run, try_catch_run, bind_run.
      cbn [response_json]. unfold ret at 1 2. cbv beta iota.
      rewrite (read_page _ _ _ Hb). fold id.
      rewrite bind_run, template_run, Hid.
      rewrite bind_run, (@key_omnivore W key _ Hk).
      cbv beta iota. rewrite bind_run.
      destruct (@annotate_getArticle_rounds W {| apiKey := key |} id
                  Hid 3 0 st eq_refl) as [k [v [logs [Hk3 [E [L _]]]]]].
      change (Annotate.getArticle_fuel 4 W {| apiKey := key |} id 0)
        with (Annotate.getArticle W {| apiKey := key |} id 0) in E.
      rewrite E. cbv beta iota.
      exists k, v. eexists. split; [exact Hk3|]. split; [reflexivity|]. split.
      { rewrite bind_run, template_run. destruct (converts v); [|reflexivity].
        now rewrite bind_run, (@no_client W e _ He). }
      destruct (console_only logs L) as [Lf [_ Lt]].
      rewrite fetch_calls_app, timeouts_app, annotate_rounds_requests,
        length_seq.
      cbn [fetch_calls timeouts flat_map app apiKey].
      fold (fetch_calls logs). fold (timeouts logs). rewrite Lf, Lt.
      split; [now rewrite repeat_app|].
      destruct k as [|[|[|[|k]]]]; try lia; reflexivity.
  - split.
    + unfold Summary.handler. rewrite bind_run, try_catch_run.
      cbn [response_json]. unfold ret at 1. cbv beta iota.
      rewrite (read_page _ _ _ Hb), bind_run, (@key_omnivore W key _ Hk).
      cbv beta iota. rewrite bind_run. unfold Summary.getArticle.
      now rewrite (@summary_getArticle_unconverted W _ _ _ _ st Hid).
    + unfold Annotate.handler. rewrite bind_run, try_catch_run, bind_run.
      cbn [response_json]. unfold ret at 1 2. cbv beta iota.
      rewrite (read_page _ _ _ Hb). fold id.
      now rewrite bind_run, template_run, Hid.
Qed.

Lemma handlers_need_the_client_witness :
  let W := {| OMNIVORE_API_KEY := Some (str "api-key");
              OPENAI_MODEL := None;
              OPENAI_SETTINGS := None;
              OPENAI_PROMPT := Some (str "Summarize");
              new_OpenAI := Some (Rejection (str "The OPENAI_API_KEY environment variable is missing or empty"));
              JSON_parse := fun _ => None;
              fetch_reply := fun _ _ => article_reply (article_with (str "some text"));
              chat_reply := fun _ _ => text_reply (str "A");
              uuid := fun _ => str "110ec58a-a0f2-4ac4-8393-c866d813b8d1" |} in
  Actions.handler W (Some (page_created (str "abc123"))) initial
  = (Throw (Rejection (str "The OPENAI_API_KEY environment variable is missing or empty")),
     initial).
Proof.
  intros W.
  exact (proj1 (@handlers_need_the_client W (page_created (str "abc123"))
                  (str "api-key") _ initial eq_refl eq_refl eq_refl)).
Defined.

(** ** The handler of annotate.js, step by step *)

Lemma to_jsval_converts c : converts (Annotate.to_jsval c) = true.
Proof. now destruct c. Qed.

Lemma annotate_handler_unconverted W body st :
  readable_page body = true ->
  converts (page_id body) = false ->
  Annotate.handler W (Some body) st = (Throw TypeError, st).
Proof.
  intros Hb Hid. unfold Annotate.handler.
  rewrite bind_run, try_catch_run, bind_run.
  cbn [response_json]. unfold ret at 1 2. cbv beta iota.
  now rewrite (read_page _ _ _ Hb), bind_run, template_run, Hid.
Qed.

Lemma annotate_handler_run W body key params st :
  readable_page body = true ->
  configured W key ->
  converts (page_id body) = true ->
  JSON_parse W (settings (the_ai W)) = Some params ->
  truthy (Annotate.env_value (OPENAI_PROMPT W)) = true ->
  exists k article logs0 logs1 logs2 logs3,
    let id := page_id body in
    let request :=
      {| chat_params := params;
         chat_instruction := Annotate.env_value (OPENAI_PROMPT W);
         chat_article := article |} in
    let results :=
      map (fun i => annotate_delivered (chat_reply W (chats st + i) request))
        (seq 0 3) in
    let refinement :=
      {| chat_params := params;
         chat_instruction := VStr Annotate.REFINEMENT_PROMPT;
         chat_article :=
           VStr (join [NEWLINE] (map Annotate.join_item results)) |} in
    let best := annotate_delivered (chat_reply W (chats st + 3) refinement) in
    let post :=
      CreateHighlight key
        (note_with (uuid W (uuids st)) id (Annotate.to_jsval best)) in
    let evs0 :=
      flat_map (annotate_round {| apiKey := key |} id) (seq 0 k)
        ++ EFetch (ArticleQuery key id) :: logs0 in
    k <= 3
    /\ Annotate.getArticle W {| apiKey := key |} id 0 st
       = (Ret article, after st (k + 1) 0 0 evs0)
    /\ annotate_outcome (fetch_reply W (fetches st + k) (ArticleQuery key id))
         article logs0
    /\ (forall i, i < k ->
          empty_success (fetch_reply W (fetches st + i) (ArticleQuery key id))
          = true)
    /\ forallb is_console logs0 = true
    /\ forallb is_console logs1 = true
    /\ forallb is_console logs2 = true
    /\ forallb is_console logs3 = true
    /\ Annotate.handler W (Some body) st
       = if converts article
         then
           if truthy article
           then
             (annotate_answer (fetch_reply W (fetches st + (k + 1)) post),
              after st (k + 2) 4 1
                (evs0
                   ++ repeat (EChat request) 3
                   ++ logs1
                   ++ EChat refinement
                   :: logs2 ++ EFetch post :: logs3))
           else (Throw RequiredError, after st (k + 1) 0 0 evs0)
         else (Throw TypeError, after st (k + 1) 0 0 evs0).
Proof.
  intros Hb Hc Hid Hp Ht. unfold Annotate.handler.
  rewrite bind_run, try_catch_run, bind_run.
  cbn [response_json]. unfold ret at 1 2. cbv beta iota.
  rewrite (read_page _ _ _ Hb), bind_run, template_run, Hid.
  rewrite bind_run, (configured_omnivore st Hc).
  cbv beta iota. rewrite bind_run.
  destruct (@annotate_getArticle_rounds W {| apiKey := key |} (page_id body)
              Hid 3 0 st eq_refl) as [k [v [logs0 [Hk [E [L0 [O [Hi _]]]]]]]].
  change (Annotate.getArticle_fuel 4 W {| apiKey := key |} (page_id body) 0)
    with (Annotate.getArticle W {| apiKey := key |} (page_id body) 0) in E.
  rewrite E. cbv beta iota.
  cbn [apiKey] in *.
  set (evs0 := flat_map (annotate_round {| apiKey := key |} (page_id body))
                 (seq 0 k)
                 ++ EFetch (ArticleQuery key (page_id body)) :: logs0) in *.
  rewrite bind_run, template_run.
  destruct (converts v) eqn:Hcv.
  2:{ exists k, v, logs0, [], [], []. cbv zeta. rewrite Hcv.
      split; [exact Hk|]. split; [reflexivity|]. split; [exact O|].
      split; [exact Hi|]. split; [exact L0|]. now repeat split. }
  rewrite bind_run, (configured_ai _ Hc). cbv beta iota.
  rewrite bind_run.
  destruct (truthy v) eqn:Hv.
  - match goal with
    | |- context [Annotate.getBestCompletionOutOf W ?ai ?p ?cs ?a ?s] =>
        destruct (@annotate_getBest_run W ai params p a cs 3 s
                    Hp eq_refl (le_S _ _ (le_S _ _ (le_n 1))) Ht Hv)
          as [logs1 [logs2 [L1 [L2 EB]]]]
    end.
    cbv zeta in EB. rewrite chats_after, Nat.add_0_r in EB.
    match type of EB with
    | context [match ?j with [] => _ | _ :: _ => _ end] =>
        destruct j as [|c j'] eqn:Ej
    end.
    { exfalso. cbn [seq map] in Ej.
      revert Ej. apply join_two_or_more. discriminate. }
    rewrite <- Ej in EB. rewrite EB. cbv beta iota.
    rewrite bind_run.
    match goal with |- context [Annotate.addAnnotation W ?o ?i ?a ?s] =>
      destruct (annotate_addAnnotation_run W o i a s Hid
                  (to_jsval_converts _))
        as [r [logs3 [E3 [L3 [_ C]]]]]
    end.
    rewrite E3. cbv beta iota.
    rewrite !fetches_after, !uuids_after, !Nat.add_0_r in C.
    rewrite !uuids_after, !Nat.add_0_r. cbn [apiKey] in *.
    exists k, v, logs0, logs1, logs2, logs3. cbv zeta. rewrite Hcv, Hv.
    split; [exact Hk|]. split; [reflexivity|]. split; [exact O|].
    split; [exact Hi|].
    split; [exact L0|]. split; [exact L1|]. split; [exact L2|].
    split; [exact L3|].
    rewrite bind_run, template_run. unfold annotate_answer.
    assert (S : forall (x : outcome http_response) (s s' : state),
               s = s' -> (x, s) = (x, s')) by (intros; now subst).
    destruct (created _) as [v'|].
    + subst r. destruct (converts v'); unfold ret; apply S;
        rewrite !after_after; (f_equal; try lia);
        fold evs0; rewrite <- !app_assoc; reflexivity.
    + rewrite C. unfold ret. apply S.
      rewrite !after_after. f_equal; try lia.
      fold evs0. rewrite <- !app_assoc. reflexivity.
  - exists k, v, logs0, [], [], []. cbv zeta. rewrite Hcv, Hv.
    split; [exact Hk|]. split; [reflexivity|]. split; [exact O|].
    split; [exact Hi|].
    split; [exact L0|]. do 3 (split; [reflexivity|]).
    unfold Annotate.getBestCompletionOutOf. rewrite Ht, Hv.
    cbn [negb orb List.length Nat.leb]. reflexivity.
Qed.

Lemma chat_calls_chat r evs :
  chat_calls (EChat r :: evs) = r :: chat_calls evs.
Proof. reflexivity. Qed.

Lemma chat_calls_fetch r evs :
  chat_calls (EFetch r :: evs) = chat_calls evs.
Proof. reflexivity. Qed.

Lemma chat_calls_logs logs evs :
  forallb is_console logs = true ->
  chat_calls (logs ++ evs) = chat_calls evs.
Proof.
  intros L. destruct (console_only logs L) as [_ [C _]].
  now rewrite chat_calls_app, C.
Qed.

Lemma fetch_calls_chats r n evs :
  fetch_calls (repeat (EChat r) n ++ evs) = fetch_calls evs.
Proof. induction n as [|n IH]; [reflexivity|exact IH]. Qed.

Lemma fetch_calls_chat r evs :
  fetch_calls (EChat r :: evs) = fetch_calls evs.
Proof. reflexivity. Qed.

Lemma annotate_rounds_chats o articleId l :
  chat_calls (flat_map (annotate_round o articleId) l) = [].
Proof. induction l as [|i l IH]; [reflexivity|exact IH]. Qed.

Lemma filter_queries key id n rs :
  filter is_create_highlight (repeat (ArticleQuery key id) n ++ rs)
  = filter is_create_highlight rs.
Proof. induction n as [|n IH]; [reflexivity|exact IH]. Qed.

(** What the article part and the whole of a run of the handler of
    annotate.js sent. *)
Lemma annotate_article_calls key id k logs0 :
  forallb is_console logs0 = true ->
  let evs0 :=
    flat_map (annotate_round {| apiKey := key |} id) (seq 0 k)
      ++ EFetch (ArticleQuery key id) :: logs0 in
  fetch_calls evs0 = repeat (ArticleQuery key id) (k + 1)
  /\ chat_calls evs0 = [].
Proof.
  intros L0 evs0. unfold evs0.
  destruct (console_only logs0 L0) as [F0 [C0 _]].
  rewrite fetch_calls_app, chat_calls_app, annotate_rounds_requests,
    annotate_rounds_chats, length_seq, fetch_calls_fetch, chat_calls_fetch,
    F0, C0.
  cbn [apiKey app]. split; [now rewrite repeat_app|reflexivity].
Qed.

Lemma annotate_handler_calls key id k logs0 logs1 logs2 logs3
    request refinement input :
  forallb is_console logs0 = true ->
  forallb is_console logs1 = true ->
  forallb is_console logs2 = true ->
  forallb is_console logs3 = true ->
  let evs :=
    (flat_map (annotate_round {| apiKey := key |} id) (seq 0 k)
       ++ EFetch (ArticleQuery key id) :: logs0)
      ++ repeat (EChat request) 3
      ++ logs1
      ++ EChat refinement
      :: logs2 ++ EFetch (CreateHighlight key input) :: logs3 in
  fetch_calls evs
  = repeat (ArticleQuery key id) (k + 1) ++ [CreateHighlight key input]
  /\ chat_calls evs = [request; request; request; refinement].
Proof.
  intros L0 L1 L2 L3 evs. unfold evs.
  destruct (@annotate_article_calls key id k logs0 L0) as [F0 C0].
  destruct (console_only logs3 L3) as [F3 [C3 _]].
  cbv zeta in F0, C0.
  rewrite fetch_calls_app, chat_calls_app, F0, C0. split.
  - f_equal.
    rewrite fetch_calls_chats, (@fetch_calls_logs logs1 _ L1),
      fetch_calls_chat, (@fetch_calls_logs logs2 _ L2), fetch_calls_fetch, F3.
    reflexivity.
  - cbn [app repeat]. rewrite !chat_calls_chat.
    rewrite (@chat_calls_logs logs1 _ L1), chat_calls_chat,
      (@chat_calls_logs logs2 _ L2), chat_calls_fetch, C3.
    reflexivity.
Qed.

(** X13. The handler of annotate.js on a body in which [body.page.id]
    can be read, the API key and the instruction being set, the OpenAI
    client starting and the settings being readable. If the id does not
    convert to a string, the handler raises a [TypeError] with nothing
    sent. Otherwise it asks the store for the article (one to four
    requests). If what [getArticle] returned does not convert to a
    string, or is falsy (an empty or absent content), the handler raises
    with nothing sent to the provider and no highlight posted.
    Otherwise it sends the same request three times to the provider,
    then the refinement request on the three results joined by newlines,
    and posts what that last call delivered as one highlight, whatever
    the provider answered; it then answers with status 200, unless the
    value that the store returned for the highlight does not convert to
    a string, in which case it raises, the highlight being posted. *)
Theorem annotate_handler_outcome (W : world) (body : json) (key : jsstring)
    (params : json) (st : state) :
  readable_page body = true ->
  configured W key ->
  JSON_parse W (settings (the_ai W)) = Some params ->
  truthy (Annotate.env_value (OPENAI_PROMPT W)) = true ->
  let run := Annotate.handler W (Some body) st in
  let id := page_id body in
  if converts id
  then
    exists k article evs,
      let request :=
        {| chat_params := params;
           chat_instruction := Annotate.env_value (OPENAI_PROMPT W);
           chat_article := article |} in
      let results :=
        map (fun i => annotate_delivered (chat_reply W (chats st + i) request))
          (seq 0 3) in
      let refinement :=
        {| chat_params := params;
           chat_instruction := VStr Annotate.REFINEMENT_PROMPT;
           chat_article :=
             VStr (join [NEWLINE] (map Annotate.join_item results)) |} in
      let best :=
        annotate_delivered (chat_reply W (chats st + 3) refinement) in
      let post :=
        CreateHighlight key
          (note_with (uuid W (uuids st)) id (Annotate.to_jsval best)) in
      k <= 3
      /\ fst (Annotate.getArticle W {| apiKey := key |} id 0 st) = Ret article
      /\ snd run
         = after st (List.length (fetch_calls evs))
             (List.length (chat_calls evs)) (List.length (posts evs)) evs
      /\ if converts article && truthy article
         then
           fst run = annotate_answer (fetch_reply W (fetches st + (k + 1)) post)
           /\ chat_calls evs = [request; request; request; refinement]
           /\ fetch_calls evs = repeat (ArticleQuery key id) (k + 1) ++ [post]
         else
           fst run
           = Throw (if converts article then RequiredError else TypeError)
           /\ chat_calls evs = []
           /\ fetch_calls evs = repeat (ArticleQuery key id) (k + 1)
  else run = (Throw TypeError, st).
Proof.
  intros Hb Hc Hp Ht run id.
  destruct (converts id) eqn:Hid;
    [|now apply annotate_handler_unconverted].
  destruct (annotate_handler_run body st Hb Hc Hid Hp Ht)
    as [k [article [logs0 [logs1 [logs2 [logs3
         [Hk [EA [_ [_ [L0 [L1 [L2 [L3 E]]]]]]]]]]]]]].
  cbv zeta in E, EA. fold id in E, EA.
  exists k, article.
  destruct (converts article) eqn:Hcv; [destruct (truthy article) eqn:Hv|];
    cbn [andb].
  - match type of E with _ = (_, after _ _ _ _ ?l) => exists l end.
    cbv zeta. rewrite EA. split; [exact Hk|]. split; [reflexivity|].
    match type of E with
    | context [EFetch (CreateHighlight key ?input) :: logs3] =>
        match type of E with
        | context [EChat ?r :: logs2 ++ _] =>
            destruct (@annotate_handler_calls key id k logs0 logs1 logs2 logs3
                        {| chat_params := params;
                           chat_instruction :=
                             Annotate.env_value (OPENAI_PROMPT W);
                           chat_article := article |}
                        r input L0 L1 L2 L3) as [F C]
        end
    end.
    cbv zeta in F, C. unfold run. rewrite E.
    cbv beta iota delta [fst snd].
    split; [|split; [reflexivity|split; [exact C|exact F]]].
    unfold posts. rewrite F, C, filter_queries, length_app, repeat_length.
    cbn [filter is_create_highlight List.length]. f_equal. lia.
  - match type of E with _ = (_, after _ _ _ _ ?l) => exists l end.
    cbv zeta. rewrite EA. split; [exact Hk|]. split; [reflexivity|].
    destruct (@annotate_article_calls key id k logs0 L0) as [F C].
    cbv zeta in F, C. unfold run. rewrite E.
    cbv beta iota delta [fst snd].
    split; [|split; [reflexivity|split; [exact C|exact F]]].
    unfold posts. rewrite F, C, <- (app_nil_r (repeat _ _)), filter_queries.
    rewrite app_nil_r, repeat_length. reflexivity.
  - match type of E with _ = (_, after _ _ _ _ ?l) => exists l end.
    cbv zeta. rewrite EA. split; [exact Hk|]. split; [reflexivity|].
    destruct (@annotate_article_calls key id k logs0 L0) as [F C].
    cbv zeta in F, C. unfold run. rewrite E.
    cbv beta iota delta [fst snd].
    split; [|split; [reflexivity|split; [exact C|exact F]]].
    unfold posts. rewrite F, C, <- (app_nil_r (repeat _ _)), filter_queries.
    rewrite app_nil_r, repeat_length. reflexivity.
Qed.

Lemma annotate_handler_outcome_witness :
  exists k article evs,
    k <= 3
    /\ fst (Annotate.getArticle
              (scripted [article_reply (article_with (str "some text"));
                         highlight_reply]
                 [text_reply (str "A"); text_reply (str "B");
                  text_reply (str "C"); text_reply (str "B-refined")])
              {| apiKey := str "api-key" |}
              (page_id (page_created (str "abc123"))) 0 initial)
       = Ret article
    /\ snd (Annotate.handler
              (scripted [article_reply (article_with (str "some text"));
                         highlight_reply]
                 [text_reply (str "A"); text_reply (str "B");
                  text_reply (str "C"); text_reply (str "B-refined")])
              (Some (page_created (str "abc123"))) initial)
       = after initial (List.length (fetch_calls evs))
           (List.length (chat_calls evs)) (List.length (posts evs)) evs.
Proof.
  destruct (@annotate_handler_outcome
              (scripted [article_reply (article_with (str "some text"));
                         highlight_reply]
                 [text_reply (str "A"); text_reply (str "B");
                  text_reply (str "C"); text_reply (str "B-refined")])
              (page_created (str "abc123")) (str "api-key") sample_settings
              initial eq_refl (conj eq_refl eq_refl) eq_refl eq_refl)
    as [k [article [evs [Hk [EA [E _]]]]]].
  exists k, article, evs. exact (conj Hk (conj EA E)).
Defined.

(** The highlight is posted and the handler raises all the same: the
    store answers the mutation with a value that does not convert. *)
Example annotate_handler_raises_after_posting :
  let W :=
    scripted
      [article_reply (article_with (str "some text"));
       FetchResponse 200
         (Some (JObj [(str "data",
                       JObj [(str "createHighlight",
                              JObj [(str "toString", JNull)])])]))]
      [text_reply (str "A"); text_reply (str "B"); text_reply (str "C");
       text_reply (str "B-refined")] in
  let run := Annotate.handler W (Some (page_created (str "abc123"))) initial in
  fst run = Throw TypeError
  /\ posts (trace (snd run))
     = [CreateHighlight (str "api-key")
          (note_with (nth 0 sample_uuids []) (VStr (str "abc123"))
             (VStr (str "B-refined")))].
Proof. cbn zeta. split; reflexivity. Qed.

(** X14. A failure of the store does not stop the handler of
    annotate.js. When the id converts to a string and the first reply to
    the article query is a failure (transport, status, or an [errors]
    array), [getArticle] hands back a [Response] object, which is truthy
    and converts to a string: the provider is asked three times, and
    then once more, to summarise that object (its message reads
    "[object Response]"), and one highlight is posted: two requests to
    the store and four to the provider. The handler then answers with
    status 200, unless the value that the store returned for the
    highlight does not convert to a string. *)
Theorem annotate_handler_store_failure (W : world) (body : json)
    (key : jsstring) (params : json) (st : state) :
  readable_page body = true ->
  configured W key ->
  converts (page_id body) = true ->
  JSON_parse W (settings (the_ai W)) = Some params ->
  truthy (Annotate.env_value (OPENAI_PROMPT W)) = true ->
  store_failure (fetch_reply W (fetches st) (ArticleQuery key (page_id body))) ->
  exists e refinement evs,
    let request :=
      {| chat_params := params;
         chat_instruction := Annotate.env_value (OPENAI_PROMPT W);
         chat_article := VResponse (MsgArticleError e) 500 |} in
    let post :=
      CreateHighlight key
        (note_with (uuid W (uuids st)) (page_id body)
           (Annotate.to_jsval
              (annotate_delivered
                 (chat_reply W (chats st + 3) refinement)))) in
    Annotate.handler W (Some body) st
    = (annotate_answer (fetch_reply W (fetches st + 1) post),
       after st 2 4 1 evs)
    /\ chat_calls evs = [request; request; request; refinement]
    /\ fetch_calls evs = [ArticleQuery key (page_id body); post].
Proof.
  intros Hb Hc Hid Hp Ht Hf.
  destruct (annotate_handler_run body st Hb Hc Hid Hp Ht)
    as [k [article [logs0 [logs1 [logs2 [logs3
         [Hk [_ [O [Hi [L0 [L1 [L2 [L3 E]]]]]]]]]]]]]].
  cbv zeta in E.
  pose proof (store_failure_no_data Hf) as Hd.
  assert (k = 0) as ->.
  { destruct k as [|k]; [reflexivity|].
    specialize (Hi 0 (Nat.lt_0_succ k)). rewrite Nat.add_0_r in Hi.
    unfold empty_success in Hi. rewrite Hd in Hi. discriminate. }
  rewrite Nat.add_0_r in O. unfold annotate_outcome in O. rewrite Hd in O.
  destruct O as [e [-> ->]].
  change (converts (VResponse (MsgArticleError e) 500)) with true in E.
  change (truthy (VResponse (MsgArticleError e) 500)) with true in E.
  cbv iota in E. cbn [Nat.add] in E.
  match type of E with
  | context [EFetch (CreateHighlight key ?input) :: logs3] =>
      match type of E with
      | context [EChat ?r :: logs2 ++ _] =>
          destruct (@annotate_handler_calls key (page_id body) 0
                      [EConsoleError (MsgArticleError e)] logs1 logs2 logs3
                      {| chat_params := params;
                         chat_instruction :=
                           Annotate.env_value (OPENAI_PROMPT W);
                         chat_article := VResponse (MsgArticleError e) 500 |}
                      r input eq_refl L1 L2 L3) as [F C];
          exists e, r
      end
  end.
  eexists. cbv zeta. split; [exact E|]. split; [exact C|exact F].
Qed.

Lemma annotate_handler_store_failure_witness :
  exists e refinement evs,
    Annotate.handler
      (scripted [] [text_reply (str "A"); text_reply (str "B");
                    text_reply (str "C"); text_reply (str "B-refined")])
      (Some (page_created (str "abc123"))) initial
    = (Ret {| resp_body := TextBody MsgAnnotationAdded; resp_status := 200 |},
       after initial 2 4 1 evs)
    /\ chat_calls evs
       = [{| chat_params := sample_settings;
             chat_instruction := VStr (str "Summarize");
             chat_article := VResponse (MsgArticleError e) 500 |};
          {| chat_params := sample_settings;
             chat_instruction := VStr (str "Summarize");
             chat_article := VResponse (MsgArticleError e) 500 |};
          {| chat_params := sample_settings;
             chat_instruction := VStr (str "Summarize");
             chat_article := VResponse (MsgArticleError e) 500 |};
          refinement].
Proof.
  destruct (@annotate_handler_store_failure
              (scripted [] [text_reply (str "A"); text_reply (str "B");
                            text_reply (str "C"); text_reply (str "B-refined")])
              (page_created (str "abc123")) (str "api-key") sample_settings
              initial eq_refl (conj eq_refl eq_refl) eq_refl eq_refl eq_refl
              (transport_error (Rejection (str "fetch failed"))))
    as [e [refinement [evs [E [C _]]]]].
  exists e, refinement, evs. exact (conj E C).
Defined.



(** ** [addAnnotation] in actions.js, given an id *)

(** X16. [addAnnotation(articleId, annotation, id)] of actions.js. When
    [id] is not a string it raises at [id.substring(0, 8)], with nothing
    sent. Given a string it sends one request, for a highlight whose id
    is that string and whose short id is its first eight code units. It
    returns what the store answered for the highlight; when the request
    failed, it prints the error and returns [undefined], unless the
    article id does not convert to a string: the line to print cannot
    be written, and the call raises. *)
Theorem actions_addAnnotation_given_an_id (W : world) (o : Omnivore)
    (articleId annotation id : jsval) (st : state) :
  match id with
  | VJson (JStr s) =>
      let request :=
        CreateHighlight (apiKey o) (note_with s articleId annotation) in
      exists r logs,
        Actions.addAnnotation W o articleId annotation id st
        = (r, after st 1 0 0 (EFetch request :: logs))
        /\ forallb is_console logs = true
        /\ r = match created (fetch_reply W (fetches st) request) with
               | Some v => Ret v
               | None =>
                   if converts articleId then Ret VUndefined
                   else Throw TypeError
               end
        /\ (created (fetch_reply W (fetches st) request) = None ->
            converts articleId = true ->
            exists e logs',
              logs = logs' ++ [EConsoleError (MsgAnnotationError e)])
  | _ =>
      Actions.addAnnotation W o articleId annotation id st
      = (Throw TypeError, st)
  end.
Proof.
  destruct id as [|[| | |s| |]|]; try reflexivity.
  cbv zeta.
  destruct (actions_addAnnotation_run W o articleId annotation s st)
    as [r [logs [E [L C]]]].
  cbv zeta in C. exists r, logs. split; [exact E|]. split; [exact L|].
  destruct (created _) as [v|].
  - split; [exact C|]. discriminate.
  - destruct (converts articleId).
    + destruct C as [-> [e [logs' [-> _]]]]. split; [reflexivity|].
      intros _ _. now exists e, logs'.
    + split; [exact C|]. discriminate.
Qed.

(** ** What a response of annotate.js means *)

Lemma keyed_none_posts evs :
  forallb (keyed None) evs = true -> posts evs = [].
Proof.
  unfold posts. induction evs as [|e evs IH]; [reflexivity|].
  cbn [forallb]. intros H. apply andb_prop in H. destruct H as [He H].
  destruct e as [[key id|key input|url b]|r|ms|m];
    cbn in He; try discriminate; cbn; auto.
Qed.

(** X17. When the handler of annotate.js answers, it answers with
    status 400 if the body could not be read, having sent nothing, and
    with status 200 otherwise, having posted exactly one highlight. *)
Theorem annotate_handler_responses (W : world) (req : option json)
    (st : state) (response : http_response) (st' : state) :
  Annotate.handler W req st = (Ret response, st') ->
  exists evs,
    trace st' = trace st ++ evs
    /\ match req with
       | None =>
           response = {| resp_body := TextBody MsgNoPayloadFound;
                         resp_status := 400 |}
           /\ evs = [EConsoleError (MsgNoPayload SyntaxError)]
       | Some _ =>
           response = {| resp_body := TextBody MsgAnnotationAdded;
                         resp_status := 200 |}
           /\ List.length (posts evs) = 1
       end.
Proof.
  unfold Annotate.handler. rewrite bind_run, try_catch_run, bind_run.
  destruct req as [body|]; cbn [response_json].
  2:{ unfold throw at 1. cbv beta iota. rewrite bind_run.
      unfold console_error. rewrite emit_run. unfold ret.
      intros H. inversion H; subst; clear H.
      eexists. split; [reflexivity|]. now split. }
  unfold ret at 1 2. cbv beta iota. rewrite bind_run, get_run.
  destruct (nullish (VJson body)); [discriminate|].
  rewrite bind_run, get_run.
  destruct (nullish (own_prop (VJson body) (str "page"))); [discriminate|].
  rewrite bind_run, template_run.
  destruct (converts (own_prop (own_prop (VJson body) (str "page")) (str "id")))
    eqn:Hid; [|discriminate].
  rewrite bind_run.
  destruct (new_Omnivore W st) as [[o|e|] s0] eqn:Eo; try discriminate.
  assert (s0 = st) as ->.
  { unfold new_Omnivore in Eo.
    destruct (OMNIVORE_API_KEY W) as [[|c s]|]; now inversion Eo. }
  rewrite bind_run.
  destruct (@annotate_getArticle_rounds W o
              (own_prop (own_prop (VJson body) (str "page")) (str "id"))
              Hid 3 0 st eq_refl) as [k [v [logs0 [_ [E [L0 _]]]]]].
  change (Annotate.getArticle_fuel 4 W o
            (own_prop (own_prop (VJson body) (str "page")) (str "id")) 0)
    with (Annotate.getArticle W o
            (own_prop (own_prop (VJson body) (str "page")) (str "id")) 0) in E.
  rewrite E. cbv beta iota. rewrite bind_run, template_run.
  destruct (converts v); [|discriminate].
  rewrite bind_run.
  match goal with |- context [new_AI W ?s] =>
    destruct (new_AI W s) as [[ai|e|] s1] eqn:Ea; try discriminate;
    assert (s1 = s) as ->
      by (unfold new_AI in Ea; destruct (new_OpenAI W); now inversion Ea)
  end.
  rewrite bind_run.
  match goal with
  | |- context [Annotate.getBestCompletionOutOf W ai ?p ?cs ?a ?s] =>
      destruct (@traced_annotate_getBest (keyed None)
                  (fun _ => eq_refl) (fun _ => eq_refl) W ai p cs a s)
        as [du [evs1 [EB PB]]];
      destruct (Annotate.getBestCompletionOutOf W ai p cs a s)
        as [[c|e|] s2]; try discriminate
  end.
  cbn [snd] in EB. subst s2. rewrite bind_run.
  match goal with |- context [Annotate.addAnnotation W o ?i ?a ?s] =>
    destruct (annotate_addAnnotation_run W o i a s Hid (to_jsval_converts _))
      as [r [logs3 [-> [L3 _]]]]
  end.
  rewrite bind_run, template_run.
  destruct (converts r); [|discriminate].
  unfold ret. intros H. inversion H; subst; clear H.
  rewrite !after_after. cbn [trace after].
  eexists. split; [reflexivity|]. split; [reflexivity|].
  rewrite !posts_append, (keyed_none_posts _ PB).
  replace (posts (flat_map (annotate_round o
                     (own_prop (own_prop (VJson body) (str "page")) (str "id")))
                    (seq 0 k))) with (@nil fetch_request)
    by (clear; induction (seq 0 k) as [|i l IH]; [reflexivity|exact IH]).
  unfold posts. rewrite !fetch_calls_fetch.
  destruct (console_only logs0 L0) as [-> _].
  destruct (console_only logs3 L3) as [-> _].
  reflexivity.
Qed.

Lemma annotate_handler_responses_witness :
  exists evs,
    trace (snd (Annotate.handler
                  (scripted [article_reply (article_with (str "some text"))]
                     [text_reply (str "A")])
                  (Some (page_created (str "abc123"))) initial))
    = trace initial ++ evs
    /\ List.length (posts evs) = 1.
Proof.
  destruct (@annotate_handler_responses
              (scripted [article_reply (article_with (str "some text"))]
                 [text_reply (str "A")])
              (Some (page_created (str "abc123"))) initial
              {| resp_body := TextBody MsgAnnotationAdded; resp_status := 200 |}
              (snd (Annotate.handler
                      (scripted [article_reply (article_with (str "some text"))]
                         [text_reply (str "A")])
                      (Some (page_created (str "abc123"))) initial))
              eq_refl)
    as [evs [T [_ P]]].
  exists evs. exact (conj T P).
Defined.
